(** * Messari model: response-to-table shapers

    A shallow embedding of
    [openbb_terminal/cryptocurrency/due_diligence/messari_model.py].

    Every function of the module issues one HTTP GET (the tokenomics
    shaper a second one through the timeseries fetch), branches on the
    status code and reshapes the JSON body into pandas tables.  The
    embedding keeps that shape: the transport is a function from requests
    to responses, console output and requests are recorded in a trace, and
    Python exceptions are values of an error type. *)

From Stdlib Require Import String Ascii List ZArith Bool Lia.
From ExtLib Require Import Structures.Monad.
Import ListNotations.
Import MonadNotation.
Local Open Scope string_scope.
Local Open Scope list_scope.
Local Open Scope monad_scope.

Set Warnings "-register-all".

(* ===================================================================== *)
(** ** Python strings *)
(* ===================================================================== *)

(** The [str] methods the module calls, on ASCII strings. *)
Module Py.

Definition is_upper (c : ascii) : bool :=
  let n := nat_of_ascii c in (65 <=? n)%nat && (n <=? 90)%nat.

Definition is_lower (c : ascii) : bool :=
  let n := nat_of_ascii c in (97 <=? n)%nat && (n <=? 122)%nat.

Definition upper_char (c : ascii) : ascii :=
  if is_lower c then ascii_of_nat (nat_of_ascii c - 32) else c.

Definition lower_char (c : ascii) : ascii :=
  if is_upper c then ascii_of_nat (nat_of_ascii c + 32) else c.

Fixpoint lower (s : string) : string :=
  match s with
  | EmptyString => EmptyString
  | String c t => String (lower_char c) (lower t)
  end.

(** [str.capitalize]: first character upper-cased, the rest lower-cased. *)
Definition capitalize (s : string) : string :=
  match s with
  | EmptyString => EmptyString
  | String c t => String (upper_char c) (lower t)
  end.

(** [needle in hay]. *)
Fixpoint contains (needle hay : string) : bool :=
  String.prefix needle hay ||
  match hay with
  | EmptyString => false
  | String _ t => contains needle t
  end.

(** [s.split(c)[0]] for a one-character separator: the part of [s]
    before the first [c], all of [s] when [c] does not occur. *)
Fixpoint split_first (c : ascii) (s : string) : string :=
  match s with
  | EmptyString => EmptyString
  | String a t => if Ascii.eqb a c then EmptyString
                  else String a (split_first c t)
  end.

(** [s.rstrip(c)]: every trailing [c] removed. *)
Fixpoint rstrip (c : ascii) (s : string) : string :=
  match s with
  | EmptyString => EmptyString
  | String a t =>
      match rstrip c t with
      | EmptyString => if Ascii.eqb a c then EmptyString
                       else String a EmptyString
      | t' => String a t'
      end
  end.

(** [sep.join(l)]. *)
Definition join (sep : string) (l : list string) : string :=
  String.concat sep l.

(** [s.replace(old, new)] for a non-empty [old]: occurrences are replaced
    left to right without overlap.  [skip] counts the characters of the
    occurrence just replaced that are still to be passed over. *)
Fixpoint replace_from (old new : string) (skip : nat) (s : string) : string :=
  match s with
  | EmptyString => EmptyString
  | String a t =>
      match skip with
      | S k => replace_from old new k t
      | O => if String.prefix old s
             then (new ++ replace_from old new (String.length old - 1) t)%string
             else String a (replace_from old new 0 t)
      end
  end.

Definition replace (old new s : string) : string :=
  replace_from old new 0 s.

(** [re.sub("<[^>]*>", "", s)]: a tag starts at a ["<"] that is followed,
    somewhere, by a [">"], and runs to the first such [">"]. *)
Fixpoint has_gt (s : string) : bool :=
  match s with
  | EmptyString => false
  | String a t => Ascii.eqb a ">" || has_gt t
  end.

Fixpoint strip_tags_from (in_tag : bool) (s : string) : string :=
  match s with
  | EmptyString => EmptyString
  | String a t =>
      if in_tag then
        strip_tags_from (negb (Ascii.eqb a ">")) t
      else if Ascii.eqb a "<" && has_gt t then strip_tags_from true t
      else String a (strip_tags_from false t)
  end.

Definition strip_tags (s : string) : string := strip_tags_from false s.

(** [repr(s)] of a string of ASCII characters: between single quotes,
    or between double quotes when the string holds a single quote and no
    double one; the quote in use and the backslash are escaped, and so
    are the control characters. *)
Definition double_quote : ascii := ascii_of_nat 34.

Definition has_char (c : ascii) (s : string) : bool :=
  contains (String c EmptyString) s.

Definition hex_digit (n : nat) : ascii :=
  ascii_of_nat (if (n <? 10)%nat then 48 + n else 87 + n).

Definition backslash : ascii := ascii_of_nat 92.

Definition escaped (c : ascii) : string :=
  String backslash (String c EmptyString).

Definition repr_char (quote c : ascii) : string :=
  let n := nat_of_ascii c in
  if Ascii.eqb c quote || Ascii.eqb c backslash then escaped c
  else if (n =? 10)%nat then escaped "n"
  else if (n =? 13)%nat then escaped "r"
  else if (n =? 9)%nat then escaped "t"
  else if (n <? 32)%nat || (n =? 127)%nat
  then String backslash
              (String "x" (String (hex_digit (n / 16))
                                  (String (hex_digit (n mod 16))
                                          EmptyString)))
  else String c EmptyString.

Fixpoint repr_chars (quote : ascii) (s : string) : string :=
  match s with
  | EmptyString => EmptyString
  | String c t => (repr_char quote c ++ repr_chars quote t)%string
  end.

Definition repr_str (s : string) : string :=
  let quote := if has_char "'" s && negb (has_char double_quote s)
               then double_quote else "'"%char in
  String quote (repr_chars quote s ++ String quote EmptyString).

(** [repr] of a list of strings, and the text numpy prints for an array
    of them that fits on one line. *)
Definition repr_list (l : list string) : string :=
  ("[" ++ join ", " (map repr_str l) ++ "]")%string.

Definition repr_array (l : list string) : string :=
  ("[" ++ join " " (map repr_str l) ++ "]")%string.

End Py.

(* ===================================================================== *)
(** ** JSON values and Python exceptions *)
(* ===================================================================== *)

(** A parsed JSON body.  An object is the [dict] the parser built, kept as
    an association list in insertion order (the order pandas reads column
    names in); a lookup takes the first binding of a key.  Numbers are
    carried as integers: no function of the module computes with them. *)
Inductive json : Type :=
| JNull
| JBool (b : bool)
| JNum (z : Z)
| JStr (s : string)
| JArr (l : list json)
| JObj (kv : list (string * json)).

Inductive exn : Type :=
| KeyError (k : string)
| TypeError
| AttributeError
| ValueError
| JSONDecodeError
| Unsupported.

(** A computation that may raise. *)
Definition Exc (A : Type) : Type := (exn + A)%type.

#[export] Instance Monad_Exc : Monad Exc :=
  {| ret := fun _ a => inr a;
     bind := fun _ _ m k => match m with inl e => inl e | inr a => k a end |}.

Definition throw {A : Type} (e : exn) : Exc A := inl e.

Fixpoint mapM {A B : Type} (f : A -> Exc B) (l : list A) : Exc (list B) :=
  match l with
  | [] => inr []
  | a :: t =>
      match f a with
      | inl e => inl e
      | inr b => match mapM f t with
                 | inl e => inl e
                 | inr bs => inr (b :: bs)
                 end
      end
  end.

Module Json.

Fixpoint lookup (k : string) (kv : list (string * json)) : option json :=
  match kv with
  | [] => None
  | (k', v) :: t => if String.eqb k k' then Some v else lookup k t
  end.

Definition has_key (k : string) (kv : list (string * json)) : bool :=
  match lookup k kv with Some _ => true | None => false end.

(** [j[k]] for a string key [k]: only a dict can be subscripted by it. *)
Definition getitem (j : json) (k : string) : Exc json :=
  match j with
  | JObj kv => match lookup k kv with
               | Some v => inr v
               | None => throw (KeyError k)
               end
  | _ => throw TypeError
  end.

(** [k in j]. *)
Definition contains_key (k : string) (j : json) : Exc bool :=
  match j with
  | JObj kv => inr (has_key k kv)
  | JArr l => inr (existsb (fun x => match x with
                                      | JStr s => String.eqb s k
                                      | _ => false
                                      end) l)
  | JStr s => inr (Py.contains k s)
  | _ => throw TypeError
  end.

Fixpoint chars (s : string) : list json :=
  match s with
  | EmptyString => []
  | String a t => JStr (String a EmptyString) :: chars t
  end.

(** [for x in j]: the items a [for] loop visits. *)
Definition iter (j : json) : Exc (list json) :=
  match j with
  | JArr l => inr l
  | JObj kv => inr (map (fun p => JStr (fst p)) kv)
  | JStr s => inr (chars s)
  | _ => throw TypeError
  end.

Definition is_null (j : json) : bool :=
  match j with JNull => true | _ => false end.

(** Truth value of [j] in a condition. *)
Definition truthy (j : json) : bool :=
  match j with
  | JNull => false
  | JBool b => b
  | JNum z => negb (Z.eqb z 0)
  | JStr s => negb (String.eqb s "")
  | JArr l => match l with [] => false | _ => true end
  | JObj kv => match kv with [] => false | _ => true end
  end.

(** A value that must be a [str]. *)
Definition as_str (j : json) : Exc string :=
  match j with
  | JStr s => inr s
  | _ => throw TypeError
  end.

(** [j.split(c)[0]]: only a [str] has the method. *)
Definition split_first (c : ascii) (j : json) : Exc json :=
  match j with
  | JStr s => inr (JStr (Py.split_first c s))
  | _ => throw AttributeError
  end.

Fixpoint getpath (j : json) (path : list string) : Exc json :=
  match path with
  | [] => inr j
  | k :: rest => match getitem j k with
                 | inl e => inl e
                 | inr v => getpath v rest
                 end
  end.

End Json.

(* ===================================================================== *)
(** ** pandas tables *)
(* ===================================================================== *)

(** The fragment of pandas the module uses.  A row is a record: a list of
    labelled cells.  [NaN], [NaT] and a [None] cell are the one missing
    marker [JNull]: [fillna], [dropna] and [DataFrame.empty] do not tell
    them apart.  Calls whose pandas behaviour lies outside the fragment
    (a list of scalars given to the constructor, a subscript by a label
    that occurs twice) raise [Unsupported]. *)
Module pd.

Abbreviation Row := (list (string * json)) (only parsing).

Inductive Index : Type :=
| RangeIndex
| LabelIndex (name : string) (labels : list json).

Record DataFrame : Type := mkDF {
  columns : list string;
  index : Index;
  rows : list Row
}.

(** [pd.DataFrame()]. *)
Definition empty_frame : DataFrame := mkDF [] RangeIndex [].

(** [df.empty]: some axis has length zero. *)
Definition empty (df : DataFrame) : bool :=
  match columns df, rows df with
  | [], _ => true
  | _, [] => true
  | _, _ => false
  end.

Definition mem (k : string) (l : list string) : bool :=
  existsb (String.eqb k) l.

Definition count (k : string) (l : list string) : nat :=
  List.length (filter (String.eqb k) l).

Fixpoint has_dup (l : list string) : bool :=
  match l with
  | [] => false
  | k :: t => mem k t || has_dup t
  end.

(** *** Construction *)

Fixpoint add_keys (seen : list string) (r : list (string * json))
  : list string :=
  match r with
  | [] => seen
  | (k, _) :: t => add_keys (if mem k seen then seen else seen ++ [k]) t
  end.

(** Column labels of a list of records: the keys in order of first
    appearance. *)
Definition union_keys (recs : list (list (string * json))) : list string :=
  fold_left add_keys recs [].

Definition cell_of (r : list (string * json)) (c : string) : json :=
  match Json.lookup c r with
  | Some v => v
  | None => JNull
  end.

Definition reindex (cols : list string) (r : list (string * json)) : Row :=
  map (fun c => (c, cell_of r c)) cols.

Definition from_records (recs : list (list (string * json))) : DataFrame :=
  let cols := union_keys recs in
  mkDF cols RangeIndex (map (reindex cols) recs).

Fixpoint as_records (l : list json) : option (list (list (string * json))) :=
  match l with
  | [] => Some []
  | JObj kv :: t => option_map (cons kv) (as_records t)
  | _ :: _ => None
  end.

(** [pd.DataFrame(j)] for a JSON value [j]. *)
Definition DataFrame_of (j : json) : Exc DataFrame :=
  match j with
  | JNull => inr empty_frame
  | JArr l => match as_records l with
              | Some recs => inr (from_records recs)
              | None => throw Unsupported
              end
  | JObj [] => inr empty_frame
  | JObj (_ :: _) => throw Unsupported
  | JBool _ | JNum _ | JStr _ => throw ValueError
  end.

(** [pd.DataFrame({c1: l1, c2: l2})] for two lists of one length. *)
Definition two_columns (c1 : string) (l1 : list json)
                       (c2 : string) (l2 : list json) : DataFrame :=
  mkDF [c1; c2] RangeIndex
       (map (fun p => [(c1, fst p); (c2, snd p)]) (combine l1 l2)).

Fixpoint as_labels (l : list json) : option (list string) :=
  match l with
  | [] => Some []
  | JStr s :: t => option_map (cons s) (as_labels t)
  | _ :: _ => None
  end.

Fixpoint as_rows (l : list json) : option (list (list json)) :=
  match l with
  | [] => Some []
  | JArr r :: t => option_map (cons r) (as_rows t)
  | _ :: _ => None
  end.

Definition pad (width : nat) (r : list json) : list json :=
  r ++ repeat JNull (width - List.length r).

(** [pd.DataFrame(values, columns=cols)]: rows given as lists.  Short
    rows are padded with missing cells; the widest row must be as wide
    as the list of labels. *)
Definition DataFrame_values (values cols : json) : Exc DataFrame :=
  match cols with
  | JArr cl =>
      match as_labels cl with
      | None => throw Unsupported
      | Some labels =>
          match values with
          | JNull | JArr [] => inr (mkDF labels RangeIndex [])
          | JArr vl =>
              match as_rows vl with
              | None => throw Unsupported
              | Some rs =>
                  let width := fold_right Nat.max 0 (map (@List.length json) rs) in
                  if Nat.eqb width (List.length labels)
                  then inr (mkDF labels RangeIndex
                                 (map (fun r => combine labels (pad width r)) rs))
                  else throw ValueError
              end
          | _ => throw Unsupported
          end
      end
  | _ => throw Unsupported
  end.

(** *** Columns *)

Definition map_cells (f : json -> json) (df : DataFrame) : DataFrame :=
  mkDF (columns df) (index df)
       (map (map (fun kc => (fst kc, f (snd kc)))) (rows df)).

(** [df.columns = [f(c) for c in df.columns]]. *)
Definition map_columns (f : string -> string) (df : DataFrame) : DataFrame :=
  mkDF (map f (columns df)) (index df)
       (map (map (fun kc => (f (fst kc), snd kc))) (rows df)).

(** [df.columns = new]: the lengths must agree. *)
Definition set_columns (new : list string) (df : DataFrame) : Exc DataFrame :=
  if Nat.eqb (List.length new) (List.length (columns df))
  then inr (mkDF new (index df)
                 (map (fun r => combine new (map snd r)) (rows df)))
  else throw ValueError.

(** [df.rename(columns=mapping)]. *)
Definition rename_label (mapping : list (string * string)) (k : string)
  : string :=
  match find (fun p => String.eqb k (fst p)) mapping with
  | Some p => snd p
  | None => k
  end.

Definition rename (mapping : list (string * string)) (df : DataFrame)
  : DataFrame :=
  map_columns (rename_label mapping) df.

(** [df.fillna(v)]. *)
Definition fillna (v : json) (df : DataFrame) : DataFrame :=
  map_cells (fun c => if Json.is_null c then v else c) df.

(** [df.drop(names, axis=1, errors="ignore")]. *)
Definition drop_ignore (names : list string) (df : DataFrame) : DataFrame :=
  mkDF (filter (fun k => negb (mem k names)) (columns df)) (index df)
       (map (filter (fun kc => negb (mem (fst kc) names))) (rows df)).

(** [df.drop(names, axis=1)]: labels that are no column make one
    [KeyError].  Its message lists the labels that are missing; when a
    label of the table occurs twice pandas takes another path, and the
    message is the text of the whole array of [names]. *)
Definition drop (names : list string) (df : DataFrame) : Exc DataFrame :=
  match filter (fun n => negb (mem n (columns df))) names with
  | [] => inr (drop_ignore names df)
  | missing =>
      throw (KeyError ((if has_dup (columns df) then Py.repr_array names
                        else Py.repr_list missing)
                       ++ " not found in axis"))
  end.

Definition cells_of (name : string) (r : Row) : list json :=
  map snd (filter (fun kc => String.eqb (fst kc) name) r).

(** [df[name]]: the cells of the one column labelled [name]. *)
Definition getitem (name : string) (df : DataFrame) : Exc (list json) :=
  match count name (columns df) with
  | 0 => throw (KeyError name)
  | 1 => inr (map (fun r => match cells_of name r with
                           | c :: _ => c
                           | [] => JNull
                           end) (rows df))
  | _ => throw Unsupported
  end.

(** [df[names]]: the sub-table of the listed columns.  Labels that are
    no column make one [KeyError]: it lists the missing ones, or says
    that none of [names] is there. *)
Definition getitem_list (names : list string) (df : DataFrame)
  : Exc DataFrame :=
  match filter (fun n => negb (mem n (columns df))) names with
  | (_ :: _) as missing =>
      if Nat.eqb (List.length missing) (List.length names)
      then throw (KeyError ("None of [Index(" ++ Py.repr_list names
                            ++ ", dtype='object')] are in the [columns]"))
      else throw (KeyError (Py.repr_list missing ++ " not in index"))
  | [] =>
      inr (mkDF (flat_map (fun n => filter (String.eqb n) (columns df)) names)
                (index df)
                (map (fun r => flat_map
                                 (fun n => filter (fun kc => String.eqb n (fst kc)) r)
                                 names)
                     (rows df)))
  end.

(** [df[name] = series]. *)
Definition setitem (name : string) (series : list json) (df : DataFrame)
  : Exc DataFrame :=
  if negb (Nat.eqb (List.length series) (List.length (rows df)))
  then throw ValueError
  else if mem name (columns df)
  then inr (mkDF (columns df) (index df)
                 (map (fun vr => map (fun kc => if String.eqb (fst kc) name
                                                then (fst kc, fst vr) else kc)
                                     (snd vr))
                      (combine series (rows df))))
  else inr (mkDF (columns df ++ [name]) (index df)
                 (map (fun vr => snd vr ++ [(name, fst vr)])
                      (combine series (rows df)))).

(** [df.insert(0, name, series)]: refused when the label exists. *)
Definition insert0 (name : string) (series : list json) (df : DataFrame)
  : Exc DataFrame :=
  if mem name (columns df) then throw ValueError
  else if negb (Nat.eqb (List.length series) (List.length (rows df)))
  then throw ValueError
  else inr (mkDF (name :: columns df) (index df)
                 (map (fun vr => (name, fst vr) :: snd vr)
                      (combine series (rows df)))).

(** [df.apply(f, axis=1)]: [f] on every row, in order. *)
Definition apply_rows (f : Row -> Exc json) (df : DataFrame)
  : Exc (list json) :=
  mapM f (rows df).

(** [series.map(f)]. *)
Definition series_map (f : json -> Exc json) (s : list json)
  : Exc (list json) :=
  mapM f s.

(** [df.set_index(name)]: pandas looks for the label itself, and
    words the [KeyError] of a label that is no column its own way. *)
Definition set_index (name : string) (df : DataFrame) : Exc DataFrame :=
  match getitem name df with
  | inl (KeyError _) =>
      throw (KeyError ("None of " ++ Py.repr_list [name]
                       ++ " are in the columns"))
  | inl e => inl e
  | inr labels =>
      inr (mkDF (filter (fun k => negb (String.eqb k name)) (columns df))
                (LabelIndex name labels)
                (map (filter (fun kc => negb (String.eqb (fst kc) name)))
                     (rows df)))
  end.

(** *** Column types *)

(** The cells at position [i] of every row. *)
Definition column_at (i : nat) (df : DataFrame) : list json :=
  map (fun r => nth i (map snd r) JNull) (rows df).

(** A column pandas stores as numbers: numbers and missing cells only,
    with a number among them. *)
Definition numeric_cells (cells : list json) : bool :=
  forallb (fun c => match c with JNum _ | JNull => true | _ => false end) cells
  && existsb (fun c => match c with JNum _ => true | _ => false end) cells.

(** A column whose values pandas infers to be booleans: booleans and
    missing cells only, with a boolean among them. *)
Definition bool_cells (cells : list json) : bool :=
  forallb (fun c => match c with JBool _ | JNull => true | _ => false end)
          cells
  && existsb (fun c => match c with JBool _ => true | _ => false end) cells.

Fixpoint filter_mask {A : Type} (mask : list bool) (l : list A) : list A :=
  match mask, l with
  | b :: m, a :: t => if b then a :: filter_mask m t else filter_mask m t
  | _, _ => []
  end.

Definition column_mask (keep : list json -> bool) (df : DataFrame)
  : list bool :=
  map (fun i => keep (column_at i df)) (seq 0 (List.length (columns df))).

(** [df.dropna(axis=1, how="all")]: columns with no value at all go. *)
Definition dropna_all_columns (df : DataFrame) : DataFrame :=
  let mask := column_mask (existsb (fun c => negb (Json.is_null c))) df in
  mkDF (filter_mask mask (columns df)) (index df)
       (map (filter_mask mask) (rows df)).

Fixpoint map_mask {A : Type} (f : A -> A) (mask : list bool) (l : list A)
  : list A :=
  match mask, l with
  | b :: m, a :: t => (if b then f a else a) :: map_mask f m t
  | _, _ => l
  end.

(** [df.replace(to_replace=[None], value=v)]: a numeric column cannot
    hold [None] and is left as it is; in every other column the missing
    cells become [v]. *)
Definition replace_None (v : json) (df : DataFrame) : DataFrame :=
  let mask := column_mask (fun cells => negb (numeric_cells cells)) df in
  mkDF (columns df) (index df)
       (map (map_mask (fun kc => (fst kc,
                                  if Json.is_null (snd kc) then v else snd kc))
                      mask)
            (rows df)).

(** [series.str.replace(old, new)]: the [.str] accessor is refused on a
    column of numbers and on one of booleans, with or without missing
    cells; a cell that is no string becomes missing. *)
Definition str_replace (old new : string) (cells : list json)
  : Exc (list json) :=
  if numeric_cells cells || bool_cells cells then throw AttributeError
  else inr (map (fun c => match c with
                          | JStr s => JStr (Py.replace old new s)
                          | _ => JNull
                          end) cells).

(** [pd.concat([a, b], ignore_index=True, sort=False)]. *)
Definition concat (a b : DataFrame) : Exc DataFrame :=
  if has_dup (columns a) || has_dup (columns b) then throw Unsupported
  else
    let cols := columns a
                ++ filter (fun k => negb (mem k (columns a))) (columns b) in
    inr (mkDF cols RangeIndex (map (reindex cols) (rows a ++ rows b))).

(** *** Invariants *)

(** Every row carries exactly the labels of the table, in order. *)
Definition uniform (df : DataFrame) : Prop :=
  Forall (fun r => map fst r = columns df) (rows df).

(** No cell is the missing marker. *)
Definition no_nulls (df : DataFrame) : Prop :=
  Forall (Forall (fun kc => snd kc <> JNull)) (rows df).

(** The cells of row [i] under label [name]. *)
Definition cell (df : DataFrame) (i : nat) (name : string) : list json :=
  match nth_error (rows df) i with
  | Some r => cells_of name r
  | None => []
  end.

End pd.

(* ===================================================================== *)
(** ** Transport, console and the monad of a call *)
(* ===================================================================== *)

Record Request : Type := mkRequest {
  url : string;
  params : list (string * string);
  headers : list (string * string)
}.

Record Response : Type := mkResponse {
  status_code : Z;
  text : string;
  payload : option json   (* the body as [r.json()] parses it, if it parses *)
}.

(** What a call leaves behind: the requests it sent and the lines it wrote,
    to the rich console or with the builtin [print]. *)
Inductive Event : Type :=
| Get (r : Request)
| ConsolePrint (s : string)
| Print (s : string).

(** The provider, as a call sees it. *)
Definition World : Type := Request -> Response.

Definition IO (A : Type) : Type := World -> Exc A * list Event.

#[export] Instance Monad_IO : Monad IO :=
  {| ret := fun _ a _ => (inr a, []);
     bind := fun _ _ m k w =>
       match m w with
       | (inl e, tr) => (inl e, tr)
       | (inr a, tr) => match k a w with
                        | (res, tr') => (res, tr ++ tr')
                        end
       end |}.

Definition lift {A : Type} (m : Exc A) : IO A := fun _ => (m, []).

(** [requests.get(url, params=params, headers=headers)]. *)
Definition requests_get (u : string) (ps hs : list (string * string))
  : IO Response :=
  fun w => (inr (w (mkRequest u ps hs)), [Get (mkRequest u ps hs)]).

Definition console_print (s : string) : IO unit :=
  fun _ => (inr tt, [ConsolePrint s]).

Definition print (s : string) : IO unit :=
  fun _ => (inr tt, [Print s]).

(** [r.json()]. *)
Definition response_json (r : Response) : Exc json :=
  match payload r with
  | Some j => inr j
  | None => throw JSONDecodeError
  end.

Definition LF : string := String "010"%char EmptyString.

Definition base_url : string := "https://data.messari.io/api/v1/".
Definition base_url2 : string := "https://data.messari.io/api/v2/".

Definition msg_invalid_key : string :=
  ("[red]Invalid API Key[/red]" ++ LF)%string.

Definition msg_premium : string :=
  ("[red]API Key not authorized for Premium Feature[/red]" ++ LF)%string.

Definition tier_marker : string :=
  "requires a pro or enterprise subscription".

(* ===================================================================== *)
(** ** Imported helpers and sample responses *)
(* ===================================================================== *)

Module Sample.

Definition is_letter (c : ascii) : bool := Py.is_upper c || Py.is_lower c.

(** Modelled from the spec: [lambda_replace_underscores_in_column_names]
    is defined in [dataframe_helpers], outside these sources.  The
    specification gives the transform as "underscores → spaces,
    capitalization": every word starts with a capital, the rest of it is
    lower-cased, and an underscore becomes a space. *)
Fixpoint title_from (inside : bool) (s : string) : string :=
  match s with
  | EmptyString => EmptyString
  | String c t =>
      if Ascii.eqb c "_" then String " " (title_from false t)
      else if is_letter c
           then String (if inside then Py.lower_char c else Py.upper_char c)
                       (title_from true t)
           else String c (title_from false t)
  end.

Definition lambda_replace_underscores_in_column_names (s : string)
  : string :=
  title_from false s.

(** Modelled from the spec: [prettify_column_names], from the same
    module, is that transform on every label of a list. *)
Definition prettify_column_names (l : list string) : list string :=
  map lambda_replace_underscores_in_column_names l.

(** The other parameters, fixed for the sample runs: a configured key,
    a number formatter and a date parser that hand their argument back,
    a timestamp parser that refuses everything, and a coin-economics
    provider with one row to add. *)
Definition key : string := "secret".

Definition lambda_long_number_format (j : json) : json := j.

Definition get_coin_tokenomics (_ : string) : Exc pd.DataFrame :=
  inr (pd.two_columns "Metric" [JStr "Total Supply"]
                      "Value" [JStr "21000000"]).

Definition to_datetime (j : json) : Exc json := inr j.

Definition to_datetime_ms (_ : json) : Exc json := inl ValueError.

Definition py_repr (_ : json) : string := "".

(** A provider that answers every request alike. *)
Definition always (r : Response) : World := fun _ => r.

Definition ok (body : json) : Response :=
  mkResponse 200 "" (Some (JObj [("data", body)])).


Definition invalid_401 : Response :=
  mkResponse 401 "Unauthorized" None.

(** A link whose target is null. *)
Definition links_body : json :=
  JObj [("profile",
         JObj [("general",
                JObj [("overview",
                       JObj [("official_links",
                              JArr [JObj [("name", JStr "Website");
                                          ("link", JNull)]])])])])].

(** A roadmap with no milestone. *)
Definition empty_roadmap_body : json :=
  JObj [("profile", JObj [("general", JObj [("roadmap", JArr [])])])].

(** A catalogue with no metric. *)
Definition empty_catalogue_body : json := JObj [("metrics", JArr [])].

(** A timeseries with no value. *)
Definition empty_timeseries_body : json :=
  JObj [("schema", JObj [("name", JStr "Circulating Supply")]);
        ("parameters",
         JObj [("columns", JArr [JStr "timestamp"; JStr "supply"])]);
        ("values", JArr [])].

(** Two metrics: one free with two sources, one restricted with none. *)
Definition price_metric : list (string * json) :=
  [("metric_id", JStr "price");
   ("name", JStr "Price");
   ("description", JStr "Volume weighted average price");
   ("source_attribution",
    JArr [JObj [("name", JStr "Kaiko")];
          JObj [("name", JStr "Coinmetrics")]])].

Definition flow_metric : list (string * json) :=
  [("metric_id", JStr "exch.flow.in");
   ("name", JStr "Exchange Inflow");
   ("description", JStr "Deposits to exchanges");
   ("role_restriction", JStr "pro");
   ("source_attribution", JArr [])].

Definition catalogue_body : json :=
  JObj [("metrics", JArr (map JObj [price_metric; flow_metric]))].

(** Two contributors, the second without a first name. *)
Definition ada : list (string * json) :=
  [("slug", JStr "ada-lovelace");
   ("first_name", JStr "Ada");
   ("last_name", JStr "Lovelace");
   ("title", JStr "Analyst");
   ("avatar_url", JNull)].

Definition anonymous : list (string * json) :=
  [("slug", JStr "lovelace");
   ("first_name", JNull);
   ("last_name", JStr "Lovelace");
   ("title", JStr "Engineer");
   ("avatar_url", JNull)].

Definition team_body : json :=
  JObj [("profile",
         JObj [("contributors",
                JObj [("individuals", JArr (map JObj [ada; anonymous]));
                      ("organizations", JArr [])])])].

(** One sales round, dated. *)
Definition seed_round : list (string * json) :=
  [("title", JStr "Seed");
   ("start_date", JStr "2021-06-01T00:00:00Z");
   ("end_date", JStr "2021-06-30T00:00:00Z");
   ("details", JNull);
   ("native_tokens_allocated", JNum 1000)].

Definition launch_body : json :=
  JObj [("profile",
         JObj [("economics",
                JObj [("launch",
                       JObj [("general",
                              JObj [("launch_details", JStr "Fair launch");
                                    ("launch_style", JStr "ICO")]);
                             ("fundraising",
                              JObj [("sales_rounds",
                                     JArr (map JObj [seed_round]));
                                    ("sales_treasury_accounts", JArr [])]);
                             ("initial_distribution",
                              JObj [("genesis_block_date", JNull);
                                    ("initial_supply", JNum 1000000);
                                    ("initial_supply_repartition",
                                     JObj [("allocated_to_investors_percentage",
                                            JNum 10);
                                           ("allocated_to_organization_or_founders_percentage",
                                            JNum 20);
                                           ("allocated_to_premined_rewards_or_airdrops_percentage",
                                            JNum 70)])])])])])].

(** What the shapers make of these bodies. *)
Definition team_individuals : pd.DataFrame :=
  pd.mkDF ["Name"; "Title"] pd.RangeIndex
          [[("Name", JStr "Ada Lovelace"); ("Title", JStr "Analyst")];
           [("Name", JStr "- Lovelace"); ("Title", JStr "Engineer")]].

Definition sales_rounds : pd.DataFrame :=
  pd.mkDF ["Title"; "Start Date"; "End Date"; "Tokens Allocated"]
          pd.RangeIndex
          [[("Title", JStr "Seed");
            ("Start Date", JStr "2021-06-01");
            ("End Date", JStr "2021-06-30");
            ("Tokens Allocated", JNum 1000)]].

Definition distribution : pd.DataFrame :=
  pd.two_columns
    "Metric" [JStr "Genesis Date"; JStr "Type"; JStr "Total Supply";
              JStr "Investors [%]"; JStr "Organization/Founders [%]";
              JStr "Rewards/Airdrops [%]"]
    "Value" [JStr "-"; JStr "ICO"; JNum 1000000; JNum 10; JNum 20;
             JNum 70].

(** Governance with markup in the text and an on-chain part. *)
Definition governance_body : json :=
  JObj [("profile",
         JObj [("governance",
                JObj [("governance_details",
                       JStr "Voting is <b>off-chain</b>.");
                      ("onchain_governance",
                       JObj [("onchain_governance_type", JStr "Delegative");
                             ("onchain_governance_details",
                              JStr "Token holders delegate")])])])].

Definition governance_onchain : json :=
  JObj [("onchain_governance_type", JStr "Delegative");
        ("onchain_governance_details", JStr "Token holders delegate")].

(** A timeseries of two days. *)
Definition supply_body : json :=
  JObj [("schema", JObj [("name", JStr "Circulating Supply")]);
        ("parameters",
         JObj [("columns", JArr [JStr "timestamp"; JStr "supply"])]);
        ("values",
         JArr [JArr [JNum 1622505600000; JNum 18700000];
               JArr [JNum 1622592000000; JNum 18700900]])].

Definition supply_table : pd.DataFrame :=
  pd.mkDF ["supply"]
          (pd.LabelIndex "timestamp"
                         [JNum 1622505600000; JNum 1622592000000])
          [[("supply", JNum 18700000)]; [("supply", JNum 18700900)]].

(** A profile of consensus and emission: one "n/a", one null, one number. *)
Definition consensus_body : json :=
  JObj [("supply", JObj [("general_emission_type", JStr "Deflationary")]);
        ("consensus",
         JObj [("general_consensus_mechanism", JStr "Proof-of-Work");
               ("consensus_details", JStr "n/a");
               ("mining_algorithm", JNull);
               ("block_reward", JNum 6)])].

Definition tokenomics_body : json :=
  JObj [("profile",
         JObj [("economics",
                JObj [("consensus_and_emission", consensus_body)])])].

Definition tokenomics_table : pd.DataFrame :=
  pd.two_columns
    "Metric" [JStr "Emission Type"; JStr "Consensus Mechanism";
              JStr "Consensus Details"; JStr "Mining Algorithm";
              JStr "Block Reward"; JStr "Total Supply"]
    "Value" [JStr "Deflationary"; JStr "Proof-of-Work"; JStr "-"; JStr "-";
             JStr "-"; JStr "21000000"].


(** A launch with a genesis date. *)
Definition dated_launch : json :=
  JObj [("initial_distribution",
         JObj [("genesis_block_date", JStr "2009-01-03T18:15:05Z");
               ("initial_supply", JNum 50);
               ("initial_supply_repartition",
                JObj [("allocated_to_investors_percentage", JNum 0);
                      ("allocated_to_organization_or_founders_percentage",
                       JNum 0);
                      ("allocated_to_premined_rewards_or_airdrops_percentage",
                       JNum 100)])])].


Definition accounts_without_security : pd.DataFrame :=
  pd.from_records
    [[("account_type", JStr "Treasury");
      ("asset_held", JStr "ETH");
      ("addresses", JArr [])]].

(** Investors: one individual and one organization. *)
Definition fund : list (string * json) :=
  [("slug", JStr "acme-capital");
   ("name", JStr "Acme Capital");
   ("logo", JNull);
   ("description", JStr "Venture fund")].

Definition investors_body : json :=
  JObj [("profile",
         JObj [("investors",
                JObj [("individuals", JArr (map JObj [ada]));
                      ("organizations", JArr (map JObj [fund]))])])].

(** A roadmap whose milestone has no date. *)
Definition undated_milestone : list (string * json) :=
  [("title", JStr "Mainnet"); ("type", JStr "launch");
   ("details", JStr "Mainnet goes live")].

Definition undated_roadmap_body : json :=
  JObj [("profile",
         JObj [("general",
                JObj [("roadmap", JArr (map JObj [undated_milestone]))])])].

(** An overview with no link. *)
Definition no_links_body : json :=
  JObj [("profile",
         JObj [("general",
                JObj [("overview", JObj [("official_links", JArr [])])])])].

(** A catalogue whose second metric has no description. *)
Definition undescribed_metric : list (string * json) :=
  [("metric_id", JStr "txn.cnt");
   ("name", JStr "Transactions");
   ("source_attribution", JArr [])].

Definition partial_catalogue_body : json :=
  JObj [("metrics", JArr (map JObj [price_metric; undescribed_metric]))].

(** A provider that answers a timeseries request with the supply and any
    other request with the profile of consensus and emission. *)
Definition tokenomics_world : World :=
  fun r => if Py.contains "time-series" (url r)
           then ok supply_body else ok tokenomics_body.

(** What the shapers make of these. *)
Definition dated_distribution : pd.DataFrame :=
  pd.two_columns
    "Metric" [JStr "Genesis Date"; JStr "Type"; JStr "Total Supply";
              JStr "Investors [%]"; JStr "Organization/Founders [%]";
              JStr "Rewards/Airdrops [%]"]
    "Value" [JStr "2009-01-03"; JStr "ICO"; JNum 50; JNum 0; JNum 0;
             JNum 100].


Definition investor_individuals : pd.DataFrame :=
  pd.mkDF ["Name"; "Title"] pd.RangeIndex
          [[("Name", JStr "Ada Lovelace"); ("Title", JStr "Analyst")]].

Definition investor_organizations : pd.DataFrame :=
  pd.mkDF ["Name"; "Description"] pd.RangeIndex
          [[("Name", JStr "Acme Capital");
            ("Description", JStr "Venture fund")]].

(** A technology section whose audit carries a title and no date. *)
Definition undated_audit : list (string * json) :=
  [("title", JStr "Security review"); ("type", JStr "audit")].

Definition undated_audits_body : json :=
  JObj [("profile",
         JObj [("general",
                JObj [("overview",
                       JObj [("project_details", JStr "A ledger")])]);
               ("technology",
                JObj [("overview",
                       JObj [("technology_details", JStr "Proof of work");
                             ("client_repositories", JArr [])]);
                      ("security",
                       JObj [("audits", JArr (map JObj [undated_audit]));
                             ("known_exploits_and_vulnerabilities",
                              JArr [])])])])].

(** Two contributors, the second without a title. *)
Definition grace : list (string * json) :=
  [("slug", JStr "grace-hopper");
   ("first_name", JStr "Grace");
   ("last_name", JStr "Hopper");
   ("title", JNull);
   ("avatar_url", JNull)].

Definition staff_body : json :=
  JObj [("profile",
         JObj [("contributors",
                JObj [("individuals", JArr (map JObj [ada; grace]));
                      ("organizations", JArr [])])])].

Definition staff_individuals : pd.DataFrame :=
  pd.mkDF ["Name"; "Title"] pd.RangeIndex
          [[("Name", JStr "Ada Lovelace"); ("Title", JStr "Analyst")];
           [("Name", JStr "Grace Hopper"); ("Title", JStr "-")]].

End Sample.

(* ===================================================================== *)
(** ** The shapers *)
(* ===================================================================== *)

Section Messari.

(** [cfg.API_MESSARI_KEY]. *)
Variable API_MESSARI_KEY : string.

(** Imported helpers whose code lives in other modules. *)
Variable lambda_replace_underscores_in_column_names : string -> string.
Variable prettify_column_names : list string -> list string.
Variable lambda_long_number_format : json -> json.
Variable get_coin_tokenomics : string -> Exc pd.DataFrame.

(** [pd.to_datetime] on one cell, without and with [unit="ms"]. *)
Variable to_datetime : json -> Exc json.
Variable to_datetime_ms : json -> Exc json.

(** [repr] of a number, a list or a dict inside an f-string. *)
Variable py_repr : json -> string.

(** [f"{j}"]. *)
Definition fstr (j : json) : string :=
  match j with
  | JStr s => s
  | JNull => "None"
  | JBool true => "True"
  | JBool false => "False"
  | _ => py_repr j
  end.

Definition auth_headers : list (string * string) :=
  [("x-messari-api-key", API_MESSARI_KEY)].

(** *** get_available_timeseries *)

(** Lines 45-49: the names of the sources, each followed by a comma. *)
Fixpoint sources_loop (acc : string) (srcs : list json) : Exc string :=
  match srcs with
  | [] => ret acc
  | source :: rest =>
      name <- Json.getitem source "name" ;;
      s <- Json.as_str name ;;
      sources_loop (acc ++ s ++ ",")%string rest
  end.

(** Lines 45-58: the record appended for one metric. *)
Definition metric_record (metric : json) : Exc (list (string * json)) :=
  attribution <- Json.getitem metric "source_attribution" ;;
  srcs <- Json.iter attribution ;;
  sources <- sources_loop "" srcs ;;
  let sources := Py.rstrip "," sources in
  metric_id <- Json.getitem metric "metric_id" ;;
  name <- Json.getitem metric "name" ;;
  description <- Json.getitem metric "description" ;;
  paid <- Json.contains_key "role_restriction" metric ;;
  ret [("id", metric_id);
       ("Title", name);
       ("Description", description);
       ("Requires Paid Key", JBool paid);
       ("Sources", JStr sources)].

Definition get_available_timeseries : IO pd.DataFrame :=
  r <- requests_get "https://data.messari.io/api/v1/assets/metrics" [] [] ;;
  if Z.eqb (status_code r) 200 then
    lift (data <- response_json r ;;
          d <- Json.getitem data "data" ;;
          metrics <- Json.getitem d "metrics" ;;
          ms <- Json.iter metrics ;;
          arr <- mapM metric_record ms ;;
          pd.set_index "id" (pd.from_records arr))
  else ret pd.empty_frame.

(** *** get_messari_timeseries, get_marketcap_dominance *)

Definition get_messari_timeseries
           (coin timeseries_id interval start end_ : string)
  : IO (pd.DataFrame * json) :=
  let u := (base_url ++ "assets/" ++ coin ++ "/metrics/" ++ timeseries_id
            ++ "/time-series")%string in
  let parameters := [("start", start); ("end", end_); ("interval", interval)] in
  r <- requests_get u parameters auth_headers ;;
  if Z.eqb (status_code r) 200 then
    data <- lift (j <- response_json r ;; Json.getitem j "data") ;;
    title <- lift (schema <- Json.getitem data "schema" ;;
                   Json.getitem schema "name") ;;
    df <- lift (values <- Json.getitem data "values" ;;
                ps <- Json.getitem data "parameters" ;;
                cols <- Json.getitem ps "columns" ;;
                pd.DataFrame_values values cols) ;;
    if pd.empty df then
      console_print ("No data found for " ++ coin ++ "." ++ LF)%string ;;
      ret (df, title)
    else
      df <- lift (df <- pd.set_index "timestamp" df ;;
                  match pd.index df with
                  | pd.LabelIndex name labels =>
                      stamps <- mapM to_datetime_ms labels ;;
                      ret (pd.mkDF (pd.columns df) (pd.LabelIndex name stamps)
                                   (pd.rows df))
                  | pd.RangeIndex => ret df
                  end) ;;
      ret (df, title)
  else if Z.eqb (status_code r) 401 then
    (if Py.contains tier_marker (text r)
     then console_print msg_premium
     else console_print msg_invalid_key) ;;
    ret (pd.empty_frame, JStr "")
  else
    console_print (text r) ;;
    ret (pd.empty_frame, JStr "").

Definition get_marketcap_dominance (coin interval start end_ : string)
  : IO pd.DataFrame :=
  p <- get_messari_timeseries coin "mcap.dom" interval start end_ ;;
  ret (fst p).

(** *** get_links *)

Definition profile_url (symbol : string) : string :=
  (base_url2 ++ "assets/" ++ symbol ++ "/profile")%string.

Definition get_links (symbol : string) : IO pd.DataFrame :=
  r <- requests_get (profile_url symbol)
                    [("fields", "profile/general/overview/official_links")]
                    auth_headers ;;
  if Z.eqb (status_code r) 200 then
    lift (j <- response_json r ;;
          data <- Json.getitem j "data" ;;
          links <- Json.getpath data ["profile"; "general"; "overview";
                                      "official_links"] ;;
          df <- pd.DataFrame_of links ;;
          ret (pd.map_columns Py.capitalize df))
  else
    (if Z.eqb (status_code r) 401
     then print msg_invalid_key
     else print (text r)) ;;
    ret pd.empty_frame.

(** *** get_roadmap *)

(** [df[name] = pd.to_datetime(df[name])]. *)
Definition parse_dates (name : string) (df : pd.DataFrame)
  : Exc pd.DataFrame :=
  cells <- pd.getitem name df ;;
  dates <- mapM to_datetime cells ;;
  pd.setitem name dates df.

Definition get_roadmap (symbol : string) : IO pd.DataFrame :=
  r <- requests_get (profile_url symbol)
                    [("fields", "profile/general/roadmap")]
                    auth_headers ;;
  if Z.eqb (status_code r) 200 then
    lift (j <- response_json r ;;
          data <- Json.getitem j "data" ;;
          roadmap <- Json.getpath data ["profile"; "general"; "roadmap"] ;;
          df <- pd.DataFrame_of roadmap ;;
          df <- parse_dates "date" df ;;
          let df := pd.map_columns Py.capitalize df in
          ret (pd.dropna_all_columns df))
  else if Z.eqb (status_code r) 401 then
    console_print msg_invalid_key ;;
    ret pd.empty_frame
  else
    console_print (text r) ;;
    ret pd.empty_frame.

(** *** get_tokenomics *)

Definition get_tokenomics (symbol coingecko_symbol : string)
  : IO (pd.DataFrame * pd.DataFrame) :=
  r <- requests_get (profile_url symbol)
                    [("fields", "profile/economics/consensus_and_emission")]
                    [("x-messari-api-key", "")] ;;
  if Z.eqb (status_code r) 200 then
    df <- lift (j <- response_json r ;;
                data <- Json.getitem j "data" ;;
                tokenomics_data <-
                  Json.getpath data ["profile"; "economics";
                                     "consensus_and_emission"] ;;
                v1 <- Json.getpath tokenomics_data
                                   ["supply"; "general_emission_type"] ;;
                v2 <- Json.getpath tokenomics_data
                                   ["consensus"; "general_consensus_mechanism"] ;;
                v3 <- Json.getpath tokenomics_data
                                   ["consensus"; "consensus_details"] ;;
                v4 <- Json.getpath tokenomics_data
                                   ["consensus"; "mining_algorithm"] ;;
                v5 <- Json.getpath tokenomics_data
                                   ["consensus"; "block_reward"] ;;
                let df := pd.two_columns
                            "Metric" [JStr "Emission Type";
                                      JStr "Consensus Mechanism";
                                      JStr "Consensus Details";
                                      JStr "Mining Algorithm";
                                      JStr "Block Reward"]
                            "Value" [v1; v2; v3; v4; v5] in
                vals <- pd.getitem "Value" df ;;
                vals <- pd.str_replace "n/a" "-" vals ;;
                df <- pd.setitem "Value" vals df ;;
                cg_df <- get_coin_tokenomics coingecko_symbol ;;
                df <- pd.concat df cg_df ;;
                ret (pd.fillna (JStr "-") df)) ;;
    p <- get_messari_timeseries symbol "sply.circ" "1d" "" "" ;;
    ret (df, fst p)
  else if Z.eqb (status_code r) 401 then
    console_print msg_invalid_key ;;
    ret (pd.empty_frame, pd.empty_frame)
  else
    console_print (text r) ;;
    ret (pd.empty_frame, pd.empty_frame).

(** *** get_project_product_info *)

(** Lines 358-362 and 363-369: a table of dated records. *)
Definition dated_table (j : json) : Exc pd.DataFrame :=
  df <- pd.DataFrame_of j ;;
  df <- pd.set_columns (prettify_column_names (pd.columns df)) df ;;
  if negb (pd.empty df) then
    df <- parse_dates "Date" df ;;
    ret (pd.fillna (JStr "-") df)
  else ret df.

Definition get_project_product_info (symbol : string)
  : IO (pd.DataFrame * pd.DataFrame * pd.DataFrame * pd.DataFrame) :=
  r <- requests_get (profile_url symbol)
         [("fields",
           "profile/general/overview/project_details,profile/technology")]
         [("x-messari-api-key", "")] ;;
  if Z.eqb (status_code r) 200 then
    lift (j <- response_json r ;;
          data <- Json.getitem j "data" ;;
          project_details <-
            Json.getpath data ["profile"; "general"; "overview";
                               "project_details"] ;;
          technology_data <- Json.getpath data ["profile"; "technology"] ;;
          technology_details <-
            Json.getpath technology_data ["overview"; "technology_details"] ;;
          let df_info := pd.two_columns
                           "Metric" [JStr "Project Details";
                                     JStr "Technology Details"]
                           "Value" [project_details; technology_details] in
          repos <- Json.getpath technology_data
                                ["overview"; "client_repositories"] ;;
          df_repos <- pd.DataFrame_of repos ;;
          df_repos <- pd.set_columns
                        (prettify_column_names (pd.columns df_repos))
                        df_repos ;;
          let df_repos := pd.fillna (JStr "-") df_repos in
          audits <- Json.getpath technology_data ["security"; "audits"] ;;
          df_audits <- dated_table audits ;;
          vulns <- Json.getpath technology_data
                     ["security"; "known_exploits_and_vulnerabilities"] ;;
          df_vulns <- dated_table vulns ;;
          ret (df_info, df_repos, df_audits, df_vulns))
  else
    (if Z.eqb (status_code r) 401
     then console_print msg_invalid_key
     else console_print (text r)) ;;
    ret (pd.empty_frame, pd.empty_frame, pd.empty_frame, pd.empty_frame).

(** *** get_team, get_investors *)

(** [lambda x: " ".join(x)] on a row. *)
Definition join_row (x : pd.Row) : Exc json :=
  parts <- mapM Json.as_str (map snd x) ;;
  ret (JStr (Py.join " " parts)).

(** Lines 411-431 (and, word for word, 486-504): the table of
    individuals. *)
Definition shape_individuals (df : pd.DataFrame) : Exc pd.DataFrame :=
  if negb (pd.empty df) then
    let df := pd.fillna (JStr "-") df in
    names <- pd.getitem_list ["first_name"; "last_name"] df ;;
    full <- pd.apply_rows join_row names ;;
    df <- pd.insert0 "Name" full df ;;
    let df := pd.drop_ignore ["slug"; "avatar_url"; "first_name"; "last_name"]
                             df in
    let df := pd.map_columns Py.capitalize df in
    ret (pd.replace_None (JStr "-") df)
  else ret df.

(** Lines 435-444 (and 508-517): the table of organizations. *)
Definition shape_organizations (df : pd.DataFrame) : pd.DataFrame :=
  if negb (pd.empty df) then
    let df := pd.drop_ignore ["slug"; "logo"] df in
    let df := pd.map_columns Py.capitalize df in
    pd.replace_None (JStr "-") df
  else df.

(** The body both functions share, up to the key under ["profile"]. *)
Definition people_tables (key : string) (r : Response)
  : Exc (pd.DataFrame * pd.DataFrame) :=
  j <- response_json r ;;
  data <- Json.getitem j "data" ;;
  individuals <- Json.getpath data ["profile"; key; "individuals"] ;;
  df_individuals <- pd.DataFrame_of individuals ;;
  df_individuals <- shape_individuals df_individuals ;;
  organizations <- Json.getpath data ["profile"; key; "organizations"] ;;
  df_organizations <- pd.DataFrame_of organizations ;;
  ret (df_individuals, shape_organizations df_organizations).

Definition get_team (symbol : string) : IO (pd.DataFrame * pd.DataFrame) :=
  r <- requests_get (profile_url symbol)
                    [("fields", "profile/contributors")]
                    auth_headers ;;
  if Z.eqb (status_code r) 200 then lift (people_tables "contributors" r)
  else
    (if Z.eqb (status_code r) 401
     then console_print msg_invalid_key
     else console_print (text r)) ;;
    ret (pd.empty_frame, pd.empty_frame).

Definition get_investors (symbol : string)
  : IO (pd.DataFrame * pd.DataFrame) :=
  r <- requests_get (profile_url symbol)
                    [("fields", "profile/investors")]
                    auth_headers ;;
  if Z.eqb (status_code r) 200 then lift (people_tables "investors" r)
  else
    (if Z.eqb (status_code r) 401
     then console_print msg_invalid_key
     else console_print (text r)) ;;
    ret (pd.empty_frame, pd.empty_frame).

(** *** get_governance *)

(** [re.sub("<[^>]*>", "", j)]: the argument must be a string. *)
Definition re_sub_tags (j : json) : Exc string :=
  s <- Json.as_str j ;;
  ret (Py.strip_tags s).

(** The 200 branch, lines 555-581. *)
Definition governance_tables (r : Response) : Exc (string * pd.DataFrame) :=
  j <- response_json r ;;
  data <- Json.getitem j "data" ;;
  governance_data <- Json.getpath data ["profile"; "governance"] ;;
  type_ <- Json.getpath governance_data
             ["onchain_governance"; "onchain_governance_type"] ;;
  both <- (if negb (Json.is_null type_) then
             details <- Json.getpath governance_data
                          ["onchain_governance";
                           "onchain_governance_details"] ;;
             ret (negb (Json.is_null details))
           else ret false) ;;
  if (both : bool) then
    details <- Json.getitem governance_data "governance_details" ;;
    summary <- re_sub_tags details ;;
    v1 <- Json.getpath governance_data
            ["onchain_governance"; "onchain_governance_type"] ;;
    v2 <- Json.getpath governance_data
            ["onchain_governance"; "onchain_governance_details"] ;;
    ret (summary,
         pd.two_columns "Metric" [JStr "Type"; JStr "Details"]
                        "Value" [v1; v2])
  else
    details <- Json.getitem governance_data "governance_details" ;;
    summary <- re_sub_tags details ;;
    ret (summary, pd.empty_frame).

Definition get_governance (symbol : string) : IO (string * pd.DataFrame) :=
  r <- requests_get (profile_url symbol)
                    [("fields", "profile/governance")]
                    auth_headers ;;
  if Z.eqb (status_code r) 200 then lift (governance_tables r)
  else
    (if Z.eqb (status_code r) 401
     then console_print msg_invalid_key
     else console_print (text r)) ;;
    ret ("", pd.empty_frame).

(** *** get_fundraising *)

Fixpoint addresses_loop (acc : string) (l : list json) : Exc string :=
  match l with
  | [] => ret acc
  | address :: rest =>
      name <- Json.getitem address "name" ;;
      link <- Json.getitem address "link" ;;
      addresses_loop (acc ++ fstr name ++ ": " ++ fstr link)%string rest
  end.

Definition format_addresses (x : json) : Exc json :=
  l <- Json.iter x ;;
  final_str <- addresses_loop "" l ;;
  ret (JStr final_str).

(** [lambda x: x[name].split("T")[0]] on a row.  A label that occurs
    twice selects a sub-series, which has no [split]. *)
Definition row_date (name : string) (x : pd.Row) : Exc json :=
  match pd.cells_of name x with
  | [] => throw (KeyError name)
  | [c] => Json.split_first "T" c
  | _ => throw AttributeError
  end.

(** [df[name] = df.apply(lambda x: x[name].split("T")[0], axis=1)]. *)
Definition split_dates (name : string) (df : pd.DataFrame)
  : Exc pd.DataFrame :=
  dates <- pd.apply_rows (row_date name) df ;;
  pd.setitem name dates df.

(** Lines 638-671: the table of sales rounds. *)
Definition shape_sales_rounds (df : pd.DataFrame) : Exc pd.DataFrame :=
  if negb (pd.empty df) then
    let df := pd.fillna (JStr "-") df in
    let df := pd.drop_ignore ["details"; "asset_collected";
                              "price_per_token_in_asset";
                              "amount_collected_in_asset";
                              "is_kyc_required";
                              "restricted_jurisdictions"] df in
    let df := pd.map_columns lambda_replace_underscores_in_column_names df in
    df <- split_dates "Start Date" df ;;
    df <- split_dates "End Date" df ;;
    let df := pd.rename
                [("Native Tokens Allocated", "Tokens Allocated");
                 ("Equivalent Price Per Token In Usd", "Price [$]");
                 ("Amount Collected In Usd", "Amount Collected [$]")] df in
    ret (pd.fillna (JStr "-") df)
  else ret df.

(** Lines 676-686: the table of treasury accounts. *)
Definition shape_treasury_accounts (df : pd.DataFrame) : Exc pd.DataFrame :=
  if negb (pd.empty df) then
    let df := pd.map_columns lambda_replace_underscores_in_column_names df in
    df <- pd.drop ["Asset Held"; "Security"] df ;;
    addresses <- pd.getitem "Addresses" df ;;
    addresses <- pd.series_map format_addresses addresses ;;
    pd.setitem "Addresses" addresses df
  else ret df.

(** Lines 687-718: the six-row summary of the initial distribution. *)
Definition launch_distribution (launch_data launch_type : json)
  : Exc pd.DataFrame :=
  genesis <- Json.getpath launch_data
               ["initial_distribution"; "genesis_block_date"] ;;
  genesis_date <- (if Json.truthy genesis then
                     g <- Json.getpath launch_data
                            ["initial_distribution"; "genesis_block_date"] ;;
                     Json.split_first "T" g
                   else ret (JStr "-")) ;;
  supply <- Json.getpath launch_data
              ["initial_distribution"; "initial_supply"] ;;
  investors <- Json.getpath launch_data
                 ["initial_distribution"; "initial_supply_repartition";
                  "allocated_to_investors_percentage"] ;;
  founders <- Json.getpath launch_data
                ["initial_distribution"; "initial_supply_repartition";
                 "allocated_to_organization_or_founders_percentage"] ;;
  rewards <- Json.getpath launch_data
               ["initial_distribution"; "initial_supply_repartition";
                "allocated_to_premined_rewards_or_airdrops_percentage"] ;;
  ret (pd.two_columns
         "Metric" [JStr "Genesis Date"; JStr "Type"; JStr "Total Supply";
                   JStr "Investors [%]"; JStr "Organization/Founders [%]";
                   JStr "Rewards/Airdrops [%]"]
         "Value" [genesis_date; launch_type;
                  lambda_long_number_format supply;
                  investors; founders; rewards]).

(** The 200 branch, lines 631-724. *)
Definition fundraising_tables (r : Response)
  : Exc (json * pd.DataFrame * pd.DataFrame * pd.DataFrame) :=
  j <- response_json r ;;
  data <- Json.getitem j "data" ;;
  launch_data <- Json.getpath data ["profile"; "economics"; "launch"] ;;
  launch_details <- Json.getpath launch_data ["general"; "launch_details"] ;;
  launch_type <- Json.getpath launch_data ["general"; "launch_style"] ;;
  rounds <- Json.getpath launch_data ["fundraising"; "sales_rounds"] ;;
  launch_fundraising_rounds <- pd.DataFrame_of rounds ;;
  launch_fundraising_rounds <- shape_sales_rounds launch_fundraising_rounds ;;
  accounts <- Json.getpath launch_data
                ["fundraising"; "sales_treasury_accounts"] ;;
  launch_fundraising_accounts <- pd.DataFrame_of accounts ;;
  launch_fundraising_accounts <-
    shape_treasury_accounts launch_fundraising_accounts ;;
  distribution <- launch_distribution launch_data launch_type ;;
  ret (launch_details, launch_fundraising_rounds,
       launch_fundraising_accounts, distribution).

Definition get_fundraising (symbol : string)
  : IO (json * pd.DataFrame * pd.DataFrame * pd.DataFrame) :=
  r <- requests_get (profile_url symbol)
                    [("fields", "profile/economics/launch")]
                    auth_headers ;;
  if Z.eqb (status_code r) 200 then lift (fundraising_tables r)
  else
    (if Z.eqb (status_code r) 401
     then console_print msg_invalid_key
     else console_print (text r)) ;;
    ret (JStr "", pd.empty_frame, pd.empty_frame, pd.empty_frame).

(** *** The calls of the module, one type for all *)

Inductive Shaper : Type :=
| AvailableTimeseries
| MarketcapDominance (coin interval start end_ : string)
| MessariTimeseries (coin timeseries_id interval start end_ : string)
| Links (symbol : string)
| Roadmap (symbol : string)
| Tokenomics (symbol coingecko_symbol : string)
| ProjectProductInfo (symbol : string)
| Team (symbol : string)
| Investors (symbol : string)
| Governance (symbol : string)
| Fundraising (symbol : string).

(** What a call returns: its tables and its text fields, in order. *)
Definition Output : Type := (list pd.DataFrame * list json)%type.

Definition returning {A : Type} (f : A -> Output) (m : IO A) : IO Output :=
  a <- m ;; ret (f a).

Definition call (s : Shaper) : IO Output :=
  match s with
  | AvailableTimeseries =>
      returning (fun df => ([df], [])) get_available_timeseries
  | MarketcapDominance coin interval start end_ =>
      returning (fun df => ([df], []))
                (get_marketcap_dominance coin interval start end_)
  | MessariTimeseries coin timeseries_id interval start end_ =>
      returning (fun p => ([fst p], [snd p]))
                (get_messari_timeseries coin timeseries_id interval start end_)
  | Links symbol => returning (fun df => ([df], [])) (get_links symbol)
  | Roadmap symbol => returning (fun df => ([df], [])) (get_roadmap symbol)
  | Tokenomics symbol coingecko_symbol =>
      returning (fun p => ([fst p; snd p], []))
                (get_tokenomics symbol coingecko_symbol)
  | ProjectProductInfo symbol =>
      returning (fun q => match q with
                          | (a, b, c, d) => ([a; b; c; d], [])
                          end)
                (get_project_product_info symbol)
  | Team symbol => returning (fun p => ([fst p; snd p], [])) (get_team symbol)
  | Investors symbol =>
      returning (fun p => ([fst p; snd p], [])) (get_investors symbol)
  | Governance symbol =>
      returning (fun p => ([snd p], [JStr (fst p)])) (get_governance symbol)
  | Fundraising symbol =>
      returning (fun q => match q with
                          | (details, rounds, accounts, distribution) =>
                              ([rounds; accounts; distribution], [details])
                          end)
                (get_fundraising symbol)
  end.

Definition timeseries_request
           (coin timeseries_id interval start end_ : string) : Request :=
  mkRequest (base_url ++ "assets/" ++ coin ++ "/metrics/" ++ timeseries_id
             ++ "/time-series")%string
            [("start", start); ("end", end_); ("interval", interval)]
            auth_headers.

Definition profile_request (symbol fields : string)
           (hs : list (string * string)) : Request :=
  mkRequest (profile_url symbol) [("fields", fields)] hs.

(** The request a call opens with. *)
Definition first_request (s : Shaper) : Request :=
  match s with
  | AvailableTimeseries =>
      mkRequest "https://data.messari.io/api/v1/assets/metrics" [] []
  | MarketcapDominance coin interval start end_ =>
      timeseries_request coin "mcap.dom" interval start end_
  | MessariTimeseries coin timeseries_id interval start end_ =>
      timeseries_request coin timeseries_id interval start end_
  | Links symbol =>
      profile_request symbol "profile/general/overview/official_links"
                      auth_headers
  | Roadmap symbol =>
      profile_request symbol "profile/general/roadmap" auth_headers
  | Tokenomics symbol _ =>
      profile_request symbol "profile/economics/consensus_and_emission"
                      [("x-messari-api-key", "")]
  | ProjectProductInfo symbol =>
      profile_request
        symbol "profile/general/overview/project_details,profile/technology"
        [("x-messari-api-key", "")]
  | Team symbol => profile_request symbol "profile/contributors" auth_headers
  | Investors symbol =>
      profile_request symbol "profile/investors" auth_headers
  | Governance symbol =>
      profile_request symbol "profile/governance" auth_headers
  | Fundraising symbol =>
      profile_request symbol "profile/economics/launch" auth_headers
  end.




(** The value of header [name] in a request, if it is sent. *)
Fixpoint header (name : string) (hs : list (string * string))
  : option string :=
  match hs with
  | [] => None
  | (k, v) :: t => if String.eqb name k then Some v else header name t
  end.

(** *** The contracts the module is held to, as they are worded *)


(** Every request carries the configured key; the profile request of the
    tokenomics shaper alone carries an empty one. *)
Definition key_attached (s : Shaper) (w : World) : Prop :=
  forall r, In (Get r) (snd (call s w)) ->
    header "x-messari-api-key" (headers r) = Some API_MESSARI_KEY
    \/ (exists symbol coingecko_symbol,
           s = Tokenomics symbol coingecko_symbol
           /\ r = first_request s
           /\ header "x-messari-api-key" (headers r) = Some "").

(** Every table of a 200 response has uniform rows and no missing cell. *)
Definition null_free_tables (s : Shaper) (w : World) : Prop :=
  status_code (w (first_request s)) = 200%Z ->
  forall o, fst (call s w) = inr o ->
    Forall (fun df => pd.uniform df /\ pd.no_nulls df) (fst o).


(** The headers each call puts on its opening request. *)
Definition opening_headers (s : Shaper) : list (string * string) :=
  match s with
  | AvailableTimeseries => []
  | Tokenomics _ _ | ProjectProductInfo _ => [("x-messari-api-key", "")]
  | _ => auth_headers
  end.

(** The tables of a call that the code passes through [fillna("-")]
    last (for the governance table: builds from two values it has found
    not to be [None]), by position in the output. *)
Definition filled (s : Shaper) (i : nat) : bool :=
  match s, i with
  | Tokenomics _ _, 0 => true
  | ProjectProductInfo _, 1 | ProjectProductInfo _, 2
  | ProjectProductInfo _, 3 => true
  | Team _, 0 | Investors _, 0 => true
  | Governance _, 0 => true
  | Fundraising _, 0 => true
  | _, _ => false
  end.

(** *** The catalogue of metrics, as the payload describes it *)

Definition named_source (src : json) : bool :=
  match Json.getitem src "name" with
  | inr (JStr _) => true
  | _ => false
  end.

Definition source_name (src : json) : string :=
  match Json.getitem src "name" with
  | inr (JStr n) => n
  | _ => ""
  end.

(** The names of the attribution sources of a metric. *)
Definition source_names (m : list (string * json)) : list string :=
  match Json.lookup "source_attribution" m with
  | Some (JArr srcs) => map source_name srcs
  | _ => []
  end.

(** A metric object with the fields the catalogue reads: an id, a name,
    a description and a list of sources that each have a name. *)
Definition well_formed_metric (m : list (string * json)) : bool :=
  Json.has_key "metric_id" m && Json.has_key "name" m
  && Json.has_key "description" m
  && match Json.lookup "source_attribution" m with
     | Some (JArr srcs) => forallb named_source srcs
     | _ => false
     end.

(** The row of the catalogue for metric [m]: title, description, whether
    the object carries a role restriction, and the names of the sources
    joined by commas, with no comma left at the end. *)
Definition catalogue_row (m : list (string * json)) : pd.Row :=
  [("Title", pd.cell_of m "name");
   ("Description", pd.cell_of m "description");
   ("Requires Paid Key", JBool (Json.has_key "role_restriction" m));
   ("Sources", JStr (Py.rstrip "," (Py.join "," (source_names m))))].

Definition catalogue_request : Request :=
  mkRequest "https://data.messari.io/api/v1/assets/metrics" [] [].

(** *** Names of people *)

(** A cell after [fillna("-")]. *)
Definition filled_cell (c : json) : json :=
  if Json.is_null c then JStr "-" else c.

(** The key under ["profile"] that a people shaper reads. *)
Definition people_key (s : Shaper) : option string :=
  match s with
  | Team _ => Some "contributors"
  | Investors _ => Some "investors"
  | _ => None
  end.

(** The part of a full name a cell contributes: its text, or the
    placeholder when the cell is missing. *)
Definition name_part (c : json) : string :=
  match c with
  | JStr s => s
  | _ => "-"
  end.

(** A name cell as the provider sends it: a string or null. *)
Definition name_cell (c : json) : bool :=
  match c with
  | JStr _ | JNull => true
  | _ => false
  end.

(** Some record of the list carries key [k]. *)
Definition has_column (k : string) (recs : list (list (string * json)))
  : bool :=
  existsb (Json.has_key k) recs.

(** The records of a table of people: at least one, the two name keys
    occur, no key ["Name"] does, and every name cell is a string or
    missing. *)
Definition people_records (recs : list (list (string * json))) : bool :=
  negb (Nat.eqb (List.length recs) 0)
  && has_column "first_name" recs && has_column "last_name" recs
  && negb (has_column "Name" recs)
  && forallb (fun rec => name_cell (pd.cell_of rec "first_name")
                         && name_cell (pd.cell_of rec "last_name")) recs.

(** *** Counting requests *)

Definition is_get (e : Event) : bool :=
  match e with
  | Get _ => true
  | _ => false
  end.

(** How many requests a trace holds. *)
Definition requests_sent (tr : list Event) : nat :=
  List.length (filter is_get tr).

(** *** Markup *)

(** No ["<"] of [s] is followed, anywhere later, by a [">"]: the text
    holds nothing that the pattern [<[^>]*>] matches. *)
Fixpoint tag_free (s : string) : bool :=
  match s with
  | EmptyString => true
  | String a t => negb (Ascii.eqb a "<" && Py.has_gt t) && tag_free t
  end.

(** *** Addresses *)

(** An address record [format_addresses] can print: a dict with the keys
    ["name"] and ["link"]. *)
Definition printable_address (x : json) : bool :=
  match x with
  | JObj kv => Json.has_key "name" kv && Json.has_key "link" kv
  | _ => false
  end.

(** *** Keys the catalogue reads *)

(** A metric object has the four keys [get_available_timeseries]
    subscripts. *)
Definition has_catalogue_keys (m : list (string * json)) : bool :=
  Json.has_key "source_attribution" m && Json.has_key "metric_id" m
  && Json.has_key "name" m && Json.has_key "description" m.

(** *** The metrics of get_tokenomics *)

(** The five labels of the profile part of the tokenomics table. *)
Definition tokenomics_metrics : list string :=
  ["Emission Type"; "Consensus Mechanism"; "Consensus Details";
   "Mining Algorithm"; "Block Reward"].

(** What the table shows for a profile value: a text with every ["n/a"]
    turned into ["-"], and ["-"] for anything that is no text. *)
Definition tokenomics_value (v : json) : json :=
  match v with
  | JStr s => JStr (Py.replace "n/a" "-" s)
  | _ => JStr "-"
  end.

(** *** Rows made from records *)


(** *** The placeholder *)

(** The keys of a list of records that a [drop(..., errors="ignore")] of
    [dropped] leaves, in the order of the columns. *)
Definition kept_keys (dropped : list string)
           (recs : list (list (string * json))) : list string :=
  filter (fun k => negb (pd.mem k dropped)) (pd.union_keys recs).

(** What a cell shows for a value the payload lacks: the placeholder.
    Under the label ["Date"] of a table of audits or vulnerabilities it
    is what [pd.to_datetime] makes of the missing date, filled in its
    turn: the placeholder again when that is the missing date. *)
Definition placeholder (label : string) (c : json) : Prop := c = JStr "-".

Definition dated_placeholder (label : string) (c : json) : Prop :=
  if String.eqb label "Date"
  then exists v, to_datetime JNull = inr v /\ c = filled_cell v
  else c = JStr "-".

(** [df] shows the records [recs] with the placeholder: where record [n]
    has no value under the key at position [p] of [keys] (the key is
    absent from that record, or holds null), the cell [offset + p] of
    row [n] of [df] is as [shown] has it. *)
Definition shows_placeholder (recs : list (list (string * json)))
           (keys : list string) (offset : nat)
           (shown : string -> json -> Prop)
           (df : pd.DataFrame) : Prop :=
  forall n rec p k,
    nth_error recs n = Some rec ->
    nth_error keys p = Some k ->
    pd.cell_of rec k = JNull ->
    exists row label c,
      nth_error (pd.rows df) n = Some row
      /\ nth_error row (offset + p) = Some (label, c)
      /\ shown label c.

(** [P] holds of the records found under [path]. *)
Definition records_under (data : json) (path : list string)
           (P : list (list (string * json)) -> Prop) : Prop :=
  forall recs, Json.getpath data path = inr (JArr (map JObj recs)) -> P recs.

(** Where [get_tokenomics] reads its five profile values, in the order
    of the rows. *)
Definition tokenomics_paths : list (list string) :=
  [["supply"; "general_emission_type"];
   ["consensus"; "general_consensus_mechanism"];
   ["consensus"; "consensus_details"];
   ["consensus"; "mining_algorithm"];
   ["consensus"; "block_reward"]].

(** The placeholder in the tables of a call on the payload [data]: in
    each table the code passes through [fillna("-")], a value the payload
    lacks shows as "-".  For the tokenomics metrics these are the five
    profile values; for the tables made of records, every key that is
    kept (a missing date of an audit or a vulnerability goes through
    [pd.to_datetime] first). *)
Definition placeholder_shown (s : Shaper) (data : json)
           (tables : list pd.DataFrame) : Prop :=
  match s, tables with
  | Tokenomics _ _, [df; _] =>
      forall td i path,
        Json.getpath data ["profile"; "economics"; "consensus_and_emission"]
        = inr td ->
        nth_error tokenomics_paths i = Some path ->
        Json.getpath td path = inr JNull ->
        pd.cell df i "Value" = [JStr "-"]
  | ProjectProductInfo _, [_; repos; audits; vulns] =>
      records_under
        data ["profile"; "technology"; "overview"; "client_repositories"]
        (fun recs => shows_placeholder recs (pd.union_keys recs) 0
                                       placeholder repos)
      /\ records_under
           data ["profile"; "technology"; "security"; "audits"]
           (fun recs => shows_placeholder recs (pd.union_keys recs) 0
                                          dated_placeholder
                                          audits)
      /\ records_under
           data ["profile"; "technology"; "security";
                 "known_exploits_and_vulnerabilities"]
           (fun recs => shows_placeholder recs (pd.union_keys recs) 0
                                          dated_placeholder
                                          vulns)
  | Team _, [ind; _] =>
      records_under
        data ["profile"; "contributors"; "individuals"]
        (fun recs =>
           shows_placeholder
             recs
             (kept_keys ["slug"; "avatar_url"; "first_name"; "last_name"]
                        recs)
             1 placeholder ind)
  | Investors _, [ind; _] =>
      records_under
        data ["profile"; "investors"; "individuals"]
        (fun recs =>
           shows_placeholder
             recs
             (kept_keys ["slug"; "avatar_url"; "first_name"; "last_name"]
                        recs)
             1 placeholder ind)
  | Fundraising _, [rounds; _; _] =>
      records_under
        data ["profile"; "economics"; "launch"; "fundraising";
              "sales_rounds"]
        (fun recs =>
           shows_placeholder
             recs
             (kept_keys ["details"; "asset_collected";
                         "price_per_token_in_asset";
                         "amount_collected_in_asset"; "is_kyc_required";
                         "restricted_jurisdictions"] recs)
             0 placeholder rounds)
  | _, _ => True
  end.

(* =================================================================== *)
(** ** Properties *)
(* =================================================================== *)

(** *** Tables keep their rows uniform *)

Lemma map_fst_filter {A B : Type} (p : A -> bool) (r : list (A * B)) :
  map fst (filter (fun kc => p (fst kc)) r) = filter p (map fst r).
Proof.
  induction r as [| [k c] t IH]; cbn; [reflexivity |].
  destruct (p k); cbn; rewrite IH; reflexivity.
Qed.

Lemma map_fst_combine {A B : Type} (ks : list A) (cs : list B) :
  List.length ks <= List.length cs -> map fst (combine ks cs) = ks.
Proof.
  revert cs; induction ks as [| k t IH]; intros [| c cs] Hl; cbn in *;
    try reflexivity; try lia.
  f_equal. apply IH. lia.
Qed.

Lemma map_fst_filter_mask {A B : Type} (mask : list bool) (r : list (A * B)) :
  map fst (pd.filter_mask mask r) = pd.filter_mask mask (map fst r).
Proof.
  revert r; induction mask as [| b m IH]; intros [| kc t]; cbn;
    try reflexivity.
  destruct b; cbn; rewrite IH; reflexivity.
Qed.

Lemma map_fst_map_mask {A B : Type} (f : A * B -> A * B) mask
      (r : list (A * B)) :
  (forall kc, fst (f kc) = fst kc) ->
  map fst (pd.map_mask f mask r) = map fst r.
Proof.
  intros Hf. revert r; induction mask as [| b m IH]; intros [| kc t]; cbn;
    try reflexivity.
  rewrite IH. destruct b; [rewrite Hf |]; reflexivity.
Qed.

Lemma Forall_combine_snd {A B : Type} (P : B -> Prop) (Q : A * B -> Prop)
      (xs : list A) (ys : list B) :
  (forall x y, P y -> Q (x, y)) ->
  Forall P ys -> Forall Q (combine xs ys).
Proof.
  intros HPQ Hys. revert xs; induction Hys as [| y ys Hy _ IH];
    intros [| x xs]; cbn; constructor; auto.
Qed.

Lemma map_fst_reindex cols r : map fst (pd.reindex cols r) = cols.
Proof.
  unfold pd.reindex. rewrite map_map. cbn. apply map_id.
Qed.

Lemma uniform_empty_frame : pd.uniform pd.empty_frame.
Proof. constructor. Qed.

Lemma uniform_from_records recs : pd.uniform (pd.from_records recs).
Proof.
  unfold pd.uniform, pd.from_records; cbn.
  apply Forall_forall. intros r Hr. apply in_map_iff in Hr.
  destruct Hr as (r0 & <- & _). apply map_fst_reindex.
Qed.

Lemma uniform_DataFrame_of j df :
  pd.DataFrame_of j = inr df -> pd.uniform df.
Proof.
  destruct j as [| b | z | s | l | [| kv t]]; cbn; intros H;
    try discriminate.
  - injection H as <-. apply uniform_empty_frame.
  - destruct (pd.as_records l); [| discriminate].
    injection H as <-. apply uniform_from_records.
  - injection H as <-. apply uniform_empty_frame.
Qed.

Lemma uniform_two_columns c1 l1 c2 l2 :
  pd.uniform (pd.two_columns c1 l1 c2 l2).
Proof.
  unfold pd.uniform, pd.two_columns; cbn.
  apply Forall_forall. intros r Hr. apply in_map_iff in Hr.
  destruct Hr as (p & <- & _). reflexivity.
Qed.

Lemma max_length_bound (rs : list (list json)) r :
  In r rs ->
  List.length r <= fold_right Nat.max 0 (map (@List.length json) rs).
Proof.
  induction rs as [| r0 t IH]; cbn; [contradiction |].
  intros [-> | Hin]; [lia |]. specialize (IH Hin). lia.
Qed.

Lemma uniform_DataFrame_values values cols df :
  pd.DataFrame_values values cols = inr df -> pd.uniform df.
Proof.
  unfold pd.DataFrame_values.
  destruct cols as [| | | | cl |]; try discriminate.
  destruct (pd.as_labels cl) as [labels |]; [| discriminate].
  destruct values as [| | | | vl |]; try discriminate.
  - intros H; injection H as <-. constructor.
  - destruct vl as [| v vl]; [intros H; injection H as <-; constructor |].
    destruct (pd.as_rows (v :: vl)) as [rs |]; [| discriminate].
    cbv zeta.
    destruct (Nat.eqb_spec
                (fold_right Nat.max 0 (map (@List.length json) rs))
                (List.length labels)) as [E |]; [| discriminate].
    intros H; injection H as <-.
    unfold pd.uniform; cbn. apply Forall_forall. intros r Hr.
    apply in_map_iff in Hr. destruct Hr as (r0 & <- & Hin).
    apply map_fst_combine. unfold pd.pad. rewrite length_app, repeat_length.
    pose proof (max_length_bound rs r0 Hin). lia.
Qed.

Lemma uniform_map_cells f df :
  pd.uniform df -> pd.uniform (pd.map_cells f df).
Proof.
  unfold pd.uniform, pd.map_cells; cbn. intros H.
  apply Forall_map. eapply Forall_impl; [| exact H]. cbn.
  intros r <-. rewrite map_map. reflexivity.
Qed.

Lemma uniform_fillna v df : pd.uniform df -> pd.uniform (pd.fillna v df).
Proof. apply uniform_map_cells. Qed.

Lemma uniform_map_columns f df :
  pd.uniform df -> pd.uniform (pd.map_columns f df).
Proof.
  unfold pd.uniform, pd.map_columns; cbn. intros H.
  apply Forall_map. eapply Forall_impl; [| exact H]. cbn.
  intros r <-. rewrite !map_map. reflexivity.
Qed.

Lemma uniform_rename m df : pd.uniform df -> pd.uniform (pd.rename m df).
Proof. apply uniform_map_columns. Qed.

Lemma uniform_set_columns new df df' :
  pd.set_columns new df = inr df' -> pd.uniform df -> pd.uniform df'.
Proof.
  unfold pd.set_columns.
  destruct (Nat.eqb_spec (List.length new) (List.length (pd.columns df)))
    as [E |]; [| discriminate].
  intros H U; injection H as <-.
  unfold pd.uniform in *; cbn. apply Forall_map.
  eapply Forall_impl; [| exact U]. cbn. intros r Hr.
  apply map_fst_combine. rewrite length_map, E, <- Hr, length_map. lia.
Qed.

Lemma uniform_drop_ignore names df :
  pd.uniform df -> pd.uniform (pd.drop_ignore names df).
Proof.
  unfold pd.uniform, pd.drop_ignore; cbn. intros H.
  apply Forall_map. eapply Forall_impl; [| exact H]. cbn.
  intros r <-.
  apply (map_fst_filter (fun k => negb (pd.mem k names))).
Qed.

Lemma drop_inv names df df' :
  pd.drop names df = inr df' ->
  df' = pd.drop_ignore names df
  /\ filter (fun n => negb (pd.mem n (pd.columns df))) names = [].
Proof.
  unfold pd.drop. destruct (filter _ names); [| discriminate].
  intros H; injection H as <-. split; reflexivity.
Qed.

Lemma uniform_drop names df df' :
  pd.drop names df = inr df' -> pd.uniform df -> pd.uniform df'.
Proof.
  intros H U. apply drop_inv in H. destruct H as [-> _].
  apply uniform_drop_ignore, U.
Qed.

Lemma uniform_setitem name series df df' :
  pd.setitem name series df = inr df' -> pd.uniform df -> pd.uniform df'.
Proof.
  unfold pd.setitem.
  destruct (negb _); [discriminate |].
  destruct (pd.mem name (pd.columns df)); intros H U; injection H as <-;
    unfold pd.uniform in *; cbn; apply Forall_map;
    (eapply Forall_combine_snd; [| exact U]); cbn; intros v r <-.
  - rewrite map_map. apply map_ext. intros [k c]; cbn.
    destruct (String.eqb k name); reflexivity.
  - rewrite map_app. reflexivity.
Qed.

Lemma uniform_insert0 name series df df' :
  pd.insert0 name series df = inr df' -> pd.uniform df -> pd.uniform df'.
Proof.
  unfold pd.insert0.
  destruct (pd.mem name (pd.columns df)); [discriminate |].
  destruct (negb _); [discriminate |].
  intros H U; injection H as <-.
  unfold pd.uniform in *; cbn; apply Forall_map.
  (eapply Forall_combine_snd; [| exact U]); cbn; intros v r <-. reflexivity.
Qed.

Lemma uniform_set_index name df df' :
  pd.set_index name df = inr df' -> pd.uniform df -> pd.uniform df'.
Proof.
  unfold pd.set_index.
  destruct (pd.getitem name df) as [e | labels]; [destruct e; discriminate |].
  intros H U; injection H as <-.
  unfold pd.uniform in *; cbn; apply Forall_map.
  eapply Forall_impl; [| exact U]. cbn. intros r <-.
  apply (map_fst_filter (fun k => negb (String.eqb k name))).
Qed.

Lemma uniform_dropna_all_columns df :
  pd.uniform df -> pd.uniform (pd.dropna_all_columns df).
Proof.
  unfold pd.uniform, pd.dropna_all_columns; cbn. intros U.
  apply Forall_map. eapply Forall_impl; [| exact U]. cbn. intros r <-.
  apply map_fst_filter_mask.
Qed.

Lemma uniform_replace_None v df :
  pd.uniform df -> pd.uniform (pd.replace_None v df).
Proof.
  unfold pd.uniform, pd.replace_None; cbn. intros U.
  apply Forall_map. eapply Forall_impl; [| exact U]. cbn. intros r <-.
  apply map_fst_map_mask. reflexivity.
Qed.

Lemma uniform_concat a b df : pd.concat a b = inr df -> pd.uniform df.
Proof.
  unfold pd.concat. destruct (_ || _); [discriminate |].
  intros H; injection H as <-.
  unfold pd.uniform; cbn. apply Forall_map, Forall_forall.
  intros r _. apply map_fst_reindex.
Qed.

(** *** Tables that were filled hold no missing cell *)

Lemma no_nulls_fillna v df : v <> JNull -> pd.no_nulls (pd.fillna v df).
Proof.
  intros Hv. unfold pd.no_nulls, pd.fillna, pd.map_cells; cbn.
  apply Forall_map, Forall_forall. intros r _.
  apply Forall_map, Forall_forall. intros [k c] _; cbn.
  destruct c; cbn; congruence.
Qed.

Lemma no_nulls_map_columns f df :
  pd.no_nulls df -> pd.no_nulls (pd.map_columns f df).
Proof.
  unfold pd.no_nulls, pd.map_columns; cbn. intros H.
  apply Forall_map. eapply Forall_impl; [| exact H]. cbn. intros r Hr.
  apply Forall_map. eapply Forall_impl; [| exact Hr]. auto.
Qed.

Lemma no_nulls_drop_ignore names df :
  pd.no_nulls df -> pd.no_nulls (pd.drop_ignore names df).
Proof.
  unfold pd.no_nulls, pd.drop_ignore; cbn. intros H.
  apply Forall_map. eapply Forall_impl; [| exact H]. cbn. intros r Hr.
  apply Forall_forall. intros kc Hin. apply filter_In in Hin.
  rewrite Forall_forall in Hr. apply Hr, Hin.
Qed.

Lemma Forall_map_mask {A : Type} (P : A -> Prop) (f : A -> A) mask l :
  (forall a, P a -> P (f a)) -> Forall P l -> Forall P (pd.map_mask f mask l).
Proof.
  intros Hf. revert l; induction mask as [| b m IH]; intros l Hl;
    destruct Hl as [| a t Ha Ht]; cbn; try constructor; auto.
  destruct b; auto.
Qed.

Lemma no_nulls_replace_None v df :
  pd.no_nulls df -> pd.no_nulls (pd.replace_None v df).
Proof.
  unfold pd.no_nulls, pd.replace_None; cbn. intros H.
  apply Forall_map. eapply Forall_impl; [| exact H]. cbn. intros r Hr.
  apply Forall_map_mask; [| exact Hr].
  intros [k c]; cbn. destruct c; cbn; congruence.
Qed.

Lemma no_nulls_insert0 name series df df' :
  pd.insert0 name series df = inr df' ->
  Forall (fun c => c <> JNull) series -> pd.no_nulls df -> pd.no_nulls df'.
Proof.
  unfold pd.insert0.
  destruct (pd.mem name (pd.columns df)); [discriminate |].
  destruct (negb _); [discriminate |].
  intros H Hs Hn; injection H as <-.
  unfold pd.no_nulls in *; cbn. apply Forall_map, Forall_forall.
  intros [v r] Hin.
  rewrite Forall_forall in Hs, Hn.
  constructor; cbn.
  - apply Hs. eapply in_combine_l, Hin.
  - apply Hn. eapply in_combine_r, Hin.
Qed.

Lemma no_nulls_empty df :
  pd.uniform df -> pd.empty df = true -> pd.no_nulls df.
Proof.
  unfold pd.uniform, pd.no_nulls, pd.empty.
  destruct df as [cols idx rs]; cbn. intros U E.
  destruct cols as [| c cols].
  - eapply Forall_impl; [| exact U]. cbn. intros r Hr.
    destruct r; [constructor | discriminate].
  - destruct rs; [constructor | discriminate].
Qed.

Lemma mapM_Forall {A B : Type} (P : B -> Prop) (f : A -> Exc B) l bs :
  (forall a b, f a = inr b -> P b) -> mapM f l = inr bs -> Forall P bs.
Proof.
  intros Hf. revert bs; induction l as [| a t IH]; cbn; intros bs H.
  - injection H as <-. constructor.
  - destruct (f a) as [e | b] eqn:E; [discriminate |].
    destruct (mapM f t) as [e | bs']; [discriminate |].
    injection H as <-. constructor; eauto.
Qed.

(** *** The blocks of the 200 branches *)

Ltac exc_inv H :=
  cbn [bind ret Monad_Exc] in H;
  match type of H with
  | match ?m with inl _ => _ | inr _ => _ end = inr _ =>
      let E := fresh "E" in
      destruct m eqn:E; [discriminate H |]
  end.

Lemma uniform_parse_dates name df df' :
  parse_dates name df = inr df' -> pd.uniform df -> pd.uniform df'.
Proof.
  unfold parse_dates. intros H U.
  exc_inv H. exc_inv H. eapply uniform_setitem; eauto.
Qed.

Lemma dated_table_filled j df :
  dated_table j = inr df -> pd.uniform df /\ pd.no_nulls df.
Proof.
  unfold dated_table. intros H.
  exc_inv H. exc_inv H.
  assert (pd.uniform d0) as U0
      by (eapply uniform_set_columns; eauto using uniform_DataFrame_of).
  destruct (pd.empty d0) eqn:Em; cbn [negb] in H; cbv iota in H.
  - injection H as <-. split; [exact U0 | apply no_nulls_empty; assumption].
  - exc_inv H. injection H as <-. split.
    + apply uniform_fillna. eapply uniform_parse_dates; eauto.
    + apply no_nulls_fillna. discriminate.
Qed.

Lemma join_row_not_null x c : join_row x = inr c -> c <> JNull.
Proof.
  unfold join_row. intros H. exc_inv H. injection H as <-. discriminate.
Qed.

Lemma shape_individuals_filled df df' :
  pd.uniform df -> shape_individuals df = inr df' ->
  pd.uniform df' /\ pd.no_nulls df'.
Proof.
  unfold shape_individuals. intros U H.
  destruct (pd.empty df) eqn:Em; cbn [negb] in H; cbv iota in H.
  - injection H as <-. split; [exact U | apply no_nulls_empty; assumption].
  - cbv zeta in H. exc_inv H. exc_inv H. exc_inv H. injection H as <-.
    split.
    + apply uniform_replace_None, uniform_map_columns, uniform_drop_ignore.
      eapply uniform_insert0; eauto using uniform_fillna.
    + apply no_nulls_replace_None, no_nulls_map_columns, no_nulls_drop_ignore.
      eapply no_nulls_insert0; eauto.
      * eapply mapM_Forall; [| exact E0]. apply join_row_not_null.
      * apply no_nulls_fillna. discriminate.
Qed.

Lemma uniform_shape_organizations df :
  pd.uniform df -> pd.uniform (shape_organizations df).
Proof.
  unfold shape_organizations. intros U.
  destruct (negb (pd.empty df)); [| exact U].
  apply uniform_replace_None, uniform_map_columns, uniform_drop_ignore, U.
Qed.

Lemma uniform_split_dates name df df' :
  split_dates name df = inr df' -> pd.uniform df -> pd.uniform df'.
Proof.
  unfold split_dates. intros H U. exc_inv H. eapply uniform_setitem; eauto.
Qed.

Lemma shape_sales_rounds_filled df df' :
  pd.uniform df -> shape_sales_rounds df = inr df' ->
  pd.uniform df' /\ pd.no_nulls df'.
Proof.
  unfold shape_sales_rounds. intros U H.
  destruct (pd.empty df) eqn:Em; cbn [negb] in H; cbv iota in H.
  - injection H as <-. split; [exact U | apply no_nulls_empty; assumption].
  - cbv zeta in H. exc_inv H. exc_inv H. injection H as <-. split.
    + apply uniform_fillna, uniform_rename.
      eapply uniform_split_dates; [eassumption |].
      eapply uniform_split_dates; [eassumption |].
      apply uniform_map_columns, uniform_drop_ignore, uniform_fillna, U.
    + apply no_nulls_fillna. discriminate.
Qed.

Lemma uniform_shape_treasury_accounts df df' :
  pd.uniform df -> shape_treasury_accounts df = inr df' -> pd.uniform df'.
Proof.
  unfold shape_treasury_accounts. intros U H.
  destruct (negb (pd.empty df)).
  - cbv zeta in H. exc_inv H. exc_inv H. exc_inv H.
    eapply uniform_setitem; [eassumption |].
    eapply uniform_drop; [eassumption |]. apply uniform_map_columns, U.
  - injection H as <-. exact U.
Qed.

Lemma uniform_launch_distribution launch_data launch_type df :
  launch_distribution launch_data launch_type = inr df -> pd.uniform df.
Proof.
  unfold launch_distribution. intros H.
  do 6 exc_inv H. injection H as <-. apply uniform_two_columns.
Qed.

Lemma people_tables_filled key r ind org :
  people_tables key r = inr (ind, org) ->
  pd.uniform ind /\ pd.no_nulls ind /\ pd.uniform org.
Proof.
  unfold people_tables. intros H. repeat exc_inv H. injection H as <- <-.
  match goal with
  | H : shape_individuals ?d = inr _, H0 : pd.DataFrame_of _ = inr ?d |- _ =>
      apply shape_individuals_filled in H;
      [| eapply uniform_DataFrame_of; exact H0]
  end.
  repeat split; try tauto.
  eapply uniform_shape_organizations, uniform_DataFrame_of; eauto.
Qed.

Lemma governance_table_filled r summary df :
  governance_tables r = inr (summary, df) ->
  pd.uniform df /\ pd.no_nulls df.
Proof.
  unfold governance_tables. intros H. do 4 exc_inv H.
  match type of H with
  | context [Json.is_null ?t] => destruct t eqn:N1
  end; cbn [negb Json.is_null] in H; cbv iota in H;
    cbn [bind ret Monad_Exc] in H.
  1: { do 2 exc_inv H. injection H as _ <-.
       split; [apply uniform_empty_frame | constructor]. }
  all: exc_inv H;
    match goal with
    | E : match _ with inl _ => _ | inr _ => _ end = inr _ |- _ =>
        exc_inv E; injection E as <-
    end;
    match type of H with
    | context [Json.is_null ?t] => destruct t eqn:N2
    end; cbn [negb Json.is_null] in H; cbv iota in H;
    cbn [bind ret Monad_Exc] in H.
  all: try (do 2 exc_inv H; injection H as _ <-;
            split; [apply uniform_empty_frame | constructor]).
  all: repeat exc_inv H; injection H as _ <-;
    (split; [apply uniform_two_columns |]).
  all: repeat match goal with
         | H1 : ?x = inr ?a, H2 : ?x = inr ?b |- _ =>
             assert (b = a) by congruence; subst b; clear H2
         end.
  all: unfold pd.no_nulls, pd.two_columns; cbn;
    repeat constructor; cbn; discriminate.
Qed.

Lemma fundraising_tables_filled r details rounds accounts distribution :
  fundraising_tables r = inr (details, rounds, accounts, distribution) ->
  pd.uniform rounds /\ pd.no_nulls rounds
  /\ pd.uniform accounts /\ pd.uniform distribution.
Proof.
  unfold fundraising_tables. intros H. repeat exc_inv H.
  injection H as _ <- <- <-.
  match goal with
  | H : shape_sales_rounds ?d = inr _, H0 : pd.DataFrame_of _ = inr ?d
    |- _ =>
      apply shape_sales_rounds_filled in H;
      [| eapply uniform_DataFrame_of; exact H0]
  end.
  match goal with
  | H : shape_treasury_accounts ?d = inr _, H0 : pd.DataFrame_of _ = inr ?d
    |- _ =>
      apply uniform_shape_treasury_accounts in H;
      [| eapply uniform_DataFrame_of; exact H0]
  end.
  match goal with
  | H : launch_distribution _ _ = inr _ |- _ =>
      apply uniform_launch_distribution in H
  end.
  tauto.
Qed.

(** *** Running a call *)

Lemma exc_bind_inr {A B : Type} (m : Exc A) (k : A -> Exc B) (b : B) :
  bind m k = inr b -> exists a, m = inr a /\ k a = inr b.
Proof.
  destruct m as [e | a]; cbn; intros H; [discriminate | eauto].
Qed.

Lemma mapM_length {A B : Type} (f : A -> Exc B) (l : list A) (bs : list B) :
  mapM f l = inr bs -> List.length bs = List.length l.
Proof.
  revert bs; induction l as [| a t IH]; cbn; intros bs H.
  - injection H as <-. reflexivity.
  - destruct (f a) as [e | b]; [discriminate |].
    destruct (mapM f t) as [e | bs']; [discriminate |].
    injection H as <-. cbn. f_equal. apply IH. reflexivity.
Qed.

Lemma mapM_nth {A B : Type} (f : A -> Exc B) (l : list A) (bs : list B) :
  mapM f l = inr bs ->
  forall i a, nth_error l i = Some a ->
    exists b, nth_error bs i = Some b /\ f a = inr b.
Proof.
  revert bs; induction l as [| a0 t IH]; cbn; intros bs H i a Hi.
  - destruct i; discriminate.
  - destruct (f a0) as [e | b0] eqn:E0; [discriminate |].
    destruct (mapM f t) as [e | bs'] eqn:Et; [discriminate |].
    injection H as <-.
    destruct i as [| i]; cbn in *.
    + injection Hi as <-. eauto.
    + eapply IH; eauto.
Qed.

Ltac run :=
  cbn [bind ret Monad_IO Monad_Exc lift requests_get console_print print
       returning fst snd app].

(** *** C6 *)

(** C6. [get_marketcap_dominance coin interval start end] is the table
    component of [get_messari_timeseries coin "mcap.dom" interval start
    end]: same requests and console lines, same exception if one is
    raised, and otherwise the first component of the pair, untouched. *)
Theorem get_marketcap_dominance_is_timeseries_table
        (coin interval start end_ : string) (w : World) :
  get_marketcap_dominance coin interval start end_ w
  = (match fst (get_messari_timeseries coin "mcap.dom" interval start end_ w)
     with
     | inl e => inl e
     | inr p => inr (fst p)
     end,
     snd (get_messari_timeseries coin "mcap.dom" interval start end_ w)).
Proof.
  unfold get_marketcap_dominance. run.
  destruct (get_messari_timeseries coin "mcap.dom" interval start end_ w)
    as [[e | p] tr]; cbn; [reflexivity |].
  rewrite app_nil_r. reflexivity.
Qed.

(** *** C1 *)



(** *** C2 *)

Ltac split_exc :=
  repeat match goal with
         | |- context [match ?x with inl _ => _ | inr _ => _ end] =>
             destruct x; run
         | |- context [if ?b then _ else _] => destruct b; run
         | |- context [let (_, _) := ?x in _] => destruct x; run
         | |- context [match ?x with (_, _) => _ end] => destruct x; run
         end.

Lemma timeseries_requests coin timeseries_id interval start end_ w r :
  In (Get r) (snd (get_messari_timeseries coin timeseries_id interval
                                          start end_ w)) ->
  r = timeseries_request coin timeseries_id interval start end_.
Proof.
  unfold get_messari_timeseries, timeseries_request. run.
  split_exc.
  all: cbn [In]; intros H;
    repeat (destruct H as [H | H]; try discriminate;
            try (injection H as <-; reflexivity)); contradiction.
Qed.

(** C2, as the code has it.  A request that a call sends is its opening
    request, with the headers [opening_headers] lists (none for
    [get_available_timeseries]; the key header with an empty value for
    [get_tokenomics] and [get_project_product_info]; the configured key
    for every other call), or it is the circulating-supply request that
    [get_tokenomics] sends second, which carries the configured key. *)
Theorem request_headers s w r :
  In (Get r) (snd (call s w)) ->
  (r = first_request s /\ headers r = opening_headers s)
  \/ (exists symbol coingecko_symbol,
         s = Tokenomics symbol coingecko_symbol
         /\ r = timeseries_request symbol "sply.circ" "1d" "" ""
         /\ headers r = auth_headers).
Proof.
  destruct s.
  6: {
    unfold call, get_tokenomics, first_request, profile_request. run.
    destruct (Z.eqb _ 200); run.
    2: { split_exc; cbn [In]; intros H; left;
         repeat (destruct H as [H | H]; try discriminate;
                 try (injection H as <-; split; reflexivity));
         contradiction. }
    pose proof (timeseries_requests symbol "sply.circ" "1d" "" "" w r) as T.
    destruct (get_messari_timeseries symbol "sply.circ" "1d" "" "" w)
      as [res tr].
    cbn [snd] in T.
    split_exc.
    all: cbn [In]; rewrite ?app_nil_r; intros H.
    all: try (destruct H as [H | H];
              [injection H as <-; left; split; reflexivity |]).
    all: try (rewrite in_app_iff in H; cbn [In] in H).
    all: try (right; exists symbol, coingecko_symbol;
              split; [reflexivity |]; 
              assert (r = timeseries_request symbol "sply.circ" "1d" "" "")
                as -> by (apply T; tauto);
              split; reflexivity).
    all: repeat (destruct H as [H | H]; try discriminate); try contradiction.
  }
  all: unfold call, get_available_timeseries, get_marketcap_dominance,
    get_messari_timeseries, get_links, get_roadmap,
    get_project_product_info, get_team, get_investors, get_governance,
    get_fundraising, first_request, timeseries_request, profile_request;
    run; split_exc.
  all: cbn [In]; intros H; left;
    repeat (destruct H as [H | H]; try discriminate;
            try (injection H as <-; split; reflexivity)); contradiction.
Qed.


(** *** C4 *)

Ltac run_in H :=
  cbn [bind ret Monad_IO Monad_Exc lift requests_get console_print print
       returning fst snd app] in H.

Lemma uniform_timeseries coin timeseries_id interval start end_ w df t :
  fst (get_messari_timeseries coin timeseries_id interval start end_ w)
  = inr (df, t) ->
  pd.uniform df.
Proof.
  unfold get_messari_timeseries. run.
  destruct (Z.eqb _ 200); run.
  - destruct (response_json _) as [e | j]; run; [discriminate |].
    destruct (Json.getitem j "data") as [e | data]; run; [discriminate |].
    destruct (Json.getitem data "schema") as [e | schema]; run;
      [discriminate |].
    destruct (Json.getitem schema "name") as [e | name]; run;
      [discriminate |].
    destruct (Json.getitem data "values") as [e | values]; run;
      [discriminate |].
    destruct (Json.getitem data "parameters") as [e | ps]; run;
      [discriminate |].
    destruct (Json.getitem ps "columns") as [e | cols]; run;
      [discriminate |].
    destruct (pd.DataFrame_values values cols) as [e | df0] eqn:E0; run;
      [discriminate |].
    apply uniform_DataFrame_values in E0.
    destruct (pd.empty df0); run.
    + intros H; injection H as <- _. exact E0.
    + destruct (pd.set_index "timestamp" df0) as [e | df1] eqn:E1; run;
        [discriminate |].
      eapply uniform_set_index in E1; [| exact E0].
      destruct (pd.index df1) as [| name' labels]; run.
      * intros H; injection H as <- _. exact E1.
      * destruct (mapM to_datetime_ms labels); run; [discriminate |].
        intros H; injection H as <- _. exact E1.
  - split_exc; intros H; injection H as <- _; apply uniform_empty_frame.
Qed.

Ltac open_run H :=
  match type of H with
  | fst (match ?m with inl _ => _ | inr _ => _ end) = inr _ =>
      let E := fresh "E" in
      destruct m eqn:E; cbn [fst] in H; [discriminate H |];
      injection H as <-
  end.

Ltac no_filled :=
  let i := fresh "i" in
  let F := fresh "F" in
  intros i ? _ F; destruct i as [| [| [| [| ?]]]]; discriminate F.

(** Every table a call returns on a 200 response has uniform rows, and
    the tables marked by [filled] hold no missing cell. *)
Lemma tables_uniform_and_no_nulls s w o :
  status_code (w (first_request s)) = 200%Z ->
  fst (call s w) = inr o ->
  Forall pd.uniform (fst o)
  /\ forall i df, nth_error (fst o) i = Some df -> filled s i = true ->
                  pd.no_nulls df.
Proof.
  intros H200 Hrun.
  destruct s; unfold first_request, timeseries_request, profile_request in *;
    unfold call, get_available_timeseries, get_marketcap_dominance,
      get_links, get_roadmap, get_tokenomics,
      get_project_product_info, get_team, get_investors, get_governance,
      get_fundraising in Hrun.
  all: try (run_in Hrun; rewrite H200 in Hrun;
            change (200 =? 200)%Z with true in Hrun;
            cbv iota in Hrun; run_in Hrun).
  - (* get_available_timeseries *)
    open_run Hrun. do 5 exc_inv E. cbn [fst]. split.
    + repeat constructor.
      eapply uniform_set_index; eauto using uniform_from_records.
    + no_filled.
  - (* get_marketcap_dominance *)
    pose proof (uniform_timeseries coin "mcap.dom" interval start end_ w)
      as U.
    run_in Hrun.
    destruct (get_messari_timeseries coin "mcap.dom" interval start end_ w)
      as [[e | [df t]] tr]; cbn in Hrun; [discriminate |].
    injection Hrun as <-. cbn [fst]. split.
    + repeat constructor. eapply U. reflexivity.
    + no_filled.
  - (* get_messari_timeseries *)
    pose proof (uniform_timeseries coin timeseries_id interval start end_ w)
      as U.
    run_in Hrun.
    destruct (get_messari_timeseries coin timeseries_id interval start
                                     end_ w)
      as [[e | [df t]] tr]; cbn in Hrun; [discriminate |].
    injection Hrun as <-. cbn [fst]. split.
    + repeat constructor. eapply U. reflexivity.
    + no_filled.
  - (* get_links *)
    open_run Hrun. do 4 exc_inv E. injection E as <-. cbn [fst]. split.
    + repeat constructor.
      eapply uniform_map_columns, uniform_DataFrame_of; eauto.
    + no_filled.
  - (* get_roadmap *)
    open_run Hrun. do 5 exc_inv E. injection E as <-. cbn [fst]. split.
    + repeat constructor.
      apply uniform_dropna_all_columns, uniform_map_columns.
      eapply uniform_parse_dates; eauto using uniform_DataFrame_of.
    + no_filled.
  - (* get_tokenomics *)
    pose proof (uniform_timeseries symbol "sply.circ" "1d" "" "" w) as U.
    match type of Hrun with
    | context [match ?m with inl _ => _ | inr _ => _ end] =>
        destruct m as [e | df0] eqn:E
    end; [discriminate Hrun |].
    destruct (get_messari_timeseries symbol "sply.circ" "1d" "" "" w)
      as [[e | [circ t]] tr]; cbn [fst snd] in Hrun; [discriminate |].
    injection Hrun as <-. cbn [fst].
    repeat exc_inv E. injection E as <-. split.
    + repeat constructor.
      * eapply uniform_fillna, uniform_concat; eauto.
      * eapply U. reflexivity.
    + intros i df Hi F; destruct i as [| [| [| [| ?]]]]; try discriminate F.
      injection Hi as <-. apply no_nulls_fillna. discriminate.
  - (* get_project_product_info *)
    open_run Hrun. repeat exc_inv E. injection E as <-. cbn [fst].
    repeat match goal with
           | H : dated_table _ = inr _ |- _ => apply dated_table_filled in H
           end.
    match goal with
    | H : pd.set_columns _ ?d = inr ?d0, H0 : pd.DataFrame_of _ = inr ?d
      |- _ =>
        assert (pd.uniform d0) as U0
          by (eapply uniform_set_columns; eauto using uniform_DataFrame_of)
    end.
    split.
    + apply Forall_cons; [apply uniform_two_columns |].
      apply Forall_cons; [apply uniform_fillna, U0 |].
      apply Forall_cons; [tauto |].
      apply Forall_cons; [tauto | apply Forall_nil].
    + intros i df Hi F; destruct i as [| [| [| [| ?]]]]; try discriminate F;
        injection Hi as <-; try tauto.
      apply no_nulls_fillna. discriminate.
  - (* get_team *)
    open_run Hrun. destruct p as [ind org].
    apply people_tables_filled in E. cbn [fst snd].
    split; [repeat apply Forall_cons; try apply Forall_nil; tauto |].
    intros i df Hi F; destruct i as [| [| [| [| ?]]]]; try discriminate F.
    injection Hi as <-. tauto.
  - (* get_investors *)
    open_run Hrun. destruct p as [ind org].
    apply people_tables_filled in E. cbn [fst snd].
    split; [repeat apply Forall_cons; try apply Forall_nil; tauto |].
    intros i df Hi F; destruct i as [| [| [| [| ?]]]]; try discriminate F.
    injection Hi as <-. tauto.
  - (* get_governance *)
    open_run Hrun. destruct p as [summary df0].
    apply governance_table_filled in E. cbn [fst snd].
    split; [apply Forall_cons; [tauto | apply Forall_nil] |].
    intros i df Hi F; destruct i as [| [| [| [| ?]]]]; try discriminate F.
    injection Hi as <-. tauto.
  - (* get_fundraising *)
    open_run Hrun. destruct p as [[[details rounds] accounts] distribution].
    apply fundraising_tables_filled in E. cbn [fst snd].
    split; [repeat apply Forall_cons; try apply Forall_nil; tauto |].
    intros i df Hi F; destruct i as [| [| [| [| ?]]]]; try discriminate F.
    injection Hi as <-. tauto.
Qed.




(** *** C5 *)

Lemma prefix_app (n b : string) : String.prefix n (n ++ b)%string = true.
Proof.
  induction n as [| a n IH]; cbn.
  - destruct b; reflexivity.
  - destruct (ascii_dec a a) as [_ | N]; [exact IH | contradiction].
Qed.

Lemma contains_app (a n b : string) :
  Py.contains n (a ++ n ++ b)%string = true.
Proof.
  induction a as [| c a IH].
  - cbn [String.append].
    assert (forall s, String.prefix n s = true -> Py.contains n s = true)
      as P by (intros [| c s] Hp; cbn [Py.contains]; rewrite Hp;
               reflexivity).
    apply P, prefix_app.
  - cbn [String.append Py.contains]. rewrite IH. apply orb_true_r.
Qed.

Lemma getpath_two j a b v :
  Json.getpath j [a; b] = inr v ->
  exists m, Json.getitem j a = inr m /\ Json.getitem m b = inr v.
Proof.
  cbn [Json.getpath]. destruct (Json.getitem j a) as [e | m];
    [discriminate |].
  destruct (Json.getitem m b) as [e | v'] eqn:E; [discriminate |].
  intros H; injection H as <-. eauto.
Qed.

(** C5. A 200 response of the timeseries endpoint whose ["values"] array
    is empty: [get_messari_timeseries] returns the table of the announced
    columns with no row (so [df.empty] holds) and the title, raises
    nothing, leaves the default index in place (the timestamp conversion
    is never called, whatever it would do), and writes to the console one
    line, which contains the name of the coin. *)
Theorem empty_timeseries_notice
        coin timeseries_id interval start end_ w j data title cl labels :
  status_code (w (timeseries_request coin timeseries_id interval start end_))
  = 200%Z ->
  payload (w (timeseries_request coin timeseries_id interval start end_))
  = Some j ->
  Json.getitem j "data" = inr data ->
  Json.getpath data ["schema"; "name"] = inr title ->
  Json.getitem data "values" = inr (JArr []) ->
  Json.getpath data ["parameters"; "columns"] = inr (JArr cl) ->
  pd.as_labels cl = Some labels ->
  get_messari_timeseries coin timeseries_id interval start end_ w
  = (inr (pd.mkDF labels pd.RangeIndex [], title),
     [Get (timeseries_request coin timeseries_id interval start end_);
      ConsolePrint ("No data found for " ++ coin ++ "." ++ LF)%string])
  /\ pd.empty (pd.mkDF labels pd.RangeIndex []) = true
  /\ Py.contains coin ("No data found for " ++ coin ++ "." ++ LF)%string
     = true.
Proof.
  intros H200 Hj Hdata Htitle Hvalues Hcols Hlabels.
  split; [| split].
  - unfold get_messari_timeseries, timeseries_request in *. run.
    rewrite H200. change (200 =? 200)%Z with true. cbv iota. run.
    unfold response_json. rewrite Hj. run. rewrite Hdata. run.
    apply getpath_two in Htitle, Hcols.
    destruct Htitle as (schema & Hs & Ht), Hcols as (ps & Hps & Hc).
    rewrite Hs. run. rewrite Ht. run. rewrite Hvalues. run.
    rewrite Hps. run. rewrite Hc. run.
    unfold pd.DataFrame_values. rewrite Hlabels. run.
    replace (pd.empty (pd.mkDF labels pd.RangeIndex [])) with true
      by (destruct labels; reflexivity).
    run. reflexivity.
  - destruct labels; reflexivity.
  - apply contains_app.
Qed.

(** *** C7 *)

Lemma rstrip_app_sep c (x : string) :
  Py.rstrip c (x ++ String c EmptyString)%string = Py.rstrip c x.
Proof.
  induction x as [| a t IH]; cbn.
  - rewrite Ascii.eqb_refl. reflexivity.
  - rewrite IH. reflexivity.
Qed.

Lemma sources_loop_names acc srcs :
  forallb named_source srcs = true ->
  sources_loop acc srcs
  = inr (fold_left (fun a n => (a ++ n ++ ",")%string)
                   (map source_name srcs) acc).
Proof.
  revert acc; induction srcs as [| src t IH]; intros acc H; cbn in *.
  - reflexivity.
  - apply andb_prop in H. destruct H as [Hs Ht].
    unfold named_source, source_name in *.
    destruct (Json.getitem src "name") as [e | [| | | n | |]];
      try discriminate.
    cbn. apply IH, Ht.
Qed.

Lemma string_app_assoc (a b c : string) :
  ((a ++ b) ++ c = a ++ b ++ c)%string.
Proof. induction a; cbn; [| rewrite IHa]; reflexivity. Qed.

Lemma string_app_nil_r (a : string) : (a ++ "")%string = a.
Proof. induction a; cbn; [| rewrite IHa]; reflexivity. Qed.

Lemma fold_commas acc names :
  fold_left (fun a n => (a ++ n ++ ",")%string) names acc
  = match names with
    | [] => acc
    | _ => (acc ++ String.concat "," names ++ ",")%string
    end.
Proof.
  revert acc; induction names as [| n t IH]; intros acc; [reflexivity |].
  cbn [fold_left]. rewrite IH. destruct t as [| n' t'].
  - cbn. reflexivity.
  - cbn [String.concat]. rewrite !string_app_assoc. reflexivity.
Qed.

Lemma rstrip_loop_is_join names :
  Py.rstrip "," (fold_left (fun a n => (a ++ n ++ ",")%string) names "")
  = Py.rstrip "," (Py.join "," names).
Proof.
  rewrite fold_commas. destruct names as [| n t]; [reflexivity |].
  cbn [String.append]. apply rstrip_app_sep.
Qed.

Lemma has_key_lookup k m :
  Json.has_key k m = true <-> exists v, Json.lookup k m = Some v.
Proof.
  unfold Json.has_key. destruct (Json.lookup k m) as [v |]; split;
    intros H; try reflexivity; try discriminate; eauto.
  destruct H as [v H]; discriminate.
Qed.

Lemma metric_record_row m :
  well_formed_metric m = true ->
  metric_record (JObj m)
  = inr (("id", pd.cell_of m "metric_id") :: catalogue_row m).
Proof.
  unfold well_formed_metric, metric_record, catalogue_row, source_names,
    pd.cell_of, Json.has_key.
  cbn [Json.getitem Json.contains_key bind ret Monad_Exc].
  destruct (Json.lookup "metric_id" m) as [id |]; [| discriminate].
  destruct (Json.lookup "name" m) as [nm |]; [| discriminate].
  destruct (Json.lookup "description" m) as [desc |]; [| discriminate].
  destruct (Json.lookup "source_attribution" m) as [[| | | | srcs |] |];
    try discriminate.
  cbn [andb Json.iter]. intros H.
  rewrite (sources_loop_names "" srcs H), rstrip_loop_is_join.
  reflexivity.
Qed.

Lemma mapM_metric_records ms :
  forallb well_formed_metric ms = true ->
  mapM metric_record (map JObj ms)
  = inr (map (fun m => ("id", pd.cell_of m "metric_id") :: catalogue_row m)
             ms).
Proof.
  induction ms as [| m t IH]; cbn [forallb map mapM]; intros H;
    [reflexivity |].
  apply andb_prop in H. destruct H as [Hm Ht].
  rewrite (metric_record_row m Hm), (IH Ht). reflexivity.
Qed.

Lemma catalogue_frame ms :
  ms <> [] ->
  pd.set_index "id"
    (pd.from_records
       (map (fun m => ("id", pd.cell_of m "metric_id") :: catalogue_row m)
            ms))
  = inr (pd.mkDF ["Title"; "Description"; "Requires Paid Key"; "Sources"]
                 (pd.LabelIndex "id"
                                (map (fun m => pd.cell_of m "metric_id") ms))
                 (map catalogue_row ms)).
Proof.
  intros Hne.
  set (full := fun m => ("id", pd.cell_of m "metric_id") :: catalogue_row m).
  set (keys := ["id"; "Title"; "Description"; "Requires Paid Key";
                "Sources"]).
  assert (forall t, fold_left pd.add_keys (map full t) keys = keys) as Hfold.
  { induction t as [| m t IH]; [reflexivity |]. cbn [map fold_left].
    change (pd.add_keys keys (full m)) with keys. exact IH. }
  assert (pd.union_keys (map full ms) = keys) as Hkeys.
  { destruct ms as [| m t]; [contradiction |].
    unfold pd.union_keys. cbn [map fold_left].
    change (pd.add_keys [] (full m)) with keys. apply Hfold. }
  unfold pd.from_records. rewrite Hkeys.
  assert (map (pd.reindex keys) (map full ms) = map full ms) as ->.
  { rewrite map_map. apply map_ext. intros m. reflexivity. }
  unfold pd.set_index, pd.getitem. cbn [pd.columns pd.rows pd.index].
  change (pd.count "id" keys) with 1.
  cbv iota. rewrite !map_map. reflexivity.
Qed.

(** C7. On a 200 response whose payload lists at least one metric, each
    a well-formed metric object, [get_available_timeseries] returns the
    table indexed by metric id that has one row per metric, in order.  In
    the row of a metric, "Requires Paid Key" is [true] exactly when the
    object has a ["role_restriction"] key, and "Sources" is the names of
    its attribution sources joined by commas with no comma left at the
    end. *)
Theorem available_timeseries_catalogue w j ms :
  status_code (w catalogue_request) = 200%Z ->
  payload (w catalogue_request) = Some j ->
  Json.getpath j ["data"; "metrics"] = inr (JArr (map JObj ms)) ->
  ms <> [] ->
  forallb well_formed_metric ms = true ->
  get_available_timeseries w
  = (inr (pd.mkDF ["Title"; "Description"; "Requires Paid Key"; "Sources"]
                  (pd.LabelIndex "id"
                                 (map (fun m => pd.cell_of m "metric_id") ms))
                  (map catalogue_row ms)),
     [Get catalogue_request])
  /\ List.length (map catalogue_row ms) = List.length ms
  /\ forall m, In m ms ->
       pd.cells_of "Requires Paid Key" (catalogue_row m)
       = [JBool (Json.has_key "role_restriction" m)]
       /\ (Json.has_key "role_restriction" m = true
           <-> exists v, Json.lookup "role_restriction" m = Some v)
       /\ pd.cells_of "Sources" (catalogue_row m)
          = [JStr (Py.rstrip "," (String.concat "," (source_names m)))].
Proof.
  intros H200 Hj Hms Hne Hwf. split; [| split].
  - unfold get_available_timeseries, catalogue_request in *. run.
    rewrite H200. change (200 =? 200)%Z with true. cbv iota. run.
    unfold response_json. rewrite Hj. run.
    apply getpath_two in Hms. destruct Hms as (d & Hd & Hm).
    rewrite Hd. run. rewrite Hm. run. cbn [Json.iter]. run.
    rewrite (mapM_metric_records ms Hwf). run.
    rewrite (catalogue_frame ms Hne). reflexivity.
  - apply length_map.
  - intros m _. split; [reflexivity | split; [apply has_key_lookup |]].
    reflexivity.
Qed.

(** *** Rows built from records *)

Lemma mem_In k l : pd.mem k l = true <-> In k l.
Proof.
  unfold pd.mem. rewrite existsb_exists. split.
  - intros (x & Hx & E). apply String.eqb_eq in E. subst. exact Hx.
  - intros H. exists k. split; [exact H | apply String.eqb_refl].
Qed.

Lemma mem_false k l : pd.mem k l = false <-> ~ In k l.
Proof.
  rewrite <- mem_In. destruct (pd.mem k l); split; congruence.
Qed.

Lemma add_keys_NoDup r : forall seen, NoDup seen -> NoDup (pd.add_keys seen r).
Proof.
  induction r as [| [k v] t IH]; intros seen H; cbn; [exact H |].
  destruct (pd.mem k seen) eqn:M; apply IH; [exact H |].
  apply NoDup_app; [exact H | repeat constructor; intros [] |].
  intros a Ha [<- | []]. apply mem_false in M. contradiction.
Qed.

Lemma add_keys_incl r : forall seen k, In k seen -> In k (pd.add_keys seen r).
Proof.
  induction r as [| [k' v] t IH]; intros seen k H; cbn; [exact H |].
  apply IH. destruct (pd.mem k' seen); [exact H |].
  apply in_or_app. left. exact H.
Qed.

Lemma add_keys_keys r : forall seen k,
    In k (map fst r) -> In k (pd.add_keys seen r).
Proof.
  induction r as [| [k' v] t IH]; intros seen k H; cbn in *; [contradiction |].
  destruct H as [<- | H]; [| apply IH, H].
  apply add_keys_incl. destruct (pd.mem k' seen) eqn:M.
  - apply mem_In, M.
  - apply in_or_app. right. left. reflexivity.
Qed.

Lemma union_keys_NoDup recs : NoDup (pd.union_keys recs).
Proof.
  unfold pd.union_keys.
  assert (forall seen, NoDup seen -> NoDup (fold_left pd.add_keys recs seen))
    as G.
  { induction recs as [| r t IH]; intros seen H; cbn; [exact H |].
    apply IH, add_keys_NoDup, H. }
  apply G. constructor.
Qed.

Lemma union_keys_In recs rec k :
  In rec recs -> In k (map fst rec) -> In k (pd.union_keys recs).
Proof.
  unfold pd.union_keys.
  assert (forall seen, In k seen -> In k (fold_left pd.add_keys recs seen))
    as Mono.
  { induction recs as [| r t IH]; intros seen H; cbn; [exact H |].
    apply IH, add_keys_incl, H. }
  clear Mono.
  generalize (@nil string) as seen.
  induction recs as [| r t IH]; intros seen Hin Hk; cbn; [contradiction |].
  destruct Hin as [-> | Hin]; [| apply IH; assumption].
  assert (forall l seen', In k seen' -> In k (fold_left pd.add_keys l seen'))
    as Mono.
  { induction l as [| r' t' IH']; intros seen' H; cbn; [exact H |].
    apply IH', add_keys_incl, H. }
  apply Mono, add_keys_keys, Hk.
Qed.

Lemma lookup_In_keys k (rec : list (string * json)) v :
  Json.lookup k rec = Some v -> In k (map fst rec).
Proof.
  induction rec as [| [k' v'] t IH]; cbn; [discriminate |].
  destruct (String.eqb_spec k k') as [-> | N]; [left; reflexivity |].
  intros H. right. apply IH, H.
Qed.

Lemma cell_of_lookup k (rec : list (string * json)) v :
  Json.lookup k rec = Some v -> pd.cell_of rec k = v.
Proof. unfold pd.cell_of. intros ->. reflexivity. Qed.

Lemma nth_error_from_records recs i rec :
  nth_error recs i = Some rec ->
  nth_error (pd.rows (pd.from_records recs)) i
  = Some (pd.reindex (pd.union_keys recs) rec).
Proof.
  unfold pd.from_records; cbn. rewrite nth_error_map. intros ->. reflexivity.
Qed.

Lemma cells_of_reindex_absent k cols rec :
  ~ In k cols -> pd.cells_of k (pd.reindex cols rec) = [].
Proof.
  unfold pd.cells_of, pd.reindex.
  induction cols as [| c t IH]; cbn; intros H; [reflexivity |].
  destruct (String.eqb_spec c k) as [-> | N].
  - exfalso. apply H. left. reflexivity.
  - apply IH. intros Hin. apply H. right. exact Hin.
Qed.

Lemma cells_of_reindex k cols rec :
  NoDup cols -> In k cols ->
  pd.cells_of k (pd.reindex cols rec) = [pd.cell_of rec k].
Proof.
  intros Hnd. induction Hnd as [| c t Hc Ht IH]; [intros [] |].
  intros Hin.
  pose proof (cells_of_reindex_absent k t rec) as Habs.
  unfold pd.cells_of, pd.reindex in *. cbn [map filter fst].
  destruct (String.eqb_spec c k) as [-> | N].
  - cbn [map snd]. f_equal. apply Habs, Hc.
  - destruct Hin as [E | Hin]; [contradiction |]. apply IH, Hin.
Qed.

Lemma cells_of_map_cells f name (r : pd.Row) :
  pd.cells_of name (map (fun kc => (fst kc, f (snd kc))) r)
  = map f (pd.cells_of name r).
Proof.
  unfold pd.cells_of.
  induction r as [| [k c] t IH]; cbn; [reflexivity |].
  destruct (String.eqb k name); cbn; rewrite IH; reflexivity.
Qed.

Lemma filter_reindex_absent k cols rec :
  ~ In k cols ->
  filter (fun kc => String.eqb k (fst kc)) (pd.reindex cols rec) = [].
Proof.
  unfold pd.reindex.
  induction cols as [| c t IH]; cbn; intros H; [reflexivity |].
  destruct (String.eqb_spec k c) as [-> | N].
  - exfalso. apply H. left. reflexivity.
  - apply IH. intros Hin. apply H. right. exact Hin.
Qed.

Lemma filter_reindex k cols rec :
  NoDup cols -> In k cols ->
  filter (fun kc => String.eqb k (fst kc)) (pd.reindex cols rec)
  = [(k, pd.cell_of rec k)].
Proof.
  intros Hnd. induction Hnd as [| c t Hc Ht IH]; [intros [] |].
  intros Hin.
  pose proof (filter_reindex_absent k t rec) as Habs.
  unfold pd.reindex in *. cbn [map filter fst].
  destruct (String.eqb_spec k c) as [-> | N].
  - f_equal. apply Habs, Hc.
  - destruct Hin as [E | Hin]; [congruence |]. apply IH, Hin.
Qed.

Lemma nth_error_combine {A B : Type} (l1 : list A) (l2 : list B) i a b :
  nth_error l1 i = Some a -> nth_error l2 i = Some b ->
  nth_error (combine l1 l2) i = Some (a, b).
Proof.
  revert l2 i; induction l1 as [| x t IH]; intros [| y l2] [| i]; cbn;
    try discriminate.
  - intros H1 H2; injection H1 as ->; injection H2 as ->. reflexivity.
  - apply IH.
Qed.

Lemma getitem_list_inv names df d :
  pd.getitem_list names df = inr d ->
  (forall n, In n names -> In n (pd.columns df))
  /\ pd.rows d
     = map (fun r => flat_map
                       (fun n => filter (fun kc : string * json =>
                                           String.eqb n (fst kc)) r)
                       names)
           (pd.rows df).
Proof.
  unfold pd.getitem_list.
  destruct (filter (fun n => negb (pd.mem n (pd.columns df))) names)
    as [| m ms] eqn:F; [| destruct (Nat.eqb _ _); discriminate].
  intros H. split.
  - intros n Hn. destruct (pd.mem n (pd.columns df)) eqn:M;
      [apply mem_In, M |].
    exfalso.
    assert (In n (filter (fun n => negb (pd.mem n (pd.columns df))) names))
      as Hin by (apply filter_In; split; [exact Hn | rewrite M; reflexivity]).
    rewrite F in Hin. contradiction.
  - injection H as <-. reflexivity.
Qed.

Lemma insert0_inv name series df d :
  pd.insert0 name series df = inr d ->
  pd.columns d = name :: pd.columns df
  /\ pd.index d = pd.index df
  /\ pd.rows d = map (fun vr => (name, fst vr) :: snd vr)
                     (combine series (pd.rows df)).
Proof.
  unfold pd.insert0. destruct (pd.mem name _); [discriminate |].
  destruct (negb _); [discriminate |].
  intros H; injection H as <-. repeat split.
Qed.

Lemma map_mask_fixed {A : Type} (f : A -> A) mask (l : list A) :
  Forall (fun a => f a = a) l -> pd.map_mask f mask l = l.
Proof.
  intros H. revert mask. induction H as [| a t Ha _ IH]; intros [| b m];
    cbn; try reflexivity.
  rewrite IH. destruct b; [rewrite Ha |]; reflexivity.
Qed.

Lemma filled_cell_not_null c : Json.is_null (filled_cell c) = false.
Proof. destruct c; reflexivity. Qed.

(** What [shape_individuals] makes of record [i] of a table that is not
    empty, when it returns: the two name cells were strings once filled,
    the row opens with their join, and it goes on with the cells of the
    record under the keys that are not dropped, each one filled and under
    its capitalized key. *)
Lemma individuals_row recs ind i rec :
  shape_individuals (pd.from_records recs) = inr ind ->
  pd.empty (pd.from_records recs) = false ->
  nth_error recs i = Some rec ->
  exists p1 p2,
    filled_cell (pd.cell_of rec "first_name") = JStr p1
    /\ filled_cell (pd.cell_of rec "last_name") = JStr p2
    /\ nth_error (pd.rows ind) i
       = Some (("Name", JStr (p1 ++ " " ++ p2)%string)
                 :: map (fun k => (Py.capitalize k,
                                   filled_cell (pd.cell_of rec k)))
                        (filter (fun k =>
                                   negb (pd.mem k ["slug"; "avatar_url";
                                                   "first_name";
                                                   "last_name"]))
                                (pd.union_keys recs))).
Proof.
  unfold shape_individuals. intros H Hne Hi.
  rewrite Hne in H. cbn [negb] in H; cbv iota in H.
  cbv zeta in H. exc_inv H. exc_inv H. exc_inv H.
  rename E into Esub, E0 into Efull, E1 into Eins.
  assert (ind = pd.replace_None
                  (JStr "-")
                  (pd.map_columns
                     Py.capitalize
                     (pd.drop_ignore
                        ["slug"; "avatar_url"; "first_name"; "last_name"]
                        d0))) as -> by congruence.
  clear H.
  (* the two name columns exist *)
  apply getitem_list_inv in Esub. destruct Esub as (Hcols & Hsubrows).
  assert (In "first_name" (pd.union_keys recs)) as Hfn
      by (apply (Hcols "first_name"); left; reflexivity).
  assert (In "last_name" (pd.union_keys recs)) as Hln
      by (apply (Hcols "last_name"); right; left; reflexivity).
  (* row i of the filled table, and of the sub-table of names *)
  set (r1 := map (fun kc : string * json => (fst kc, filled_cell (snd kc)))
                 (pd.reindex (pd.union_keys recs) rec)).
  assert (nth_error (pd.rows (pd.fillna (JStr "-") (pd.from_records recs))) i
          = Some r1) as Hr1.
  { unfold pd.fillna, pd.map_cells, pd.from_records. cbn [pd.rows].
    rewrite !nth_error_map, Hi. reflexivity. }
  unfold pd.apply_rows in Efull. rewrite Hsubrows in Efull.
  assert (nth_error
            (map (fun r => flat_map
                             (fun n => filter
                                         (fun kc : string * json =>
                                            String.eqb n (fst kc)) r)
                             ["first_name"; "last_name"])
                 (pd.rows (pd.fillna (JStr "-") (pd.from_records recs)))) i
          = Some [("first_name", filled_cell (pd.cell_of rec "first_name"));
                  ("last_name", filled_cell (pd.cell_of rec "last_name"))])
    as Hsub.
  { rewrite nth_error_map, Hr1. cbn [option_map flat_map]. f_equal.
    unfold r1.
    rewrite !(filter_map_swap
                (fun kc : string * json => String.eqb _ (fst kc))).
    cbn [fst].
    rewrite (filter_reindex "first_name" _ rec (union_keys_NoDup recs) Hfn).
    rewrite (filter_reindex "last_name" _ rec (union_keys_NoDup recs) Hln).
    reflexivity. }
  destruct (mapM_nth _ _ _ Efull _ _ Hsub) as (b & Hb & Hjoin).
  unfold join_row in Hjoin. cbn [map snd mapM] in Hjoin.
  destruct (filled_cell (pd.cell_of rec "first_name"))
    as [| | | p1 | |] eqn:P1; try discriminate.
  destruct (filled_cell (pd.cell_of rec "last_name"))
    as [| | | p2 | |] eqn:P2; try discriminate.
  assert (b = JStr (p1 ++ " " ++ p2)%string) as ->
      by (cbn in Hjoin; injection Hjoin as <-; reflexivity).
  (* the Name column goes in front and stays there *)
  apply insert0_inv in Eins. destruct Eins as (_ & _ & Hrows0).
  unfold pd.replace_None, pd.map_columns, pd.drop_ignore.
  cbn [pd.rows pd.columns pd.index].
  rewrite Hrows0, !nth_error_map.
  rewrite (nth_error_combine _ _ _ _ _ Hb Hr1). cbn [option_map fst snd].
  change (filter (fun kc : string * json =>
                    negb (pd.mem (fst kc) ["slug"; "avatar_url";
                                           "first_name"; "last_name"]))
                 (("Name", JStr (p1 ++ " " ++ p2)%string) :: r1))
    with (("Name", JStr (p1 ++ " " ++ p2)%string)
            :: filter (fun kc : string * json =>
                         negb (pd.mem (fst kc) ["slug"; "avatar_url";
                                                "first_name"; "last_name"]))
                      r1).
  cbn [map fst snd].
  change (Py.capitalize "Name") with "Name".
  exists p1, p2. split; [reflexivity | split; [reflexivity |]].
  unfold r1, pd.reindex.
  rewrite !filter_map_swap, !map_map. cbn [fst snd].
  rewrite map_mask_fixed; [reflexivity |].
  apply Forall_cons; [reflexivity |].
  apply Forall_map, Forall_forall. intros k _. cbn [fst snd].
  rewrite filled_cell_not_null. reflexivity.
Qed.

Lemma individuals_name recs ind i rec :
  shape_individuals (pd.from_records recs) = inr ind ->
  pd.empty (pd.from_records recs) = false ->
  nth_error recs i = Some rec ->
  exists p1 p2 rest,
    filled_cell (pd.cell_of rec "first_name") = JStr p1
    /\ filled_cell (pd.cell_of rec "last_name") = JStr p2
    /\ nth_error (pd.rows ind) i
       = Some (("Name", JStr (p1 ++ " " ++ p2)%string) :: rest).
Proof.
  intros H Hne Hi.
  destruct (individuals_row recs ind i rec H Hne Hi) as (p1 & p2 & P1 & P2 & R).
  eauto 6.
Qed.


Lemma individuals_nonempty df ind :
  shape_individuals df = inr ind -> pd.empty ind = false ->
  pd.empty df = false.
Proof.
  unfold shape_individuals. destruct (pd.empty df) eqn:Em; [| reflexivity].
  cbn. intros H; injection H as <-. congruence.
Qed.

Lemma individuals_columns df ind :
  shape_individuals df = inr ind -> pd.empty df = false ->
  forall c, In c (pd.columns ind) -> exists k, c = Py.capitalize k.
Proof.
  unfold shape_individuals. intros H Em. rewrite Em in H.
  cbn [negb] in H; cbv iota zeta in H. repeat exc_inv H.
  assert (ind = pd.replace_None
                  (JStr "-")
                  (pd.map_columns
                     Py.capitalize
                     (pd.drop_ignore
                        ["slug"; "avatar_url"; "first_name"; "last_name"]
                        d0))) as -> by congruence.
  unfold pd.replace_None, pd.map_columns. cbn [pd.columns].
  intros c Hc. apply in_map_iff in Hc. destruct Hc as (k & <- & _). eauto.
Qed.

(** The labels of that table: "Name" first, then the keys of the
    payload without the four that are dropped, capitalized. *)
Lemma individuals_labels df ind :
  shape_individuals df = inr ind -> pd.empty df = false ->
  pd.columns ind
  = "Name" :: map Py.capitalize
                  (filter (fun k => negb (pd.mem k ["slug"; "avatar_url";
                                                    "first_name";
                                                    "last_name"]))
                          (pd.columns df)).
Proof.
  unfold shape_individuals. intros H Em. rewrite Em in H.
  cbn [negb] in H; cbv iota zeta in H. repeat exc_inv H.
  assert (ind = pd.replace_None
                  (JStr "-")
                  (pd.map_columns
                     Py.capitalize
                     (pd.drop_ignore
                        ["slug"; "avatar_url"; "first_name"; "last_name"]
                        d0))) as -> by congruence.
  match goal with
  | E : pd.insert0 _ _ _ = inr d0 |- _ =>
      apply insert0_inv in E; destruct E as (Hcols & _ & _)
  end.
  unfold pd.replace_None, pd.map_columns, pd.drop_ignore.
  cbn [pd.columns]. rewrite Hcols. reflexivity.
Qed.

Lemma upper_char_not_lower a : Py.is_lower (Py.upper_char a) = false.
Proof.
  destruct a as [[] [] [] [] [] [] [] []]; reflexivity.
Qed.

Lemma capitalize_initial k c t :
  Py.capitalize k = String c t -> Py.is_lower c = false.
Proof.
  destruct k as [| a k]; cbn; intros H; [discriminate |].
  injection H as <- _. apply upper_char_not_lower.
Qed.

Lemma as_records_objects recs : pd.as_records (map JObj recs) = Some recs.
Proof.
  induction recs as [| r t IH]; cbn; [reflexivity |]. rewrite IH. reflexivity.
Qed.

Lemma DataFrame_of_objects recs :
  pd.DataFrame_of (JArr (map JObj recs)) = inr (pd.from_records recs).
Proof. cbn. rewrite as_records_objects. reflexivity. Qed.

Lemma people_individuals key r j recs ind org :
  payload r = Some j ->
  Json.getpath j ["data"; "profile"; key; "individuals"]
  = inr (JArr (map JObj recs)) ->
  people_tables key r = inr (ind, org) ->
  shape_individuals (pd.from_records recs) = inr ind.
Proof.
  unfold people_tables, response_json. intros Hj Hpath H.
  rewrite Hj in H. cbn [bind ret Monad_Exc] in H.
  change (Json.getpath j ["data"; "profile"; key; "individuals"])
    with (match Json.getitem j "data" with
          | inl e => inl e
          | inr v => Json.getpath v ["profile"; key; "individuals"]
          end) in Hpath.
  destruct (Json.getitem j "data") as [e | data]; [discriminate |].
  rewrite Hpath in H. rewrite DataFrame_of_objects in H.
  repeat exc_inv H. congruence.
Qed.

(** *** C9 *)

Lemma people_call s w key ind org :
  people_key s = Some key ->
  status_code (w (first_request s)) = 200%Z ->
  fst (call s w) = inr ([ind; org], []) ->
  people_tables key (w (first_request s)) = inr (ind, org).
Proof.
  destruct s; try discriminate; intros Hk H200 Hrun;
    injection Hk as <-;
    unfold first_request, profile_request in *;
    unfold call, get_team, get_investors in Hrun;
    run_in Hrun; rewrite H200 in Hrun;
    change (200 =? 200)%Z with true in Hrun; cbv iota in Hrun;
    run_in Hrun;
    match type of Hrun with
    | context [people_tables ?k ?r] =>
        destruct (people_tables k r) as [e | [ind' org']]
    end; cbn [fst snd] in Hrun; try discriminate; congruence.
Qed.

(** C9. A table of individuals that [get_team] or [get_investors]
    returns, and that is not empty: the row of a record whose first name
    is [first] and last name is [last] opens with the field "Name" holding
    [first], a space and [last] (so "Ada Lovelace" for "Ada" and
    "Lovelace"); no column of the table is labelled ["first_name"],
    ["last_name"], ["slug"] or ["avatar_url"]; and the labels of the
    table are "Name" followed by the keys of the payload without those
    four, each capitalized: the four raw columns are dropped, and nothing
    else is. *)
Theorem individuals_name_synthesis s w key j recs ind org first last :
  people_key s = Some key ->
  status_code (w (first_request s)) = 200%Z ->
  payload (w (first_request s)) = Some j ->
  Json.getpath j ["data"; "profile"; key; "individuals"]
  = inr (JArr (map JObj recs)) ->
  fst (call s w) = inr ([ind; org], []) ->
  pd.empty ind = false ->
  (forall i rec,
      nth_error recs i = Some rec ->
      Json.lookup "first_name" rec = Some (JStr first) ->
      Json.lookup "last_name" rec = Some (JStr last) ->
      exists rest,
        nth_error (pd.rows ind) i
        = Some (("Name", JStr (first ++ " " ++ last)%string) :: rest))
  /\ ~ In "first_name" (pd.columns ind)
  /\ ~ In "last_name" (pd.columns ind)
  /\ ~ In "slug" (pd.columns ind)
  /\ ~ In "avatar_url" (pd.columns ind)
  /\ pd.columns ind
     = "Name" :: map Py.capitalize
                     (filter (fun k =>
                                negb (pd.mem k ["slug"; "avatar_url";
                                                "first_name"; "last_name"]))
                             (pd.union_keys recs)).
Proof.
  intros Hk H200 Hj Hpath Hrun Hne.
  pose proof (people_call s w key ind org Hk H200 Hrun) as Ht.
  pose proof (people_individuals key _ j recs ind org Hj Hpath Ht) as Hshape.
  pose proof (individuals_nonempty _ _ Hshape Hne) as Hne0.
  split.
  - intros i rec Hi Hf Hl.
    destruct (individuals_name recs ind i rec Hshape Hne0 Hi)
      as (p1 & p2 & rest & P1 & P2 & Hrow).
    rewrite (cell_of_lookup _ _ _ Hf) in P1.
    rewrite (cell_of_lookup _ _ _ Hl) in P2.
    cbn in P1, P2. injection P1 as <-. injection P2 as <-.
    exists rest. exact Hrow.
  - pose proof (individuals_columns _ _ Hshape Hne0) as Hcols.
    repeat split;
      try (intros Hin; apply Hcols in Hin; destruct Hin as (k & Hk');
           symmetry in Hk'; apply capitalize_initial in Hk'; discriminate).
    exact (individuals_labels _ _ Hshape Hne0).
Qed.

(** *** C10 *)

Lemma In_keys_has_key k (rec : list (string * json)) :
  In k (map fst rec) -> Json.has_key k rec = true.
Proof.
  unfold Json.has_key.
  induction rec as [| [k' v] t IH]; cbn; [contradiction |].
  destruct (String.eqb_spec k k') as [-> | N]; [reflexivity |].
  intros [E | Hin]; [congruence | apply IH, Hin].
Qed.

Lemma add_keys_inv r : forall seen k,
    In k (pd.add_keys seen r) -> In k seen \/ In k (map fst r).
Proof.
  induction r as [| [k' v] t IH]; intros seen k H; cbn in *; [tauto |].
  apply IH in H. destruct H as [H | H]; [| tauto].
  destruct (pd.mem k' seen); [tauto |].
  apply in_app_or in H. destruct H as [H | [<- | []]]; tauto.
Qed.

Lemma union_keys_inv recs k :
  In k (pd.union_keys recs) ->
  exists rec, In rec recs /\ In k (map fst rec).
Proof.
  unfold pd.union_keys.
  assert (forall seen,
             In k (fold_left pd.add_keys recs seen) ->
             In k seen \/ exists rec, In rec recs /\ In k (map fst rec))
    as G.
  { induction recs as [| r t IH]; intros seen H; cbn in *; [tauto |].
    apply IH in H. destruct H as [H | (rec & Hin & Hk)].
    - apply add_keys_inv in H. destruct H as [H | H]; [tauto |].
      right. exists r. tauto.
    - right. exists rec. tauto. }
  intros H. apply G in H. destruct H as [[] | H]. exact H.
Qed.

Lemma has_column_In k recs :
  has_column k recs = true <-> In k (pd.union_keys recs).
Proof.
  unfold has_column. rewrite existsb_exists. split.
  - intros (rec & Hin & Hk). apply has_key_lookup in Hk.
    destruct Hk as (v & Hv).
    eapply union_keys_In; [exact Hin | eapply lookup_In_keys, Hv].
  - intros H. apply union_keys_inv in H. destruct H as (rec & Hin & Hk).
    exists rec. split; [exact Hin | apply In_keys_has_key, Hk].
Qed.

Lemma mapM_total {A B : Type} (f : A -> Exc B) l :
  (forall a, In a l -> exists b, f a = inr b) ->
  exists bs, mapM f l = inr bs.
Proof.
  induction l as [| a t IH]; intros H; cbn; [eauto |].
  destruct (H a (or_introl eq_refl)) as (b & ->).
  destruct IH as (bs & ->); [intros x Hx; apply H; right; exact Hx |].
  eauto.
Qed.

Lemma filled_name_cell c :
  name_cell c = true -> filled_cell c = JStr (name_part c).
Proof. destruct c; cbn; intros H; try discriminate; reflexivity. Qed.

Lemma filled_is_name_part c p : filled_cell c = JStr p -> p = name_part c.
Proof. destruct c; cbn; intros H; try discriminate; congruence. Qed.

Lemma individuals_succeed recs :
  people_records recs = true ->
  pd.empty (pd.from_records recs) = false
  /\ exists ind, shape_individuals (pd.from_records recs) = inr ind.
Proof.
  unfold people_records. intros H.
  apply andb_prop in H. destruct H as [H Hcells].
  apply andb_prop in H. destruct H as [H HName].
  apply andb_prop in H. destruct H as [H Hln].
  apply andb_prop in H. destruct H as [Hlen Hfn].
  apply has_column_In in Hfn, Hln.
  apply negb_true_iff in HName.
  assert (~ In "Name" (pd.union_keys recs)) as HnoName.
  { intros Hin. apply has_column_In in Hin. congruence. }
  assert (pd.empty (pd.from_records recs) = false) as Hne.
  { unfold pd.empty, pd.from_records. cbn [pd.columns pd.rows].
    destruct (pd.union_keys recs); [contradiction |].
    destruct recs; [discriminate | reflexivity]. }
  split; [exact Hne |].
  unfold shape_individuals. rewrite Hne. cbn [negb]. cbv iota zeta.
  (* the sub-table of the two name columns *)
  destruct (pd.getitem_list ["first_name"; "last_name"]
              (pd.fillna (JStr "-") (pd.from_records recs)))
    as [e | sub] eqn:Esub.
  { exfalso. unfold pd.getitem_list in Esub.
    cbn [filter pd.fillna pd.map_cells pd.columns pd.from_records] in Esub.
    rewrite (proj2 (mem_In "first_name" _) Hfn) in Esub.
    rewrite (proj2 (mem_In "last_name" _) Hln) in Esub.
    discriminate. }
  cbn [bind Monad_Exc].
  apply getitem_list_inv in Esub. destruct Esub as (_ & Hsubrows).
  (* every row of it joins *)
  destruct (mapM_total join_row (pd.rows sub)) as (full & Hfull).
  { rewrite Hsubrows. intros x Hx.
    apply in_map_iff in Hx. destruct Hx as (r1 & <- & Hr1).
    unfold pd.fillna, pd.map_cells, pd.from_records in Hr1.
    cbn [pd.rows] in Hr1. rewrite map_map in Hr1.
    apply in_map_iff in Hr1. destruct Hr1 as (rec & <- & Hrec).
    cbn [flat_map].
    rewrite !(filter_map_swap
                (fun kc : string * json => String.eqb _ (fst kc))).
    cbn [fst].
    rewrite (filter_reindex "first_name" _ rec (union_keys_NoDup recs) Hfn).
    rewrite (filter_reindex "last_name" _ rec (union_keys_NoDup recs) Hln).
    rewrite forallb_forall in Hcells. specialize (Hcells rec Hrec).
    apply andb_prop in Hcells. destruct Hcells as [C1 C2].
    apply filled_name_cell in C1, C2.
    unfold join_row. cbn [map snd fst app mapM].
    change (if Json.is_null (pd.cell_of rec "first_name") then JStr "-"
            else pd.cell_of rec "first_name")
      with (filled_cell (pd.cell_of rec "first_name")).
    change (if Json.is_null (pd.cell_of rec "last_name") then JStr "-"
            else pd.cell_of rec "last_name")
      with (filled_cell (pd.cell_of rec "last_name")).
    rewrite C1, C2. cbn. eauto. }
  unfold pd.apply_rows. rewrite Hfull. cbn [bind Monad_Exc].
  (* the Name column is new *)
  unfold pd.insert0.
  cbn [pd.fillna pd.map_cells pd.columns pd.from_records pd.rows].
  rewrite (proj2 (mem_false "Name" _) HnoName).
  apply mapM_length in Hfull. rewrite Hfull, Hsubrows.
  unfold pd.fillna, pd.map_cells, pd.from_records. cbn [pd.rows].
  rewrite !length_map, Nat.eqb_refl. cbn [negb]. cbv iota.
  cbn [bind ret Monad_Exc]. eauto.
Qed.

Lemma DataFrame_of_people orgs :
  orgs = JNull \/ (exists orecs, orgs = JArr (map JObj orecs)) ->
  exists df, pd.DataFrame_of orgs = inr df.
Proof.
  intros [-> | (orecs & ->)]; [cbn; eauto |].
  rewrite DataFrame_of_objects. eauto.
Qed.

(** C10. A 200 response of the team or investors endpoint that lists at
    least one individual, where the two name keys occur, no record has a
    ["Name"] key and every first and last name is a string or missing
    (null, or absent from that record): the call raises nothing, and the
    row of each record opens with the field "Name" made of the two parts
    joined by a space, a missing part standing as "-".  The filling
    comes first: a missing part never reaches the join. *)
Theorem missing_names_are_filled s w key j data recs orgs :
  people_key s = Some key ->
  status_code (w (first_request s)) = 200%Z ->
  payload (w (first_request s)) = Some j ->
  Json.getitem j "data" = inr data ->
  Json.getpath data ["profile"; key; "individuals"]
  = inr (JArr (map JObj recs)) ->
  Json.getpath data ["profile"; key; "organizations"] = inr orgs ->
  orgs = JNull \/ (exists orecs, orgs = JArr (map JObj orecs)) ->
  people_records recs = true ->
  exists ind org,
    call s w = (inr ([ind; org], []), [Get (first_request s)])
    /\ forall i rec,
         nth_error recs i = Some rec ->
         exists rest,
           nth_error (pd.rows ind) i
           = Some (("Name",
                    JStr (name_part (pd.cell_of rec "first_name") ++ " "
                          ++ name_part (pd.cell_of rec "last_name"))%string)
                     :: rest).
Proof.
  intros Hk H200 Hj Hdata Hind Horgs Hshape_orgs Hrecs.
  destruct (individuals_succeed recs Hrecs) as (Hne & ind & Hshape).
  destruct (DataFrame_of_people orgs Hshape_orgs) as (odf & Hodf).
  assert (people_tables key (w (first_request s))
          = inr (ind, shape_organizations odf)) as Ht.
  { unfold people_tables, response_json. rewrite Hj.
    cbn [bind ret Monad_Exc]. rewrite Hdata. cbn [bind ret Monad_Exc].
    rewrite Hind. cbn [bind ret Monad_Exc].
    rewrite DataFrame_of_objects. cbn [bind ret Monad_Exc].
    rewrite Hshape. cbn [bind ret Monad_Exc].
    rewrite Horgs. cbn [bind ret Monad_Exc].
    rewrite Hodf. reflexivity. }
  exists ind, (shape_organizations odf). split.
  - destruct s; try discriminate; injection Hk as <-;
      unfold first_request, profile_request in *;
      unfold call, get_team, get_investors; run; rewrite H200;
      change (200 =? 200)%Z with true; cbv iota; run;
      rewrite Ht; reflexivity.
  - intros i rec Hi.
    destruct (individuals_name recs ind i rec Hshape Hne Hi)
      as (p1 & p2 & rest & P1 & P2 & Hrow).
    apply filled_is_name_part in P1, P2. subst p1 p2.
    exists rest. exact Hrow.
Qed.

(** *** C8 *)

Lemma getpath_app j p q :
  Json.getpath j (p ++ q)
  = match Json.getpath j p with
    | inl e => inl e
    | inr v => Json.getpath v q
    end.
Proof.
  revert j; induction p as [| k t IH]; intros j; cbn; [reflexivity |].
  destruct (Json.getitem j k) as [e | v]; [reflexivity | apply IH].
Qed.

Lemma In_cells_of k c (r : list (string * json)) :
  In (k, c) r -> In c (pd.cells_of k r).
Proof.
  unfold pd.cells_of. intros H. apply in_map_iff. exists (k, c).
  split; [reflexivity |]. apply filter_In. split; [exact H |].
  apply String.eqb_refl.
Qed.

Lemma cells_of_nonempty_label k (r : list (string * json)) :
  pd.cells_of k r <> [] -> In k (map fst r).
Proof.
  unfold pd.cells_of. induction r as [| [k' c] t IH]; cbn;
    [congruence |].
  destruct (String.eqb_spec k' k) as [-> | N]; [left; reflexivity |].
  intros H. right. apply IH, H.
Qed.

Lemma cells_of_relabel f name (r : list (string * json)) :
  (forall k, String.eqb (f k) name = String.eqb k name) ->
  pd.cells_of name (map (fun kc => (f (fst kc), snd kc)) r)
  = pd.cells_of name r.
Proof.
  intros Hf. unfold pd.cells_of.
  induction r as [| [k c] t IH]; cbn; [reflexivity |].
  rewrite Hf. destruct (String.eqb k name); cbn; rewrite IH; reflexivity.
Qed.

Lemma cells_of_set_same name d (r : list (string * json)) :
  pd.cells_of name
    (map (fun kc : string * json =>
            if String.eqb (fst kc) name then (fst kc, d) else kc) r)
  = map (fun _ => d) (pd.cells_of name r).
Proof.
  unfold pd.cells_of. induction r as [| [k c] t IH]; cbn; [reflexivity |].
  destruct (String.eqb k name) eqn:E; cbn; rewrite E; cbn; rewrite IH;
    reflexivity.
Qed.

Lemma cells_of_set_other name name' d (r : list (string * json)) :
  name' <> name ->
  pd.cells_of name'
    (map (fun kc : string * json =>
            if String.eqb (fst kc) name then (fst kc, d) else kc) r)
  = pd.cells_of name' r.
Proof.
  intros N. unfold pd.cells_of.
  induction r as [| [k c] t IH]; cbn; [reflexivity |].
  destruct (String.eqb_spec k name) as [-> | N1]; cbn.
  - destruct (String.eqb_spec name name') as [E | _]; [congruence |].
    exact IH.
  - destruct (String.eqb k name'); cbn; rewrite IH; reflexivity.
Qed.

Lemma row_date_inv name r d :
  row_date name r = inr d ->
  exists c, pd.cells_of name r = [c] /\ Json.split_first "T" c = inr d.
Proof.
  unfold row_date. destruct (pd.cells_of name r) as [| c [| c' t]];
    try discriminate.
  intros H. eauto.
Qed.

(** One date column split: the cell of that label in row [i] was alone,
    the new one is its part before ["T"], the other labels keep their
    cells. *)
Lemma split_dates_cells name df df' i r :
  split_dates name df = inr df' ->
  pd.uniform df ->
  nth_error (pd.rows df) i = Some r ->
  exists r' c d,
    nth_error (pd.rows df') i = Some r'
    /\ pd.cells_of name r = [c]
    /\ Json.split_first "T" c = inr d
    /\ pd.cells_of name r' = [d]
    /\ forall name', name' <> name ->
                     pd.cells_of name' r' = pd.cells_of name' r.
Proof.
  unfold split_dates, pd.apply_rows. intros H U Hr.
  exc_inv H. rename E into Edates.
  destruct (mapM_nth _ _ _ Edates _ _ Hr) as (d & Hd & Hrow).
  destruct (row_date_inv _ _ _ Hrow) as (c & Hc & Hsplit).
  assert (pd.mem name (pd.columns df) = true) as Hmem.
  { apply mem_In. unfold pd.uniform in U. rewrite Forall_forall in U.
    rewrite <- (U r (nth_error_In _ _ Hr)).
    apply cells_of_nonempty_label. rewrite Hc. discriminate. }
  unfold pd.setitem in H. rewrite Hmem in H.
  destruct (negb _); [discriminate |].
  exists (map (fun kc : string * json =>
                 if String.eqb (fst kc) name then (fst kc, d) else kc) r),
    c, d.
  assert (pd.rows df'
          = map (fun vr => map (fun kc : string * json =>
                                  if String.eqb (fst kc) name
                                  then (fst kc, fst vr) else kc) (snd vr))
                (combine l (pd.rows df))) as Hrows
      by (injection H as <-; reflexivity).
  repeat split.
  - rewrite Hrows, nth_error_map,
      (nth_error_combine _ _ _ _ _ Hd Hr). reflexivity.
  - exact Hc.
  - exact Hsplit.
  - rewrite cells_of_set_same, Hc. reflexivity.
  - intros name' N. apply cells_of_set_other, N.
Qed.

Lemma rename_keeps_dates k name :
  name = "Start Date" \/ name = "End Date" ->
  String.eqb
    (pd.rename_label
       [("Native Tokens Allocated", "Tokens Allocated");
        ("Equivalent Price Per Token In Usd", "Price [$]");
        ("Amount Collected In Usd", "Amount Collected [$]")] k) name
  = String.eqb k name.
Proof.
  intros Hname. unfold pd.rename_label. cbn [find fst snd].
  destruct (String.eqb_spec k "Native Tokens Allocated") as [-> | _];
    [destruct Hname as [-> | ->]; reflexivity |].
  destruct (String.eqb_spec k "Equivalent Price Per Token In Usd")
    as [-> | _]; [destruct Hname as [-> | ->]; reflexivity |].
  destruct (String.eqb_spec k "Amount Collected In Usd") as [-> | _];
    [destruct Hname as [-> | ->]; reflexivity |].
  reflexivity.
Qed.

(** What [shape_sales_rounds] makes of the two dates of record [i] of a
    table that is not empty, when it returns. *)
Lemma sales_rounds_dates recs rounds i rec :
  lambda_replace_underscores_in_column_names "start_date" = "Start Date" ->
  lambda_replace_underscores_in_column_names "end_date" = "End Date" ->
  shape_sales_rounds (pd.from_records recs) = inr rounds ->
  pd.empty (pd.from_records recs) = false ->
  nth_error recs i = Some rec ->
  (forall s, Json.lookup "start_date" rec = Some (JStr s) ->
             pd.cell rounds i "Start Date" = [JStr (Py.split_first "T" s)])
  /\ (forall s, Json.lookup "end_date" rec = Some (JStr s) ->
                pd.cell rounds i "End Date"
                = [JStr (Py.split_first "T" s)]).
Proof.
  intros Lstart Lend H Hne Hi.
  unfold shape_sales_rounds in H. rewrite Hne in H.
  cbn [negb] in H. cbv iota zeta in H.
  exc_inv H. exc_inv H. rename E into Estart, E0 into Eend.
  assert (rounds = pd.fillna (JStr "-")
                     (pd.rename
                        [("Native Tokens Allocated", "Tokens Allocated");
                         ("Equivalent Price Per Token In Usd", "Price [$]");
                         ("Amount Collected In Usd", "Amount Collected [$]")]
                        d0)) as -> by congruence.
  clear H.
  set (D := ["details"; "asset_collected"; "price_per_token_in_asset";
             "amount_collected_in_asset"; "is_kyc_required";
             "restricted_jurisdictions"]) in *.
  set (L := lambda_replace_underscores_in_column_names) in *.
  set (df3 := pd.map_columns L (pd.drop_ignore D
                                  (pd.fillna (JStr "-")
                                             (pd.from_records recs)))) in *.
  assert (pd.uniform df3) as U3
      by (apply uniform_map_columns, uniform_drop_ignore, uniform_fillna,
            uniform_from_records).
  set (r3 := map (fun kc : string * json => (L (fst kc), snd kc))
                 (filter (fun kc : string * json => negb (pd.mem (fst kc) D))
                         (map (fun kc : string * json =>
                                 (fst kc, filled_cell (snd kc)))
                              (pd.reindex (pd.union_keys recs) rec)))).
  assert (nth_error (pd.rows df3) i = Some r3) as Hr3.
  { unfold df3, pd.map_columns, pd.drop_ignore, pd.fillna, pd.map_cells,
      pd.from_records. cbn [pd.rows].
    rewrite !nth_error_map, Hi. reflexivity. }
  assert (forall k s, pd.mem k D = false ->
                      Json.lookup k rec = Some (JStr s) ->
                      In (JStr s) (pd.cells_of (L k) r3)) as Hcell.
  { intros k s HD Hk. apply In_cells_of. unfold r3.
    apply in_map_iff. exists (k, JStr s). split; [reflexivity |].
    apply filter_In. split; [| cbn [fst]; rewrite HD; reflexivity].
    apply in_map_iff. exists (k, pd.cell_of rec k).
    rewrite (cell_of_lookup _ _ _ Hk). split; [reflexivity |].
    unfold pd.reindex. apply in_map_iff. exists k.
    rewrite (cell_of_lookup _ _ _ Hk). split; [reflexivity |].
    eapply union_keys_In; [eapply nth_error_In, Hi |].
    eapply lookup_In_keys, Hk. }
  destruct (split_dates_cells _ _ _ _ _ Estart U3 Hr3)
    as (r4 & c4 & d4 & Hr4 & Hc4 & Hs4 & Hd4 & Hother4).
  pose proof (uniform_split_dates _ _ _ Estart U3) as U4.
  destruct (split_dates_cells _ _ _ _ _ Eend U4 Hr4)
    as (r5 & c5 & d5 & Hr5 & Hc5 & Hs5 & Hd5 & Hother5).
  assert (forall name, name = "Start Date" \/ name = "End Date" ->
            pd.cell
              (pd.fillna (JStr "-")
                 (pd.rename
                    [("Native Tokens Allocated", "Tokens Allocated");
                     ("Equivalent Price Per Token In Usd", "Price [$]");
                     ("Amount Collected In Usd", "Amount Collected [$]")]
                    d0)) i name
            = map filled_cell (pd.cells_of name r5)) as Hfinal.
  { intros name Hname.
    unfold pd.cell, pd.fillna, pd.map_cells, pd.rename, pd.map_columns.
    cbn [pd.rows]. rewrite !nth_error_map, Hr5. cbn [option_map].
    rewrite (cells_of_map_cells
               (fun c => if Json.is_null c then JStr "-" else c)).
    rewrite (cells_of_relabel
               (pd.rename_label
                  [("Native Tokens Allocated", "Tokens Allocated");
                   ("Equivalent Price Per Token In Usd", "Price [$]");
                   ("Amount Collected In Usd", "Amount Collected [$]")]));
      [reflexivity |].
    intros k. apply rename_keeps_dates, Hname. }
  split; intros s Hs.
  - rewrite Hfinal by (left; reflexivity).
    rewrite Hother5 by discriminate. rewrite Hd4.
    pose proof (Hcell "start_date" s eq_refl Hs) as Hin.
    rewrite Lstart, Hc4 in Hin.
    destruct Hin as [-> | []]. cbn in Hs4. injection Hs4 as <-.
    reflexivity.
  - rewrite Hfinal by (right; reflexivity). rewrite Hd5.
    pose proof (Hcell "end_date" s eq_refl Hs) as Hin.
    rewrite Lend in Hin.
    rewrite <- (Hother4 "End Date") in Hin by discriminate.
    rewrite Hc5 in Hin.
    destruct Hin as [-> | []]. cbn in Hs5. injection Hs5 as <-.
    reflexivity.
Qed.

Lemma sales_rounds_nonempty df rounds :
  shape_sales_rounds df = inr rounds -> pd.empty rounds = false ->
  pd.empty df = false.
Proof.
  unfold shape_sales_rounds. destruct (pd.empty df) eqn:Em; [| reflexivity].
  cbn. intros H; injection H as <-. congruence.
Qed.

Lemma fundraising_sales_rounds r j recs details rounds accounts distribution :
  payload r = Some j ->
  Json.getpath j ["data"; "profile"; "economics"; "launch"; "fundraising";
                  "sales_rounds"]
  = inr (JArr (map JObj recs)) ->
  fundraising_tables r = inr (details, rounds, accounts, distribution) ->
  shape_sales_rounds (pd.from_records recs) = inr rounds.
Proof.
  unfold fundraising_tables, response_json. intros Hj Hpath H.
  rewrite Hj in H. cbn [bind ret Monad_Exc] in H.
  change ["data"; "profile"; "economics"; "launch"; "fundraising";
          "sales_rounds"]
    with (["data"] ++ ["profile"; "economics"; "launch"]
                   ++ ["fundraising"; "sales_rounds"]) in Hpath.
  rewrite getpath_app in Hpath. cbn [Json.getpath] in Hpath.
  destruct (Json.getitem j "data") as [e | data]; [discriminate |].
  rewrite getpath_app in Hpath.
  destruct (Json.getpath data ["profile"; "economics"; "launch"])
    as [e | launch_data]; [discriminate |].
  cbn [bind ret Monad_Exc] in H.
  exc_inv H. exc_inv H.
  match type of H with
  | context [Json.getpath launch_data ["fundraising"; "sales_rounds"]] =>
      rewrite Hpath in H
  end.
  rewrite DataFrame_of_objects in H. repeat exc_inv H. congruence.
Qed.

(** C8. A table of sales rounds that [get_fundraising] returns, and that
    is not empty: where record [i] of the payload has the string [s] as
    its start date (its end date), row [i] has under "Start Date" ("End
    Date") exactly the part of [s] before its first ["T"], so
    "2021-06-01" for "2021-06-01T00:00:00Z".  The renaming helper is a
    parameter; it is only asked to send the two raw keys to the two
    labels. *)
Theorem sales_round_dates_split
        symbol w j recs details rounds accounts distribution :
  lambda_replace_underscores_in_column_names "start_date" = "Start Date" ->
  lambda_replace_underscores_in_column_names "end_date" = "End Date" ->
  status_code (w (first_request (Fundraising symbol))) = 200%Z ->
  payload (w (first_request (Fundraising symbol))) = Some j ->
  Json.getpath j ["data"; "profile"; "economics"; "launch"; "fundraising";
                  "sales_rounds"]
  = inr (JArr (map JObj recs)) ->
  fst (get_fundraising symbol w)
  = inr (details, rounds, accounts, distribution) ->
  pd.empty rounds = false ->
  forall i rec,
    nth_error recs i = Some rec ->
    (forall s, Json.lookup "start_date" rec = Some (JStr s) ->
               pd.cell rounds i "Start Date"
               = [JStr (Py.split_first "T" s)])
    /\ (forall s, Json.lookup "end_date" rec = Some (JStr s) ->
                  pd.cell rounds i "End Date"
                  = [JStr (Py.split_first "T" s)]).
Proof.
  intros Lstart Lend H200 Hj Hpath Hrun Hne i rec Hi.
  unfold first_request, profile_request in *.
  unfold get_fundraising in Hrun. run_in Hrun. rewrite H200 in Hrun.
  change (200 =? 200)%Z with true in Hrun. cbv iota in Hrun. run_in Hrun.
  match type of Hrun with
  | context [fundraising_tables ?r] =>
      destruct (fundraising_tables r) as [e | q] eqn:Ht
  end; cbn [fst] in Hrun; [discriminate |].
  injection Hrun as ->.
  pose proof (fundraising_sales_rounds _ _ _ _ _ _ _ Hj Hpath Ht) as Hshape.
  pose proof (sales_rounds_nonempty _ _ Hshape Hne) as Hne0.
  exact (sales_rounds_dates recs rounds i rec Lstart Lend Hshape Hne0 Hi).
Qed.

(* =================================================================== *)
(** ** Further properties of the module *)
(* =================================================================== *)

(** *** Statuses other than 200 and 401 *)


(** *** One request per call *)

Lemma requests_sent_app a b :
  requests_sent (a ++ b) = requests_sent a + requests_sent b.
Proof.
  unfold requests_sent. rewrite filter_app, length_app. reflexivity.
Qed.

Lemma timeseries_sends_one coin timeseries_id interval start end_ w :
  requests_sent (snd (get_messari_timeseries coin timeseries_id interval
                                             start end_ w)) = 1.
Proof.
  unfold get_messari_timeseries. run. split_exc; reflexivity.
Qed.

(** X2. A call sends exactly one request, whatever the response and
    whether or not shaping raises; [get_tokenomics] alone sends a second
    one, and only after a 200 answer to the first. *)
Theorem one_request_per_call s w :
  requests_sent (snd (call s w)) = 1
  \/ (exists symbol coingecko_symbol,
         s = Tokenomics symbol coingecko_symbol
         /\ status_code (w (first_request s)) = 200%Z
         /\ requests_sent (snd (call s w)) = 2).
Proof.
  destruct s.
  6: {
    unfold call, get_tokenomics, first_request, profile_request. run.
    destruct (Z.eqb_spec
                (status_code
                   (w (mkRequest (profile_url symbol)
                         [("fields", "profile/economics/consensus_and_emission")]
                         [("x-messari-api-key", "")]))) 200) as [E | N]; run.
    2: { left. split_exc; reflexivity. }
    pose proof (timeseries_sends_one symbol "sply.circ" "1d" "" "" w) as T.
    destruct (get_messari_timeseries symbol "sply.circ" "1d" "" "" w)
      as [res tr].
    cbn [snd] in T.
    match goal with
    | |- context [match ?m with inl _ => _ | inr _ => _ end] =>
        destruct m as [e | df0]
    end; run; [left; reflexivity |].
    right. exists symbol, coingecko_symbol.
    split; [reflexivity |]. split; [exact E |].
    destruct res as [e | p]; run;
      change (requests_sent (Get ?r :: ?l)) with (S (requests_sent l));
      rewrite ?app_nil_r, T; reflexivity.
  }
  all: left; unfold call, get_available_timeseries, get_marketcap_dominance,
    get_messari_timeseries, get_links, get_roadmap,
    get_project_product_info, get_team, get_investors, get_governance,
    get_fundraising; run; split_exc; reflexivity.
Qed.

(** *** The governance summary and table *)

Lemma has_gt_strip_tags s : forall in_tag,
    Py.has_gt (Py.strip_tags_from in_tag s) = true -> Py.has_gt s = true.
Proof.
  induction s as [| a t IH]; intros in_tag; cbn; [discriminate |].
  destruct in_tag.
  - intros H. apply IH in H. rewrite H. apply orb_true_r.
  - destruct (Ascii.eqb a "<" && Py.has_gt t) eqn:E.
    + intros H. apply IH in H. rewrite H. apply orb_true_r.
    + cbn. destruct (Ascii.eqb a ">"); [reflexivity |]. cbn.
      intros H. apply IH in H. exact H.
Qed.

Lemma tag_free_strip_tags s : forall in_tag,
    tag_free (Py.strip_tags_from in_tag s) = true.
Proof.
  induction s as [| a t IH]; intros in_tag; cbn; [reflexivity |].
  destruct in_tag; [apply IH |].
  destruct (Ascii.eqb a "<" && Py.has_gt t) eqn:E; [apply IH |].
  cbn. rewrite IH, andb_true_r.
  destruct (Ascii.eqb a "<"); [| reflexivity]. cbn in *.
  destruct (Py.has_gt (Py.strip_tags_from false t)) eqn:G; [| reflexivity].
  apply has_gt_strip_tags in G. congruence.
Qed.

Lemma strip_tags_tag_free s :
  tag_free s = true -> Py.strip_tags_from false s = s.
Proof.
  induction s as [| a t IH]; cbn; [reflexivity |].
  intros H. apply andb_prop in H. destruct H as [Ha Ht].
  apply negb_true_iff in Ha. rewrite Ha, (IH Ht). reflexivity.
Qed.

Lemma governance_call symbol w summary df :
  status_code (w (first_request (Governance symbol))) = 200%Z ->
  fst (get_governance symbol w) = inr (summary, df) ->
  governance_tables (w (first_request (Governance symbol)))
  = inr (summary, df).
Proof.
  intros H200 Hrun. unfold first_request, profile_request in *.
  unfold get_governance in Hrun. run_in Hrun. rewrite H200 in Hrun.
  change (200 =? 200)%Z with true in Hrun. cbv iota in Hrun. run_in Hrun.
  match type of Hrun with
  | context [governance_tables ?r] =>
      destruct (governance_tables r) as [e | q]
  end; cbn [fst] in Hrun; [discriminate | exact Hrun].
Qed.

(** X3. The summary [get_governance] returns for a 200 response is the
    governance text with every match of [<[^>]*>] deleted: it holds no
    tag any more, and a text that held none comes back unchanged. *)
Theorem governance_summary_has_no_tag symbol w j text summary df :
  status_code (w (first_request (Governance symbol))) = 200%Z ->
  payload (w (first_request (Governance symbol))) = Some j ->
  Json.getpath j ["data"; "profile"; "governance"; "governance_details"]
  = inr (JStr text) ->
  fst (get_governance symbol w) = inr (summary, df) ->
  summary = Py.strip_tags text
  /\ tag_free summary = true
  /\ (tag_free text = true -> summary = text).
Proof.
  intros H200 Hj Hpath Hrun.
  pose proof (governance_call symbol w summary df H200 Hrun) as Ht.
  assert (summary = Py.strip_tags text) as ->.
  { unfold governance_tables, response_json in Ht. rewrite Hj in Ht.
    cbn [bind ret Monad_Exc] in Ht.
    change ["data"; "profile"; "governance"; "governance_details"]
      with (["data"] ++ ["profile"; "governance"] ++ ["governance_details"])
      in Hpath.
    rewrite getpath_app in Hpath. cbn [Json.getpath] in Hpath.
    destruct (Json.getitem j "data") as [e | data]; [discriminate |].
    rewrite getpath_app in Hpath.
    destruct (Json.getpath data ["profile"; "governance"])
      as [e | governance_data]; [discriminate |].
    cbn [Json.getpath] in Hpath.
    destruct (Json.getitem governance_data "governance_details")
      as [e | details] eqn:Ed; [discriminate |].
    injection Hpath as ->.
    cbn [bind ret Monad_Exc] in Ht.
    exc_inv Ht. exc_inv Ht.
    destruct b; unfold re_sub_tags in Ht; cbn [Json.as_str] in Ht;
      cbn [bind ret Monad_Exc] in Ht; repeat exc_inv Ht; congruence. }
  split; [reflexivity |]. split; [apply tag_free_strip_tags |].
  apply strip_tags_tag_free.
Qed.

(** X4. The table of [get_governance] on a 200 response: when the
    on-chain governance type is null the table is the empty one, and the
    on-chain details are not even read; when the type is there, the table
    is empty if the details are null and otherwise has the two rows "Type"
    and "Details" with those values. *)
Theorem governance_table_shape symbol w j onchain type_ summary df :
  status_code (w (first_request (Governance symbol))) = 200%Z ->
  payload (w (first_request (Governance symbol))) = Some j ->
  Json.getpath j ["data"; "profile"; "governance"; "onchain_governance"]
  = inr onchain ->
  Json.getitem onchain "onchain_governance_type" = inr type_ ->
  fst (get_governance symbol w) = inr (summary, df) ->
  (Json.is_null type_ = true -> df = pd.empty_frame)
  /\ (Json.is_null type_ = false ->
      exists details,
        Json.getitem onchain "onchain_governance_details" = inr details
        /\ df = if Json.is_null details then pd.empty_frame
                else pd.two_columns "Metric" [JStr "Type"; JStr "Details"]
                                    "Value" [type_; details]).
Proof.
  intros H200 Hj Hpath Htype Hrun.
  pose proof (governance_call symbol w summary df H200 Hrun) as Ht.
  unfold governance_tables, response_json in Ht. rewrite Hj in Ht.
  cbn [bind ret Monad_Exc] in Ht.
  change ["data"; "profile"; "governance"; "onchain_governance"]
    with (["data"] ++ ["profile"; "governance"] ++ ["onchain_governance"])
    in Hpath.
  rewrite getpath_app in Hpath. cbn [Json.getpath] in Hpath.
  destruct (Json.getitem j "data") as [e | data]; [discriminate |].
  rewrite getpath_app in Hpath.
  destruct (Json.getpath data ["profile"; "governance"])
    as [e | governance_data]; [discriminate |].
  cbn [Json.getpath] in Hpath.
  cbn [bind ret Monad_Exc Json.getpath] in Ht.
  destruct (Json.getitem governance_data "onchain_governance")
    as [e | onchain'] eqn:Eo; [discriminate |].
  injection Hpath as ->.
  rewrite Htype in Ht.
  destruct (Json.is_null type_) eqn:N; cbn [negb] in Ht; cbv iota in Ht;
    cbn [bind ret Monad_Exc] in Ht.
  - split; [intros _ | discriminate].
    repeat exc_inv Ht. congruence.
  - split; [discriminate | intros _].
    destruct (Json.getitem onchain "onchain_governance_details")
      as [e | details]; [discriminate |].
    exists details. split; [reflexivity |].
    cbn [bind ret Monad_Exc] in Ht.
    destruct (Json.is_null details); cbn [negb] in Ht; cbv iota in Ht;
      repeat exc_inv Ht; congruence.
Qed.

(** *** format_addresses *)

Lemma addresses_loop_app l1 : forall acc l2,
    addresses_loop acc (l1 ++ l2)
    = match addresses_loop acc l1 with
      | inl e => inl e
      | inr s => addresses_loop s l2
      end.
Proof.
  induction l1 as [| x t IH]; intros acc l2; cbn; [reflexivity |].
  destruct (Json.getitem x "name") as [e | n]; cbn; [reflexivity |].
  destruct (Json.getitem x "link") as [e | k]; cbn; [reflexivity |].
  apply IH.
Qed.

Lemma addresses_loop_acc l : forall acc s,
    addresses_loop "" l = inr s ->
    addresses_loop acc l = inr (acc ++ s)%string.
Proof.
  assert (forall acc a s,
             addresses_loop a l = inr s ->
             addresses_loop (acc ++ a)%string l = inr (acc ++ s)%string) as G.
  { induction l as [| x t IH]; intros acc a s;
      cbn [addresses_loop bind ret Monad_Exc].
    - intros H; injection H as <-. reflexivity.
    - destruct (Json.getitem x "name") as [e | n];
        cbn [bind ret Monad_Exc]; [discriminate |].
      destruct (Json.getitem x "link") as [e | k];
        cbn [bind ret Monad_Exc]; [discriminate |].
      intros H. rewrite string_app_assoc. apply IH, H. }
  intros acc s H. specialize (G acc EmptyString s H).
  rewrite string_app_nil_r in G. exact G.
Qed.

(** X5. [format_addresses] writes the entries one after the other with
    nothing between them: the text for two lists put end to end is the
    text of the first followed by the text of the second. *)
Theorem format_addresses_app l1 l2 a b :
  format_addresses (JArr l1) = inr (JStr a) ->
  format_addresses (JArr l2) = inr (JStr b) ->
  format_addresses (JArr (l1 ++ l2)) = inr (JStr (a ++ b)%string).
Proof.
  unfold format_addresses. cbn [Json.iter bind ret Monad_Exc].
  intros H1 H2.
  destruct (addresses_loop "" l1) as [e | s1] eqn:E1; [discriminate |].
  destruct (addresses_loop "" l2) as [e | s2] eqn:E2; [discriminate |].
  injection H1 as ->. injection H2 as ->.
  rewrite addresses_loop_app, E1, (addresses_loop_acc l2 a b E2).
  reflexivity.
Qed.

Lemma addresses_loop_printable l : forall acc,
    (exists s, addresses_loop acc l = inr s)
    <-> forallb printable_address l = true.
Proof.
  induction l as [| x t IH]; intros acc; cbn.
  - split; eauto.
  - destruct x as [| b | z | s | l' | kv]; cbn;
      try (split; [intros (s' & H); discriminate | discriminate]).
    unfold Json.has_key.
    destruct (Json.lookup "name" kv) as [n |]; cbn;
      [| split; [intros (s' & H); discriminate | discriminate]].
    destruct (Json.lookup "link" kv) as [k |]; cbn;
      [| split; [intros (s' & H); discriminate | discriminate]].
    apply IH.
Qed.

(** X6. On a list, [format_addresses] returns exactly when every entry is
    a dict that has the keys ["name"] and ["link"]; one entry without
    them makes the whole call raise. *)
Theorem format_addresses_returns_iff l :
  (exists r, format_addresses (JArr l) = inr r)
  <-> forallb printable_address l = true.
Proof.
  unfold format_addresses. cbn [Json.iter bind ret Monad_Exc].
  rewrite <- (addresses_loop_printable l "").
  split.
  - intros (r & H). destruct (addresses_loop "" l) as [e | s];
      [discriminate | eauto].
  - intros (s & ->). eauto.
Qed.

(** *** The tables of get_fundraising *)

(** X7. The distribution summary of [get_fundraising] has six rows; its
    second value is the launch style; its first, the genesis date, is "-"
    when the payload gives none (null, or an empty text) and is otherwise
    the part of the date text before its first ["T"] (a genesis date that
    is neither empty nor a text makes the call raise). *)
Theorem distribution_genesis_date launch_data launch_type df genesis :
  launch_distribution launch_data launch_type = inr df ->
  Json.getpath launch_data ["initial_distribution"; "genesis_block_date"]
  = inr genesis ->
  List.length (pd.rows df) = 6
  /\ pd.cell df 1 "Value" = [launch_type]
  /\ (Json.truthy genesis = false -> pd.cell df 0 "Value" = [JStr "-"])
  /\ (Json.truthy genesis = true ->
      exists s, genesis = JStr s
                /\ pd.cell df 0 "Value" = [JStr (Py.split_first "T" s)]).
Proof.
  unfold launch_distribution. intros H Hg. rewrite Hg in H.
  cbn [bind ret Monad_Exc] in H.
  destruct (Json.truthy genesis) eqn:T; cbv iota in H;
    cbn [bind ret Monad_Exc] in H.
  - destruct genesis as [| b | z | s | l | kv]; cbn [Json.split_first] in H;
      try discriminate H.
    cbn [bind ret Monad_Exc] in H. repeat exc_inv H.
    assert (df = pd.two_columns
                   "Metric" [JStr "Genesis Date"; JStr "Type";
                             JStr "Total Supply"; JStr "Investors [%]";
                             JStr "Organization/Founders [%]";
                             JStr "Rewards/Airdrops [%]"]
                   "Value" [JStr (Py.split_first "T" s); launch_type;
                            lambda_long_number_format j; j0; j1; j2])
      as -> by congruence.
    repeat split; try reflexivity; [discriminate |].
    intros _. exists s. split; reflexivity.
  - repeat exc_inv H.
    assert (df = pd.two_columns
                   "Metric" [JStr "Genesis Date"; JStr "Type";
                             JStr "Total Supply"; JStr "Investors [%]";
                             JStr "Organization/Founders [%]";
                             JStr "Rewards/Airdrops [%]"]
                   "Value" [JStr "-"; launch_type;
                            lambda_long_number_format j; j0; j1; j2])
      as -> by congruence.
    repeat split; try reflexivity. discriminate.
Qed.

Lemma NoDup_has_dup l : NoDup l -> pd.has_dup l = false.
Proof.
  induction 1 as [| k t Hk _ IH]; cbn; [reflexivity |].
  rewrite IH, orb_false_r. apply mem_false, Hk.
Qed.

(** X8. The treasury-accounts block drops the columns "Asset Held" and
    "Security" without [errors="ignore"]: on a table that is not empty and
    lacks one of them after renaming, it raises one [KeyError]; when the
    renamed labels are all different, the message of that error lists
    every one of the two labels that is missing. *)
Theorem treasury_accounts_need_columns df :
  pd.empty df = false ->
  ~ In "Asset Held"
       (map lambda_replace_underscores_in_column_names (pd.columns df))
  \/ ~ In "Security"
          (map lambda_replace_underscores_in_column_names (pd.columns df)) ->
  exists msg,
    shape_treasury_accounts df = inl (KeyError msg)
    /\ (NoDup (map lambda_replace_underscores_in_column_names
                   (pd.columns df)) ->
        msg = (Py.repr_list
                 (filter (fun n =>
                            negb (pd.mem
                                    n
                                    (map
                                       lambda_replace_underscores_in_column_names
                                       (pd.columns df))))
                         ["Asset Held"; "Security"])
               ++ " not found in axis")%string).
Proof.
  intros Hne Hmiss. unfold shape_treasury_accounts. rewrite Hne.
  cbn [negb]. cbv iota zeta. unfold pd.drop.
  cbn [pd.map_columns pd.columns].
  destruct (filter _ ["Asset Held"; "Security"]) as [| m ms] eqn:F.
  - exfalso. cbn [filter] in F.
    destruct Hmiss as [H | H]; apply mem_false in H; rewrite H in F;
      cbn [negb] in F; [discriminate F |].
    destruct (negb _); discriminate F.
  - cbn [bind ret Monad_Exc throw]. eexists. split; [reflexivity |].
    intros ND. rewrite (NoDup_has_dup _ ND). reflexivity.
Qed.

Lemma count_positive_mem k l : pd.count k l <> 0 -> pd.mem k l = true.
Proof.
  unfold pd.count, pd.mem. induction l as [| x t IH]; cbn; [congruence |].
  destruct (String.eqb k x); cbn; [reflexivity | exact IH].
Qed.

Lemma getitem_mem name df cells :
  pd.getitem name df = inr cells -> pd.mem name (pd.columns df) = true.
Proof.
  unfold pd.getitem. intros H. apply count_positive_mem.
  destruct (pd.count name (pd.columns df)); [discriminate | discriminate].
Qed.

Lemma setitem_inv name series df df' :
  pd.setitem name series df = inr df' ->
  pd.mem name (pd.columns df) = true ->
  pd.columns df' = pd.columns df
  /\ List.length series = List.length (pd.rows df)
  /\ pd.rows df'
     = map (fun vr => map (fun kc : string * json =>
                             if String.eqb (fst kc) name
                             then (fst kc, fst vr) else kc) (snd vr))
           (combine series (pd.rows df)).
Proof.
  unfold pd.setitem. intros H Hmem. rewrite Hmem in H.
  destruct (Nat.eqb_spec (List.length series) (List.length (pd.rows df)))
    as [E | N]; cbn [negb] in H; [| discriminate].
  assert (df' = pd.mkDF (pd.columns df) (pd.index df)
                        (map (fun vr => map (fun kc : string * json =>
                                               if String.eqb (fst kc) name
                                               then (fst kc, fst vr) else kc)
                                            (snd vr))
                             (combine series (pd.rows df))))
    as -> by congruence.
  repeat split. exact E.
Qed.



Lemma split_first_has_no_separator s :
  Py.contains "T" (Py.split_first "T" s) = false.
Proof.
  induction s as [| a t IH]; cbn [Py.split_first]; [reflexivity |].
  destruct (Ascii.eqb_spec a "T") as [-> | N]; [reflexivity |].
  cbn [Py.contains String.prefix].
  destruct (ascii_dec "T" a) as [E | _]; [congruence |].
  exact IH.
Qed.

Lemma split_dates_frame name df df' :
  split_dates name df = inr df' ->
  pd.uniform df ->
  pd.rows df <> [] ->
  pd.columns df' = pd.columns df
  /\ List.length (pd.rows df') = List.length (pd.rows df).
Proof.
  intros H U Hne.
  destruct (pd.rows df) as [| r0 rest] eqn:Er; [contradiction |].
  assert (nth_error (pd.rows df) 0 = Some r0) as Hr0
      by (rewrite Er; reflexivity).
  unfold split_dates, pd.apply_rows in H. exc_inv H. rename E into Edates.
  destruct (mapM_nth _ _ _ Edates _ _ Hr0) as (d & Hd & Hrow).
  destruct (row_date_inv _ _ _ Hrow) as (c & Hc & _).
  assert (pd.mem name (pd.columns df) = true) as Hmem.
  { apply mem_In. unfold pd.uniform in U. rewrite Forall_forall in U.
    rewrite <- (U r0 (nth_error_In _ _ Hr0)).
    apply cells_of_nonempty_label. rewrite Hc. discriminate. }
  destruct (setitem_inv _ _ _ _ H Hmem) as (Hcols & Hlen & Hrows).
  split; [exact Hcols |]. rewrite <- Er.
  rewrite Hrows, length_map, length_combine, Hlen, Nat.min_id. reflexivity.
Qed.

(** The sales-rounds block on a table that is not empty: the frame it
    returns, and the two date cells of row [i]. *)
Lemma sales_rounds_frame df rounds :
  shape_sales_rounds df = inr rounds ->
  pd.uniform df ->
  pd.empty df = false ->
  pd.columns rounds
  = map (pd.rename_label
           [("Native Tokens Allocated", "Tokens Allocated");
            ("Equivalent Price Per Token In Usd", "Price [$]");
            ("Amount Collected In Usd", "Amount Collected [$]")])
        (map lambda_replace_underscores_in_column_names
             (filter (fun k => negb (pd.mem k ["details"; "asset_collected";
                                               "price_per_token_in_asset";
                                               "amount_collected_in_asset";
                                               "is_kyc_required";
                                               "restricted_jurisdictions"]))
                     (pd.columns df)))
  /\ List.length (pd.rows rounds) = List.length (pd.rows df)
  /\ forall i, i < List.length (pd.rows df) ->
               exists s e,
                 pd.cell rounds i "Start Date"
                 = [JStr (Py.split_first "T" s)]
                 /\ pd.cell rounds i "End Date"
                    = [JStr (Py.split_first "T" e)].
Proof.
  intros H U Hne.
  unfold shape_sales_rounds in H. rewrite Hne in H.
  cbn [negb] in H. cbv iota zeta in H.
  exc_inv H. exc_inv H. rename E into Estart, E0 into Eend.
  assert (rounds = pd.fillna (JStr "-")
                     (pd.rename
                        [("Native Tokens Allocated", "Tokens Allocated");
                         ("Equivalent Price Per Token In Usd", "Price [$]");
                         ("Amount Collected In Usd", "Amount Collected [$]")]
                        d0)) as -> by congruence.
  clear H.
  set (D := ["details"; "asset_collected"; "price_per_token_in_asset";
             "amount_collected_in_asset"; "is_kyc_required";
             "restricted_jurisdictions"]) in *.
  set (L := lambda_replace_underscores_in_column_names) in *.
  set (df3 := pd.map_columns L (pd.drop_ignore D (pd.fillna (JStr "-") df)))
    in *.
  assert (pd.uniform df3) as U3
      by (apply uniform_map_columns, uniform_drop_ignore, uniform_fillna, U).
  assert (List.length (pd.rows df3) = List.length (pd.rows df)) as Hlen3.
  { unfold df3, pd.map_columns, pd.drop_ignore, pd.fillna, pd.map_cells.
    cbn [pd.rows]. rewrite !length_map. reflexivity. }
  assert (pd.rows df <> []) as Hrows
      by (unfold pd.empty in Hne; destruct (pd.columns df);
          [discriminate |]; destruct (pd.rows df); [discriminate |];
          discriminate).
  assert (pd.rows df3 <> []) as Hrows3
      by (destruct (pd.rows df3); [destruct (pd.rows df);
                                   [contradiction | discriminate]
                                  | discriminate]).
  destruct (split_dates_frame _ _ _ Estart U3 Hrows3) as (Hc4 & Hl4).
  pose proof (uniform_split_dates _ _ _ Estart U3) as U4.
  assert (pd.rows d <> []) as Hrows4
      by (destruct (pd.rows d); [destruct (pd.rows df3);
                                 [contradiction | discriminate]
                                | discriminate]).
  destruct (split_dates_frame _ _ _ Eend U4 Hrows4) as (Hc5 & Hl5).
  split; [| split].
  - unfold pd.fillna, pd.map_cells, pd.rename, pd.map_columns.
    cbn [pd.columns]. rewrite Hc5, Hc4. reflexivity.
  - unfold pd.fillna, pd.map_cells, pd.rename, pd.map_columns.
    cbn [pd.rows]. rewrite !length_map. congruence.
  - intros i Hi.
    destruct (nth_error (pd.rows df3) i) as [r3 |] eqn:Hr3;
      [| apply nth_error_None in Hr3; lia].
    destruct (split_dates_cells _ _ _ _ _ Estart U3 Hr3)
      as (r4 & c4 & d4 & Hr4 & Hcell4 & Hs4 & Hd4 & Hother4).
    destruct (split_dates_cells _ _ _ _ _ Eend U4 Hr4)
      as (r5 & c5 & d5 & Hr5 & Hcell5 & Hs5 & Hd5 & Hother5).
    destruct c4 as [| | | s | |]; try discriminate Hs4.
    destruct c5 as [| | | e | |]; try discriminate Hs5.
    cbn in Hs4, Hs5.
    assert (d4 = JStr (Py.split_first "T" s)) as -> by congruence.
    assert (d5 = JStr (Py.split_first "T" e)) as -> by congruence.
    exists s, e.
    assert (forall name, name = "Start Date" \/ name = "End Date" ->
              pd.cell
                (pd.fillna (JStr "-")
                   (pd.rename
                      [("Native Tokens Allocated", "Tokens Allocated");
                       ("Equivalent Price Per Token In Usd", "Price [$]");
                       ("Amount Collected In Usd", "Amount Collected [$]")]
                      d0)) i name
              = map filled_cell (pd.cells_of name r5)) as Hfinal.
    { intros name Hname.
      unfold pd.cell, pd.fillna, pd.map_cells, pd.rename, pd.map_columns.
      cbn [pd.rows]. rewrite !nth_error_map, Hr5. cbn [option_map].
      rewrite (cells_of_map_cells
                 (fun c => if Json.is_null c then JStr "-" else c)).
      rewrite (cells_of_relabel
                 (pd.rename_label
                    [("Native Tokens Allocated", "Tokens Allocated");
                     ("Equivalent Price Per Token In Usd", "Price [$]");
                     ("Amount Collected In Usd", "Amount Collected [$]")]));
        [reflexivity |].
      intros k. apply rename_keeps_dates, Hname. }
    split.
    + rewrite Hfinal by (left; reflexivity).
      rewrite Hother5 by discriminate. rewrite Hd4. reflexivity.
    + rewrite Hfinal by (right; reflexivity). rewrite Hd5. reflexivity.
Qed.

(** X10. In a table of sales rounds that [get_fundraising] returns, and
    that is not empty, every row has one cell under "Start Date" and one
    under "End Date", each a text with no ["T"] in it: no time of day is
    left in any date, also where the payload gave none (the placeholder
    then). *)
Theorem sales_round_dates_carry_no_time
        symbol w j recs details rounds accounts distribution :
  status_code (w (first_request (Fundraising symbol))) = 200%Z ->
  payload (w (first_request (Fundraising symbol))) = Some j ->
  Json.getpath j ["data"; "profile"; "economics"; "launch"; "fundraising";
                  "sales_rounds"]
  = inr (JArr (map JObj recs)) ->
  fst (get_fundraising symbol w)
  = inr (details, rounds, accounts, distribution) ->
  pd.empty rounds = false ->
  List.length (pd.rows rounds) = List.length recs
  /\ forall i, i < List.length recs ->
               exists d1 d2,
                 pd.cell rounds i "Start Date" = [JStr d1]
                 /\ pd.cell rounds i "End Date" = [JStr d2]
                 /\ Py.contains "T" d1 = false
                 /\ Py.contains "T" d2 = false.
Proof.
  intros H200 Hj Hpath Hrun Hne.
  unfold first_request, profile_request in *.
  unfold get_fundraising in Hrun. run_in Hrun. rewrite H200 in Hrun.
  change (200 =? 200)%Z with true in Hrun. cbv iota in Hrun. run_in Hrun.
  match type of Hrun with
  | context [fundraising_tables ?r] =>
      destruct (fundraising_tables r) as [e | q] eqn:Ht
  end; cbn [fst] in Hrun; [discriminate |].
  injection Hrun as ->.
  pose proof (fundraising_sales_rounds _ _ _ _ _ _ _ Hj Hpath Ht) as Hshape.
  pose proof (sales_rounds_nonempty _ _ Hshape Hne) as Hne0.
  destruct (sales_rounds_frame _ _ Hshape (uniform_from_records recs) Hne0)
    as (_ & Hlen & Hcells).
  assert (List.length (pd.rows (pd.from_records recs)) = List.length recs)
    as Hrecs by (unfold pd.from_records; cbn [pd.rows]; apply length_map).
  split; [congruence |].
  intros i Hi. rewrite <- Hrecs in Hi.
  destruct (Hcells i Hi) as (s & e & Hs & He).
  exists (Py.split_first "T" s), (Py.split_first "T" e).
  repeat split; try assumption; apply split_first_has_no_separator.
Qed.

(** X11. The columns of that table, in order: the columns of the payload
    without the six detail columns, each renamed by the helper and then by
    the three fixed renamings. *)
Theorem sales_round_columns
        symbol w j recs details rounds accounts distribution :
  status_code (w (first_request (Fundraising symbol))) = 200%Z ->
  payload (w (first_request (Fundraising symbol))) = Some j ->
  Json.getpath j ["data"; "profile"; "economics"; "launch"; "fundraising";
                  "sales_rounds"]
  = inr (JArr (map JObj recs)) ->
  fst (get_fundraising symbol w)
  = inr (details, rounds, accounts, distribution) ->
  pd.empty rounds = false ->
  pd.columns rounds
  = map (pd.rename_label
           [("Native Tokens Allocated", "Tokens Allocated");
            ("Equivalent Price Per Token In Usd", "Price [$]");
            ("Amount Collected In Usd", "Amount Collected [$]")])
        (map lambda_replace_underscores_in_column_names
             (filter (fun k => negb (pd.mem k ["details"; "asset_collected";
                                               "price_per_token_in_asset";
                                               "amount_collected_in_asset";
                                               "is_kyc_required";
                                               "restricted_jurisdictions"]))
                     (pd.union_keys recs))).
Proof.
  intros H200 Hj Hpath Hrun Hne.
  unfold first_request, profile_request in *.
  unfold get_fundraising in Hrun. run_in Hrun. rewrite H200 in Hrun.
  change (200 =? 200)%Z with true in Hrun. cbv iota in Hrun. run_in Hrun.
  match type of Hrun with
  | context [fundraising_tables ?r] =>
      destruct (fundraising_tables r) as [e | q] eqn:Ht
  end; cbn [fst] in Hrun; [discriminate |].
  injection Hrun as ->.
  pose proof (fundraising_sales_rounds _ _ _ _ _ _ _ Hj Hpath Ht) as Hshape.
  pose proof (sales_rounds_nonempty _ _ Hshape Hne) as Hne0.
  destruct (sales_rounds_frame _ _ Hshape (uniform_from_records recs) Hne0)
    as (Hcols & _ & _).
  exact Hcols.
Qed.

(** *** The tables of get_team and get_investors *)



Lemma people_tables_inv key r j data recs orecs ind org :
  payload r = Some j ->
  Json.getitem j "data" = inr data ->
  Json.getpath data ["profile"; key; "individuals"]
  = inr (JArr (map JObj recs)) ->
  Json.getpath data ["profile"; key; "organizations"]
  = inr (JArr (map JObj orecs)) ->
  people_tables key r = inr (ind, org) ->
  shape_individuals (pd.from_records recs) = inr ind
  /\ org = shape_organizations (pd.from_records orecs).
Proof.
  unfold people_tables, response_json. intros Hj Hdata Hind Horg H.
  rewrite Hj in H. cbn [bind ret Monad_Exc] in H.
  rewrite Hdata in H. cbn [bind ret Monad_Exc] in H.
  rewrite Hind in H. cbn [bind ret Monad_Exc] in H.
  rewrite DataFrame_of_objects in H. cbn [bind ret Monad_Exc] in H.
  destruct (shape_individuals (pd.from_records recs)) as [e | ind'];
    [discriminate |].
  cbn [bind ret Monad_Exc] in H. rewrite Horg in H.
  cbn [bind ret Monad_Exc] in H. rewrite DataFrame_of_objects in H.
  cbn [bind ret Monad_Exc] in H. split; congruence.
Qed.




(** X13. A table of organizations that [get_team] or [get_investors]
    returns, and that is not empty, has no column labelled ["slug"] or
    ["logo"], and every one of its labels is a capitalized key. *)
Theorem organizations_drop_slug_and_logo s w key j data recs orecs ind org :
  people_key s = Some key ->
  status_code (w (first_request s)) = 200%Z ->
  payload (w (first_request s)) = Some j ->
  Json.getitem j "data" = inr data ->
  Json.getpath data ["profile"; key; "individuals"]
  = inr (JArr (map JObj recs)) ->
  Json.getpath data ["profile"; key; "organizations"]
  = inr (JArr (map JObj orecs)) ->
  fst (call s w) = inr ([ind; org], []) ->
  pd.empty org = false ->
  ~ In "slug" (pd.columns org)
  /\ ~ In "logo" (pd.columns org)
  /\ pd.columns org
     = map Py.capitalize
           (filter (fun k => negb (pd.mem k ["slug"; "logo"]))
                   (pd.union_keys orecs)).
Proof.
  intros Hk H200 Hj Hdata Hind Horg Hrun Hne.
  pose proof (people_call s w key ind org Hk H200 Hrun) as Ht.
  destruct (people_tables_inv _ _ _ _ _ _ _ _ Hj Hdata Hind Horg Ht)
    as (_ & ->).
  unfold shape_organizations in *.
  destruct (pd.empty (pd.from_records orecs)) eqn:Em; cbn [negb] in *;
    cbv iota in *; [congruence |].
  assert (forall c,
             In c (pd.columns
                     (pd.replace_None
                        (JStr "-")
                        (pd.map_columns
                           Py.capitalize
                           (pd.drop_ignore ["slug"; "logo"]
                                           (pd.from_records orecs))))) ->
             exists k, c = Py.capitalize k) as Hcap.
  { unfold pd.replace_None, pd.map_columns. cbn [pd.columns].
    intros c Hc. apply in_map_iff in Hc. destruct Hc as (k & <- & _). eauto. }
  repeat split.
  - intros Hin. apply Hcap in Hin. destruct Hin as (k & Hk').
    symmetry in Hk'. apply capitalize_initial in Hk'. discriminate.
  - intros Hin. apply Hcap in Hin. destruct Hin as (k & Hk').
    symmetry in Hk'. apply capitalize_initial in Hk'. discriminate.
Qed.

(** *** Payloads with nothing in them *)

Lemma getpath_cons j k rest :
  Json.getpath j (k :: rest)
  = match Json.getitem j k with
    | inl e => inl e
    | inr v => Json.getpath v rest
    end.
Proof. reflexivity. Qed.

Lemma count_absent k l : ~ In k l -> pd.count k l = 0.
Proof.
  unfold pd.count. induction l as [| x t IH]; cbn; [reflexivity |].
  intros H. destruct (String.eqb_spec k x) as [-> | N].
  - exfalso. apply H. left. reflexivity.
  - apply IH. intros Hin. apply H. right. exact Hin.
Qed.

(** X14. [get_roadmap] parses the ["date"] column without looking whether
    it is there: on a 200 response whose milestones carry no ["date"] key
    (so also on the list of no milestone), it raises [KeyError] on
    ["date"] and returns nothing. *)
Theorem roadmap_needs_dates symbol w j recs :
  status_code (w (first_request (Roadmap symbol))) = 200%Z ->
  payload (w (first_request (Roadmap symbol))) = Some j ->
  Json.getpath j ["data"; "profile"; "general"; "roadmap"]
  = inr (JArr (map JObj recs)) ->
  has_column "date" recs = false ->
  get_roadmap symbol w
  = (inl (KeyError "date"), [Get (first_request (Roadmap symbol))]).
Proof.
  intros H200 Hj Hpath Hdate.
  unfold first_request, profile_request in *.
  unfold get_roadmap. run. rewrite H200.
  change (200 =? 200)%Z with true. cbv iota. run.
  unfold response_json. rewrite Hj. run.
  rewrite getpath_cons in Hpath.
  destruct (Json.getitem j "data") as [e | data]; [discriminate |].
  run. rewrite Hpath. run. rewrite DataFrame_of_objects. run.
  unfold parse_dates, pd.getitem, pd.from_records. cbn [pd.columns].
  rewrite count_absent; [reflexivity |].
  intros Hin. apply has_column_In in Hin. congruence.
Qed.

(** X15. [get_links] has no such step: on a 200 response whose list of
    links is empty or null it returns the empty table and raises
    nothing. *)
Theorem links_of_nothing symbol w j links :
  status_code (w (first_request (Links symbol))) = 200%Z ->
  payload (w (first_request (Links symbol))) = Some j ->
  Json.getpath j ["data"; "profile"; "general"; "overview"; "official_links"]
  = inr links ->
  links = JArr [] \/ links = JNull ->
  get_links symbol w
  = (inr pd.empty_frame, [Get (first_request (Links symbol))]).
Proof.
  intros H200 Hj Hpath Hlinks.
  unfold first_request, profile_request in *.
  unfold get_links. run. rewrite H200.
  change (200 =? 200)%Z with true. cbv iota. run.
  unfold response_json. rewrite Hj. run.
  rewrite getpath_cons in Hpath.
  destruct (Json.getitem j "data") as [e | data]; [discriminate |].
  run.
  rewrite Hpath. run.
  destruct Hlinks as [-> | ->]; reflexivity.
Qed.

(** *** The catalogue *)

Lemma mapM_each {A B : Type} (f : A -> Exc B) l bs :
  mapM f l = inr bs -> forall a, In a l -> exists b, f a = inr b.
Proof.
  revert bs; induction l as [| a0 t IH]; cbn; intros bs H a Ha;
    [contradiction |].
  destruct (f a0) as [e | b0] eqn:E0; [discriminate |].
  destruct (mapM f t) as [e | bs'] eqn:Et; [discriminate |].
  destruct Ha as [<- | Ha]; [eauto | eapply IH; eauto].
Qed.

Lemma metric_record_keys m r :
  metric_record (JObj m) = inr r -> has_catalogue_keys m = true.
Proof.
  unfold metric_record, has_catalogue_keys, Json.has_key.
  cbn [Json.getitem bind ret Monad_Exc]. intros H.
  destruct (Json.lookup "source_attribution" m); [| discriminate].
  cbn [bind ret Monad_Exc] in H. exc_inv H. exc_inv H.
  destruct (Json.lookup "metric_id" m); [| discriminate].
  destruct (Json.lookup "name" m); [| discriminate].
  destruct (Json.lookup "description" m); [| discriminate].
  reflexivity.
Qed.

(** X16. The catalogue is all or nothing: when one metric object of a 200
    response lacks one of the keys ["source_attribution"], ["metric_id"],
    ["name"] and ["description"], [get_available_timeseries] raises and
    returns no table, whatever the other metrics are. *)
Theorem catalogue_rejects_incomplete_metrics w j ms :
  status_code (w catalogue_request) = 200%Z ->
  payload (w catalogue_request) = Some j ->
  Json.getpath j ["data"; "metrics"] = inr (JArr (map JObj ms)) ->
  forallb has_catalogue_keys ms = false ->
  exists e, get_available_timeseries w = (inl e, [Get catalogue_request]).
Proof.
  intros H200 Hj Hms Hkeys.
  unfold get_available_timeseries, catalogue_request in *. run.
  rewrite H200. change (200 =? 200)%Z with true. cbv iota. run.
  unfold response_json. rewrite Hj. run.
  apply getpath_two in Hms. destruct Hms as (d & Hd & Hm).
  rewrite Hd. run. rewrite Hm. run. cbn [Json.iter]. run.
  destruct (mapM metric_record (map JObj ms)) as [e | arr] eqn:E; run;
    [eauto |].
  exfalso.
  assert (forallb has_catalogue_keys ms = true); [| congruence].
  apply forallb_forall. intros m Hin.
  destruct (mapM_each _ _ _ E (JObj m)) as (r & Hr).
  { apply in_map, Hin. }
  eapply metric_record_keys, Hr.
Qed.

(** *** The index of a timeseries *)




(** *** The profile rows of get_tokenomics *)

Lemma has_dup_NoDup l : pd.has_dup l = false -> NoDup l.
Proof.
  induction l as [| k t IH]; cbn; intros H; [constructor |].
  apply orb_false_iff in H. destruct H as [Hk Ht].
  constructor; [apply mem_false, Hk | apply IH, Ht].
Qed.

Lemma concat_inv a b df :
  pd.concat a b = inr df ->
  NoDup (pd.columns df)
  /\ incl (pd.columns a) (pd.columns df)
  /\ pd.rows df = map (pd.reindex (pd.columns df)) (pd.rows a ++ pd.rows b).
Proof.
  unfold pd.concat.
  destruct (pd.has_dup (pd.columns a) || pd.has_dup (pd.columns b)) eqn:D;
    [discriminate |].
  apply orb_false_iff in D. destruct D as [Da Db].
  apply has_dup_NoDup in Da, Db.
  intros H.
  assert (df = pd.mkDF
                 (pd.columns a
                  ++ filter (fun k => negb (pd.mem k (pd.columns a)))
                            (pd.columns b))
                 pd.RangeIndex
                 (map (pd.reindex
                         (pd.columns a
                          ++ filter (fun k => negb (pd.mem k (pd.columns a)))
                                    (pd.columns b)))
                      (pd.rows a ++ pd.rows b))) as -> by congruence.
  cbn [pd.columns pd.rows]. split; [| split; [| reflexivity]].
  - apply NoDup_app; [exact Da | apply NoDup_filter, Db |].
    intros k Hk Hin. apply filter_In in Hin. destruct Hin as [_ Hin].
    apply negb_true_iff, mem_false in Hin. contradiction.
  - intros k Hk. apply in_or_app. left. exact Hk.
Qed.

Lemma tokenomics_value_filled v :
  filled_cell match v with
              | JStr s => JStr (Py.replace "n/a" "-" s)
              | _ => JNull
              end
  = tokenomics_value v.
Proof. destruct v; reflexivity. Qed.

(** X18. The tokenomics table of a 200 response opens with the five
    profile metrics, in their fixed order.  The value beside each is the
    profile text with ["n/a"] replaced by ["-"]; a profile value that is no
    text (null, or a number such as a block reward) is shown as ["-"]. *)
Theorem tokenomics_metric_rows
        symbol coingecko_symbol w j td v1 v2 v3 v4 v5 df circ :
  status_code (w (first_request (Tokenomics symbol coingecko_symbol)))
  = 200%Z ->
  payload (w (first_request (Tokenomics symbol coingecko_symbol))) = Some j ->
  Json.getpath j ["data"; "profile"; "economics"; "consensus_and_emission"]
  = inr td ->
  Json.getpath td ["supply"; "general_emission_type"] = inr v1 ->
  Json.getpath td ["consensus"; "general_consensus_mechanism"] = inr v2 ->
  Json.getpath td ["consensus"; "consensus_details"] = inr v3 ->
  Json.getpath td ["consensus"; "mining_algorithm"] = inr v4 ->
  Json.getpath td ["consensus"; "block_reward"] = inr v5 ->
  fst (get_tokenomics symbol coingecko_symbol w) = inr (df, circ) ->
  forall i m v,
    nth_error (combine tokenomics_metrics [v1; v2; v3; v4; v5]) i
    = Some (m, v) ->
    pd.cell df i "Metric" = [JStr m]
    /\ pd.cell df i "Value" = [tokenomics_value v].
Proof.
  intros H200 Hj Hpath H1 H2 H3 H4 H5 Hrun.
  unfold first_request, profile_request in *.
  unfold get_tokenomics in Hrun. run_in Hrun. rewrite H200 in Hrun.
  change (200 =? 200)%Z with true in Hrun. cbv iota in Hrun. run_in Hrun.
  unfold response_json in Hrun. rewrite Hj in Hrun. run_in Hrun.
  rewrite getpath_cons in Hpath.
  destruct (Json.getitem j "data") as [e | data]; [discriminate |].
  run_in Hrun. rewrite Hpath in Hrun. run_in Hrun.
  rewrite H1 in Hrun. run_in Hrun. rewrite H2 in Hrun. run_in Hrun.
  rewrite H3 in Hrun. run_in Hrun. rewrite H4 in Hrun. run_in Hrun.
  rewrite H5 in Hrun. run_in Hrun.
  change (pd.getitem "Value"
            (pd.two_columns "Metric"
               [JStr "Emission Type"; JStr "Consensus Mechanism";
                JStr "Consensus Details"; JStr "Mining Algorithm";
                JStr "Block Reward"] "Value" [v1; v2; v3; v4; v5]))
    with (@inr exn (list json) [v1; v2; v3; v4; v5]) in Hrun.
  run_in Hrun.
  unfold pd.str_replace in Hrun.
  destruct (pd.numeric_cells [v1; v2; v3; v4; v5]
            || pd.bool_cells [v1; v2; v3; v4; v5]);
    [discriminate Hrun |].
  cbn [map] in Hrun. run_in Hrun.
  match type of Hrun with
  | context [pd.setitem "Value" ?vals ?d] =>
      change (pd.setitem "Value" vals d)
        with (@inr exn pd.DataFrame
                (pd.two_columns "Metric"
                   [JStr "Emission Type"; JStr "Consensus Mechanism";
                    JStr "Consensus Details"; JStr "Mining Algorithm";
                    JStr "Block Reward"] "Value" vals)) in Hrun
  end.
  run_in Hrun.
  destruct (get_coin_tokenomics coingecko_symbol) as [e | cg_df];
    run_in Hrun; [discriminate Hrun |].
  match type of Hrun with
  | context [pd.concat ?a cg_df] =>
      destruct (pd.concat a cg_df) as [e | d] eqn:Ec
  end; run_in Hrun; [discriminate Hrun |].
  destruct (get_messari_timeseries symbol "sply.circ" "1d" "" "" w)
    as [[e | [circ' t]] tr]; cbn [fst snd] in Hrun; [discriminate Hrun |].
  assert (df = pd.fillna (JStr "-") d) as -> by congruence.
  destruct (concat_inv _ _ _ Ec) as (Hnd & Hincl & Hrows).
  assert (In "Metric" (pd.columns d)) as HM
      by (apply Hincl; left; reflexivity).
  assert (In "Value" (pd.columns d)) as HV
      by (apply Hincl; right; left; reflexivity).
  intros i m v Hi.
  unfold pd.cell, pd.fillna, pd.map_cells. cbn [pd.rows].
  rewrite Hrows, !nth_error_map.
  destruct i as [| [| [| [| [| i]]]]]; cbn in Hi;
    try (destruct i; discriminate Hi);
    injection Hi as <- <-;
    cbn [pd.two_columns pd.rows combine map app nth_error option_map fst snd];
    rewrite !(cells_of_map_cells
                (fun c => if Json.is_null c then JStr "-" else c));
    rewrite (cells_of_reindex "Metric" _ _ Hnd HM),
      (cells_of_reindex "Value" _ _ Hnd HV);
    (split; [reflexivity |]); cbn [map];
    change (pd.cell_of [("Metric", ?x); ("Value", ?y)] "Value") with y;
    f_equal; apply tokenomics_value_filled.
Qed.

(** *** The dated tables of get_project_product_info *)

Lemma dated_table_needs_dates recs :
  pd.empty (pd.from_records recs) = false ->
  ~ In "Date" (prettify_column_names (pd.union_keys recs)) ->
  exists e, dated_table (JArr (map JObj recs)) = inl e.
Proof.
  intros Hne Hdate. unfold dated_table. rewrite DataFrame_of_objects.
  cbn [bind ret Monad_Exc]. unfold pd.set_columns, pd.from_records.
  cbn [pd.columns pd.rows pd.index].
  destruct (Nat.eqb _ _) eqn:L; [| eexists; reflexivity].
  cbn [bind ret Monad_Exc throw].
  unfold pd.empty, pd.from_records in Hne. cbn [pd.columns pd.rows] in Hne.
  destruct (pd.union_keys recs) as [| c cs] eqn:K; [discriminate Hne |].
  destruct recs as [| r0 rest]; [discriminate Hne |].
  destruct (prettify_column_names (c :: cs)) as [| c' cs'] eqn:P;
    [discriminate L |].
  unfold pd.empty at 1. cbn [pd.columns pd.rows map negb].
  unfold parse_dates, pd.getitem. cbn [pd.columns].
  rewrite (count_absent _ _ Hdate). eexists. reflexivity.
Qed.

(** X19. [get_project_product_info] parses the ["Date"] column of the
    audits without looking whether it is there: on a 200 response whose
    audits make a table that is not empty and has no column labelled
    ["Date"] after the renaming, the call raises and returns none of its
    four tables, whatever the rest of the payload holds. *)
Theorem product_info_needs_audit_dates symbol w j recs :
  status_code (w (first_request (ProjectProductInfo symbol))) = 200%Z ->
  payload (w (first_request (ProjectProductInfo symbol))) = Some j ->
  Json.getpath j ["data"; "profile"; "technology"; "security"; "audits"]
  = inr (JArr (map JObj recs)) ->
  pd.empty (pd.from_records recs) = false ->
  ~ In "Date" (prettify_column_names (pd.union_keys recs)) ->
  exists e,
    get_project_product_info symbol w
    = (inl e, [Get (first_request (ProjectProductInfo symbol))]).
Proof.
  intros H200 Hj Hpath Hne Hdate.
  destruct (dated_table_needs_dates recs Hne Hdate) as [e He].
  unfold first_request, profile_request in *.
  unfold get_project_product_info. run. rewrite H200.
  change (200 =? 200)%Z with true. cbv iota. run.
  unfold response_json. rewrite Hj. run.
  rewrite getpath_cons in Hpath.
  destruct (Json.getitem j "data") as [e0 | data]; [discriminate Hpath |].
  run.
  change ["profile"; "technology"; "security"; "audits"]
    with (["profile"; "technology"] ++ ["security"; "audits"]) in Hpath.
  rewrite getpath_app in Hpath.
  destruct (Json.getpath data ["profile"; "general"; "overview";
                               "project_details"]) as [e0 | details];
    run; [eexists; reflexivity |].
  destruct (Json.getpath data ["profile"; "technology"]) as [e0 | td];
    [discriminate Hpath |].
  run.
  destruct (Json.getpath td ["overview"; "technology_details"])
    as [e0 | tdetails]; run; [eexists; reflexivity |].
  destruct (Json.getpath td ["overview"; "client_repositories"])
    as [e0 | repos]; run; [eexists; reflexivity |].
  destruct (pd.DataFrame_of repos) as [e0 | df_repos]; run;
    [eexists; reflexivity |].
  destruct (pd.set_columns _ df_repos) as [e0 | df_repos']; run;
    [eexists; reflexivity |].
  rewrite Hpath. run. rewrite He. run. eexists. reflexivity.
Qed.

(** *** C4: the placeholder *)

Lemma nth_error_same_length {A B : Type} (l : list A) (l' : list B) p a :
  nth_error l p = Some a -> List.length l' = List.length l ->
  exists b, nth_error l' p = Some b.
Proof.
  intros Hp Hlen.
  destruct (nth_error l' p) as [b |] eqn:E; [eauto |].
  apply nth_error_None in E.
  assert (nth_error l p <> None) as N by congruence.
  apply nth_error_Some in N. lia.
Qed.

Lemma records_not_empty recs n (rec : list (string * json)) p k :
  nth_error recs n = Some rec ->
  nth_error (pd.union_keys recs) p = Some k ->
  pd.empty (pd.from_records recs) = false.
Proof.
  intros Hn Hp. unfold pd.empty, pd.from_records. cbn [pd.columns pd.rows].
  destruct (pd.union_keys recs); [destruct p; discriminate |].
  destruct recs; [destruct n; discriminate | reflexivity].
Qed.

Lemma kept_not_empty dropped recs n (rec : list (string * json)) p k :
  nth_error recs n = Some rec ->
  nth_error (kept_keys dropped recs) p = Some k ->
  pd.empty (pd.from_records recs) = false.
Proof.
  intros Hn Hp. apply nth_error_In in Hp. unfold kept_keys in Hp.
  apply filter_In in Hp. destruct Hp as [Hp _].
  apply In_nth_error in Hp. destruct Hp as [q Hq].
  eapply records_not_empty; eauto.
Qed.

Lemma setitem_row name series df df' n v r :
  pd.setitem name series df = inr df' ->
  pd.mem name (pd.columns df) = true ->
  nth_error series n = Some v ->
  nth_error (pd.rows df) n = Some r ->
  nth_error (pd.rows df') n
  = Some (map (fun kc : string * json =>
                 if String.eqb (fst kc) name then (fst kc, v) else kc) r).
Proof.
  intros H Hmem Hv Hr.
  destruct (setitem_inv _ _ _ _ H Hmem) as (_ & _ & ->).
  rewrite nth_error_map, (nth_error_combine _ _ _ _ _ Hv Hr). reflexivity.
Qed.

(** Row [n] of a table of records whose labels have been set anew. *)
Lemma set_columns_row new recs d n rec :
  pd.set_columns new (pd.from_records recs) = inr d ->
  nth_error recs n = Some rec ->
  List.length new = List.length (pd.union_keys recs)
  /\ pd.columns d = new
  /\ nth_error (pd.rows d) n
     = Some (combine new (map (pd.cell_of rec) (pd.union_keys recs))).
Proof.
  unfold pd.set_columns, pd.from_records.
  cbn [pd.columns pd.rows pd.index].
  destruct (Nat.eqb_spec (List.length new)
                         (List.length (pd.union_keys recs))) as [E | N];
    [| discriminate].
  intros H Hrec. injection H as <-. cbn [pd.rows pd.columns].
  split; [exact E |]. split; [reflexivity |].
  rewrite !nth_error_map, Hrec. cbn [option_map].
  unfold pd.reindex. rewrite map_map. reflexivity.
Qed.

(** The repositories: relabelled, then filled. *)
Lemma filled_table_shows new recs d :
  pd.set_columns new (pd.from_records recs) = inr d ->
  shows_placeholder recs (pd.union_keys recs) 0 placeholder
                    (pd.fillna (JStr "-") d).
Proof.
  intros H n rec p k Hn Hp Hnull.
  destruct (set_columns_row _ _ _ _ _ H Hn) as (Hlen & _ & Hrow).
  destruct (nth_error_same_length _ new _ _ Hp Hlen) as (label & Hl).
  eexists _, label, (JStr "-"). split; [| split; [| exact eq_refl]].
  - unfold pd.fillna, pd.map_cells. cbn [pd.rows].
    rewrite nth_error_map, Hrow. reflexivity.
  - cbn [Nat.add].
    rewrite nth_error_map,
      (nth_error_combine _ _ _ _ _ Hl (map_nth_error _ _ _ Hp)).
    cbn [option_map fst snd]. rewrite Hnull. reflexivity.
Qed.

Lemma length_cells_of k (r : list (string * json)) :
  List.length (pd.cells_of k r) = pd.count k (map fst r).
Proof.
  unfold pd.cells_of, pd.count. rewrite length_map.
  induction r as [| [k' c] t IH]; cbn; [reflexivity |].
  rewrite (String.eqb_sym k' k).
  destruct (String.eqb k k'); cbn; rewrite IH; reflexivity.
Qed.

(** Audits and vulnerabilities: relabelled, the dates parsed, filled. *)
Lemma dated_table_shows recs df :
  dated_table (JArr (map JObj recs)) = inr df ->
  shows_placeholder recs (pd.union_keys recs) 0
                    dated_placeholder df.
Proof.
  unfold dated_table. rewrite DataFrame_of_objects.
  cbn [bind ret Monad_Exc]. intros H.
  destruct (pd.set_columns _ (pd.from_records recs)) as [e | d] eqn:Eset;
    [discriminate |].
  cbn [bind ret Monad_Exc] in H.
  intros n rec p k Hn Hp Hnull.
  destruct (set_columns_row _ _ _ _ _ Eset Hn) as (Hlen & Hcols & Hrow).
  destruct (nth_error_same_length
              _ (prettify_column_names
                   (pd.columns (pd.from_records recs))) _ _ Hp Hlen)
    as (label & Hl).
  assert (nth_error
            (combine (prettify_column_names
                        (pd.columns (pd.from_records recs)))
                     (map (pd.cell_of rec) (pd.union_keys recs))) p
          = Some (label, JNull)) as Hentry.
  { rewrite (nth_error_combine _ _ _ _ _ Hl (map_nth_error _ _ _ Hp)).
    rewrite Hnull. reflexivity. }
  destruct (pd.empty d) eqn:Em; cbn [negb] in H; cbv iota in H.
  { exfalso. unfold pd.empty in Em. rewrite Hcols in Em.
    destruct (prettify_column_names _); [destruct p; discriminate |].
    destruct (pd.rows d); [destruct n; discriminate | discriminate]. }
  exc_inv H. rename E into Eparse.
  assert (df = pd.fillna (JStr "-") d0) as -> by congruence.
  unfold parse_dates in Eparse. exc_inv Eparse. exc_inv Eparse.
  rename E into Eget, E0 into Edates.
  pose proof (getitem_mem _ _ _ Eget) as Hmem.
  set (row := combine (prettify_column_names
                         (pd.columns (pd.from_records recs)))
                      (map (pd.cell_of rec) (pd.union_keys recs))) in *.
  assert (nth_error l n
          = Some match pd.cells_of "Date" row with
                 | c :: _ => c
                 | [] => JNull
                 end
          /\ pd.count "Date" (map fst row) = 1) as (Hc0 & Hone).
  { unfold pd.getitem in Eget.
    destruct (pd.count "Date" (pd.columns d)) as [| [| ?]] eqn:C;
      try discriminate.
    injection Eget as <-. split.
    - rewrite nth_error_map, Hrow. reflexivity.
    - unfold row. rewrite map_fst_combine; [congruence |].
      rewrite length_map, Hlen. apply Nat.le_refl. }
  destruct (mapM_nth _ _ _ Edates _ _ Hc0) as (v & Hv & Hparsed).
  pose proof (setitem_row _ _ _ _ _ _ _ Eparse Hmem Hv Hrow) as Hrow1.
  unfold dated_placeholder.
  destruct (String.eqb_spec label "Date") as [-> | Nd].
  - eexists _, "Date", (filled_cell v). split; [| split].
    + unfold pd.fillna, pd.map_cells. cbn [pd.rows].
      rewrite nth_error_map, Hrow1. reflexivity.
    + cbn [Nat.add]. rewrite !nth_error_map, Hentry.
      cbn [option_map fst snd]. reflexivity.
    + cbn [String.eqb Ascii.eqb Bool.eqb]. exists v.
      split; [| reflexivity].
      rewrite <- Hparsed. f_equal.
      rewrite <- length_cells_of in Hone.
      apply nth_error_In, In_cells_of in Hentry.
      destruct (pd.cells_of "Date" row) as [| c [| c' t]];
        try discriminate Hone.
      destruct Hentry as [-> | []]. reflexivity.
  - eexists _, label, (JStr "-"). split; [| split].
    + unfold pd.fillna, pd.map_cells. cbn [pd.rows].
      rewrite nth_error_map, Hrow1. reflexivity.
    + cbn [Nat.add]. rewrite !nth_error_map, Hentry.
      cbn [option_map fst snd].
      destruct (String.eqb_spec label "Date"); [contradiction |].
      reflexivity.
    + destruct (String.eqb_spec label "Date"); [contradiction |].
      reflexivity.
Qed.

(** The individuals. *)
Lemma individuals_show recs ind :
  shape_individuals (pd.from_records recs) = inr ind ->
  shows_placeholder
    recs
    (kept_keys ["slug"; "avatar_url"; "first_name"; "last_name"] recs)
    1 placeholder ind.
Proof.
  intros H n rec p k Hn Hp Hnull.
  pose proof (kept_not_empty _ _ _ _ _ _ Hn Hp) as Hne.
  destruct (individuals_row recs ind n rec H Hne Hn)
    as (p1 & p2 & _ & _ & Hrow).
  eexists _, (Py.capitalize k), (JStr "-").
  split; [exact Hrow |]. split; [| exact eq_refl].
  cbn [Nat.add nth_error]. unfold kept_keys in Hp.
  rewrite (map_nth_error _ _ _ Hp), Hnull. reflexivity.
Qed.

(** A date column split: a cell that holds "-" still does. *)
Lemma split_dates_keeps_placeholder name df df' n r p label :
  split_dates name df = inr df' ->
  pd.uniform df ->
  nth_error (pd.rows df) n = Some r ->
  nth_error r p = Some (label, JStr "-") ->
  exists r',
    nth_error (pd.rows df') n = Some r'
    /\ nth_error r' p = Some (label, JStr "-").
Proof.
  unfold split_dates, pd.apply_rows. intros H U Hr Hp.
  exc_inv H. rename E into Edates.
  destruct (mapM_nth _ _ _ Edates _ _ Hr) as (d & Hd & Hrow).
  destruct (row_date_inv _ _ _ Hrow) as (c & Hc & Hsplit).
  assert (pd.mem name (pd.columns df) = true) as Hmem.
  { apply mem_In. unfold pd.uniform in U. rewrite Forall_forall in U.
    rewrite <- (U r (nth_error_In _ _ Hr)).
    apply cells_of_nonempty_label. rewrite Hc. discriminate. }
  eexists. split; [exact (setitem_row _ _ _ _ _ _ _ H Hmem Hd Hr) |].
  rewrite nth_error_map, Hp. cbn [option_map fst].
  destruct (String.eqb_spec label name) as [-> | N]; [| reflexivity].
  apply nth_error_In, In_cells_of in Hp. rewrite Hc in Hp.
  destruct Hp as [-> | []]. cbn in Hsplit. injection Hsplit as <-.
  reflexivity.
Qed.

(** The sales rounds. *)
Lemma sales_rounds_show recs rounds :
  shape_sales_rounds (pd.from_records recs) = inr rounds ->
  shows_placeholder
    recs
    (kept_keys ["details"; "asset_collected"; "price_per_token_in_asset";
                "amount_collected_in_asset"; "is_kyc_required";
                "restricted_jurisdictions"] recs)
    0 placeholder rounds.
Proof.
  intros H n rec p k Hn Hp Hnull.
  pose proof (kept_not_empty _ _ _ _ _ _ Hn Hp) as Hne.
  unfold shape_sales_rounds in H. rewrite Hne in H.
  cbn [negb] in H. cbv iota zeta in H.
  exc_inv H. exc_inv H. rename E into Estart, E0 into Eend.
  assert (rounds = pd.fillna (JStr "-")
                     (pd.rename
                        [("Native Tokens Allocated", "Tokens Allocated");
                         ("Equivalent Price Per Token In Usd", "Price [$]");
                         ("Amount Collected In Usd", "Amount Collected [$]")]
                        d0)) as -> by congruence.
  clear H.
  set (D := ["details"; "asset_collected"; "price_per_token_in_asset";
             "amount_collected_in_asset"; "is_kyc_required";
             "restricted_jurisdictions"]) in *.
  set (L := lambda_replace_underscores_in_column_names) in *.
  set (df3 := pd.map_columns L (pd.drop_ignore D (pd.fillna (JStr "-")
                                                  (pd.from_records recs))))
    in *.
  assert (pd.uniform df3) as U3
      by (apply uniform_map_columns, uniform_drop_ignore, uniform_fillna,
            uniform_from_records).
  assert (nth_error (pd.rows df3) n
          = Some (map (fun k => (L k, filled_cell (pd.cell_of rec k)))
                      (kept_keys D recs))) as Hrow3.
  { unfold df3, pd.map_columns, pd.drop_ignore, pd.fillna, pd.map_cells,
      pd.from_records, kept_keys.
    cbn [pd.rows]. rewrite !nth_error_map, Hn. cbn [option_map].
    unfold pd.reindex. rewrite !filter_map_swap, !map_map. reflexivity. }
  assert (nth_error (map (fun k => (L k, filled_cell (pd.cell_of rec k)))
                         (kept_keys D recs)) p
          = Some (L k, JStr "-")) as Hentry
      by (rewrite (map_nth_error _ _ _ Hp), Hnull; reflexivity).
  destruct (split_dates_keeps_placeholder _ _ _ _ _ _ _ Estart U3 Hrow3
                                         Hentry)
    as (r1 & Hrow1 & Hentry1).
  pose proof (uniform_split_dates _ _ _ Estart U3) as U1.
  destruct (split_dates_keeps_placeholder _ _ _ _ _ _ _ Eend U1 Hrow1
                                         Hentry1)
    as (r2 & Hrow2 & Hentry2).
  eexists _, _, (JStr "-"). split; [| split; [| exact eq_refl]].
  - unfold pd.fillna, pd.map_cells, pd.rename, pd.map_columns.
    cbn [pd.rows]. rewrite !nth_error_map, Hrow2. reflexivity.
  - cbn [Nat.add]. rewrite !nth_error_map, Hentry2. reflexivity.
Qed.

(** The five profile values of the tokenomics table. *)
Lemma tokenomics_null_value symbol coingecko_symbol w j data td df circ :
  status_code (w (first_request (Tokenomics symbol coingecko_symbol)))
  = 200%Z ->
  payload (w (first_request (Tokenomics symbol coingecko_symbol))) = Some j ->
  Json.getitem j "data" = inr data ->
  Json.getpath data ["profile"; "economics"; "consensus_and_emission"]
  = inr td ->
  fst (get_tokenomics symbol coingecko_symbol w) = inr (df, circ) ->
  forall i path,
    nth_error tokenomics_paths i = Some path ->
    Json.getpath td path = inr JNull ->
    pd.cell df i "Value" = [JStr "-"].
Proof.
  intros H200 Hj Hdata Htd Hrun.
  unfold first_request, profile_request in *.
  unfold get_tokenomics in Hrun. run_in Hrun. rewrite H200 in Hrun.
  change (200 =? 200)%Z with true in Hrun. cbv iota in Hrun. run_in Hrun.
  unfold response_json in Hrun. rewrite Hj in Hrun. run_in Hrun.
  rewrite Hdata in Hrun. run_in Hrun. rewrite Htd in Hrun. run_in Hrun.
  destruct (Json.getpath td ["supply"; "general_emission_type"])
    as [e | v1] eqn:E1; run_in Hrun; [discriminate Hrun |].
  destruct (Json.getpath td ["consensus"; "general_consensus_mechanism"])
    as [e | v2] eqn:E2; run_in Hrun; [discriminate Hrun |].
  destruct (Json.getpath td ["consensus"; "consensus_details"])
    as [e | v3] eqn:E3; run_in Hrun; [discriminate Hrun |].
  destruct (Json.getpath td ["consensus"; "mining_algorithm"])
    as [e | v4] eqn:E4; run_in Hrun; [discriminate Hrun |].
  destruct (Json.getpath td ["consensus"; "block_reward"])
    as [e | v5] eqn:E5; run_in Hrun; [discriminate Hrun |].
  change (pd.getitem "Value"
            (pd.two_columns "Metric"
               [JStr "Emission Type"; JStr "Consensus Mechanism";
                JStr "Consensus Details"; JStr "Mining Algorithm";
                JStr "Block Reward"] "Value" [v1; v2; v3; v4; v5]))
    with (@inr exn (list json) [v1; v2; v3; v4; v5]) in Hrun.
  run_in Hrun.
  unfold pd.str_replace in Hrun.
  destruct (pd.numeric_cells [v1; v2; v3; v4; v5]
            || pd.bool_cells [v1; v2; v3; v4; v5]);
    [discriminate Hrun |].
  cbn [map] in Hrun. run_in Hrun.
  match type of Hrun with
  | context [pd.setitem "Value" ?vals ?d] =>
      change (pd.setitem "Value" vals d)
        with (@inr exn pd.DataFrame
                (pd.two_columns "Metric"
                   [JStr "Emission Type"; JStr "Consensus Mechanism";
                    JStr "Consensus Details"; JStr "Mining Algorithm";
                    JStr "Block Reward"] "Value" vals)) in Hrun
  end.
  run_in Hrun.
  destruct (get_coin_tokenomics coingecko_symbol) as [e | cg_df];
    run_in Hrun; [discriminate Hrun |].
  match type of Hrun with
  | context [pd.concat ?a cg_df] =>
      destruct (pd.concat a cg_df) as [e | d] eqn:Ec
  end; run_in Hrun; [discriminate Hrun |].
  destruct (get_messari_timeseries symbol "sply.circ" "1d" "" "" w)
    as [[e | [circ' t]] tr]; cbn [fst snd] in Hrun; [discriminate Hrun |].
  assert (df = pd.fillna (JStr "-") d) as -> by congruence.
  destruct (concat_inv _ _ _ Ec) as (Hnd & Hincl & Hrows).
  assert (In "Value" (pd.columns d)) as HV
      by (apply Hincl; right; left; reflexivity).
  intros i path Hi Hnull.
  unfold pd.cell, pd.fillna, pd.map_cells. cbn [pd.rows].
  rewrite Hrows, !nth_error_map.
  destruct i as [| [| [| [| [| i]]]]]; cbn in Hi;
    try (destruct i; discriminate Hi);
    injection Hi as <-;
    first [rewrite E1 in Hnull | rewrite E2 in Hnull | rewrite E3 in Hnull
          | rewrite E4 in Hnull | rewrite E5 in Hnull];
    injection Hnull as ->;
    cbn [pd.two_columns pd.rows combine map app nth_error option_map fst snd];
    rewrite !(cells_of_map_cells
                (fun c => if Json.is_null c then JStr "-" else c));
    rewrite (cells_of_reindex "Value" _ _ Hnd HV);
    reflexivity.
Qed.

(** The three tables of records of the product information. *)
Lemma product_info_shows symbol w j data info repos audits vulns :
  status_code (w (first_request (ProjectProductInfo symbol))) = 200%Z ->
  payload (w (first_request (ProjectProductInfo symbol))) = Some j ->
  Json.getitem j "data" = inr data ->
  fst (get_project_product_info symbol w)
  = inr (info, repos, audits, vulns) ->
  placeholder_shown (ProjectProductInfo symbol) data
                    [info; repos; audits; vulns].
Proof.
  intros H200 Hj Hdata Hrun.
  unfold first_request, profile_request in *.
  unfold get_project_product_info in Hrun. run_in Hrun.
  rewrite H200 in Hrun.
  change (200 =? 200)%Z with true in Hrun. cbv iota in Hrun. run_in Hrun.
  unfold response_json in Hrun. rewrite Hj in Hrun. run_in Hrun.
  rewrite Hdata in Hrun. run_in Hrun.
  destruct (Json.getpath data ["profile"; "general"; "overview";
                               "project_details"]) as [e | details];
    run_in Hrun; [discriminate Hrun |].
  destruct (Json.getpath data ["profile"; "technology"]) as [e | td] eqn:Etd;
    run_in Hrun; [discriminate Hrun |].
  destruct (Json.getpath td ["overview"; "technology_details"])
    as [e | tdetails]; run_in Hrun; [discriminate Hrun |].
  destruct (Json.getpath td ["overview"; "client_repositories"])
    as [e | rj] eqn:Erepos; run_in Hrun; [discriminate Hrun |].
  destruct (pd.DataFrame_of rj) as [e | d0] eqn:Edf; run_in Hrun;
    [discriminate Hrun |].
  destruct (pd.set_columns _ d0) as [e | d1] eqn:Eset; run_in Hrun;
    [discriminate Hrun |].
  destruct (Json.getpath td ["security"; "audits"]) as [e | aj] eqn:Eaud;
    run_in Hrun; [discriminate Hrun |].
  destruct (dated_table aj) as [e | da] eqn:Eda; run_in Hrun;
    [discriminate Hrun |].
  destruct (Json.getpath td ["security";
                             "known_exploits_and_vulnerabilities"])
    as [e | vj] eqn:Evul; run_in Hrun; [discriminate Hrun |].
  destruct (dated_table vj) as [e | dv] eqn:Edv; run_in Hrun;
    [discriminate Hrun |].
  assert (repos = pd.fillna (JStr "-") d1) as -> by congruence.
  assert (audits = da) as -> by congruence.
  assert (vulns = dv) as -> by congruence.
  clear Hrun.
  assert (forall a b v,
             Json.getpath data ["profile"; "technology"; a; b] = inr v ->
             Json.getpath td [a; b] = inr v) as Hunder.
  { intros a b v H.
    change ["profile"; "technology"; a; b]
      with (["profile"; "technology"] ++ [a; b]) in H.
    rewrite getpath_app, Etd in H. exact H. }
  unfold placeholder_shown, records_under.
  split; [| split]; intros recs Hrecs; apply Hunder in Hrecs.
  - rewrite Erepos in Hrecs.
    assert (rj = JArr (map JObj recs)) as -> by congruence.
    rewrite DataFrame_of_objects in Edf.
    assert (d0 = pd.from_records recs) as -> by congruence.
    eapply filled_table_shows. exact Eset.
  - rewrite Eaud in Hrecs.
    assert (aj = JArr (map JObj recs)) as -> by congruence.
    apply dated_table_shows, Eda.
  - rewrite Evul in Hrecs.
    assert (vj = JArr (map JObj recs)) as -> by congruence.
    apply dated_table_shows, Edv.
Qed.

(** C4, as the code has it.  Every table a call returns on a 200
    response has uniform rows: each row carries exactly the labels of the
    table.  The tables marked by [filled] (tokenomics metrics;
    repositories, audits and vulnerabilities; individuals of team and
    investors; governance; sales rounds) hold no missing cell.  And in
    those the code passes through [fillna("-")], what the payload lacks
    shows as "-": a profile value of the tokenomics that is null, and in
    the tables made of records every cell of a kept key that the record
    does not have or has as null (a date of an audit or a vulnerability
    is parsed by [pd.to_datetime] before the fill: its cell shows "-"
    when the parser leaves the missing date missing). *)
Theorem tables_uniform_and_filled s w o :
  status_code (w (first_request s)) = 200%Z ->
  fst (call s w) = inr o ->
  Forall pd.uniform (fst o)
  /\ (forall i df, nth_error (fst o) i = Some df -> filled s i = true ->
                   pd.no_nulls df)
  /\ (forall j data,
         payload (w (first_request s)) = Some j ->
         Json.getitem j "data" = inr data ->
         placeholder_shown s data (fst o)).
Proof.
  intros H200 Hrun.
  destruct (tables_uniform_and_no_nulls s w o H200 Hrun) as [U N].
  split; [exact U |]. split; [exact N |].
  intros j data Hj Hdata.
  pose proof Hrun as Hcall.
  destruct s; try exact I; unfold call, returning in Hrun; run_in Hrun.
  - (* get_tokenomics *)
    destruct (get_tokenomics symbol coingecko_symbol w)
      as [[e | [df circ]] tr] eqn:G; cbn [fst snd] in Hrun;
      [discriminate Hrun |].
    injection Hrun as <-. cbn [fst]. unfold placeholder_shown.
    intros td i path Htd Hi Hnull.
    eapply (tokenomics_null_value symbol coingecko_symbol w j data td df circ);
      eauto.
    rewrite G. reflexivity.
  - (* get_project_product_info *)
    destruct (get_project_product_info symbol w)
      as [[e | [[[info repos] audits] vulns]] tr] eqn:G;
      cbn [fst snd] in Hrun; [discriminate Hrun |].
    injection Hrun as <-. cbn [fst].
    eapply product_info_shows; eauto. rewrite G. reflexivity.
  - (* get_team *)
    destruct (get_team symbol w) as [[e | [ind org]] tr];
      cbn [fst snd] in Hrun; [discriminate Hrun |].
    injection Hrun as <-. cbn [fst]. unfold placeholder_shown.
    intros recs Hrecs.
    pose proof (people_call (Team symbol) w "contributors" ind org
                            eq_refl H200 Hcall) as Ht.
    apply individuals_show.
    eapply (people_individuals "contributors" _ j recs ind org Hj); eauto.
    rewrite getpath_cons, Hdata. exact Hrecs.
  - (* get_investors *)
    destruct (get_investors symbol w) as [[e | [ind org]] tr];
      cbn [fst snd] in Hrun; [discriminate Hrun |].
    injection Hrun as <-. cbn [fst]. unfold placeholder_shown.
    intros recs Hrecs.
    pose proof (people_call (Investors symbol) w "investors" ind org
                            eq_refl H200 Hcall) as Ht.
    apply individuals_show.
    eapply (people_individuals "investors" _ j recs ind org Hj); eauto.
    rewrite getpath_cons, Hdata. exact Hrecs.
  - (* get_fundraising *)
    unfold first_request, profile_request in *.
    unfold get_fundraising in Hrun. run_in Hrun. rewrite H200 in Hrun.
    change (200 =? 200)%Z with true in Hrun. cbv iota in Hrun. run_in Hrun.
    match type of Hrun with
    | context [fundraising_tables ?r] =>
        destruct (fundraising_tables r)
          as [e | [[[details rounds] accounts] distribution]] eqn:Ht
    end; cbn [fst] in Hrun; [discriminate Hrun |].
    injection Hrun as <-. cbn [fst]. unfold placeholder_shown.
    intros recs Hrecs.
    apply sales_rounds_show.
    eapply (fundraising_sales_rounds _ j recs details rounds accounts
                                     distribution Hj); eauto.
    rewrite getpath_cons, Hdata. exact Hrecs.
Qed.

End Messari.

(* ===================================================================== *)
(** ** Sample runs *)
(* ===================================================================== *)

(** The module with the helpers and the key of [Sample]. *)
Abbreviation sample_call :=
  (call Sample.key Sample.lambda_replace_underscores_in_column_names
        Sample.prettify_column_names Sample.lambda_long_number_format
        Sample.get_coin_tokenomics Sample.to_datetime Sample.to_datetime_ms
        Sample.py_repr).

Abbreviation sample_request := (first_request Sample.key).

(** *** C1 *)



(** *** C2 *)

(** The claim of C2 fails for [get_project_product_info]: its request
    carries an empty key, and it is not the tokenomics shaper. *)
Lemma product_info_sends_empty_key :
  ~ key_attached
      Sample.key Sample.lambda_replace_underscores_in_column_names
      Sample.prettify_column_names Sample.lambda_long_number_format
      Sample.get_coin_tokenomics Sample.to_datetime Sample.to_datetime_ms
      Sample.py_repr (ProjectProductInfo "btc")
      (Sample.always Sample.invalid_401).
Proof.
  intros H.
  specialize (H (sample_request (ProjectProductInfo "btc"))
                (or_introl eq_refl)).
  destruct H as [H | (symbol & coingecko_symbol & H & _)]; discriminate H.
Qed.

(** [get_available_timeseries] sends no header at all. *)
Lemma catalogue_sends_no_key :
  ~ key_attached
      Sample.key Sample.lambda_replace_underscores_in_column_names
      Sample.prettify_column_names Sample.lambda_long_number_format
      Sample.get_coin_tokenomics Sample.to_datetime Sample.to_datetime_ms
      Sample.py_repr AvailableTimeseries
      (Sample.always Sample.invalid_401).
Proof.
  intros H.
  specialize (H (sample_request AvailableTimeseries) (or_introl eq_refl)).
  destruct H as [H | (symbol & coingecko_symbol & H & _)]; discriminate H.
Qed.

Lemma request_headers_witness :
  In (Get (sample_request (ProjectProductInfo "btc")))
     (snd (sample_call (ProjectProductInfo "btc")
                       (Sample.always Sample.invalid_401)))
  /\ ((sample_request (ProjectProductInfo "btc")
       = sample_request (ProjectProductInfo "btc")
       /\ headers (sample_request (ProjectProductInfo "btc"))
          = opening_headers Sample.key (ProjectProductInfo "btc"))
      \/ exists symbol coingecko_symbol,
          ProjectProductInfo "btc" = Tokenomics symbol coingecko_symbol
          /\ sample_request (ProjectProductInfo "btc")
             = timeseries_request Sample.key symbol "sply.circ" "1d" "" ""
          /\ headers (sample_request (ProjectProductInfo "btc"))
             = auth_headers Sample.key).
Proof.
  split; [left; reflexivity |].
  exact (request_headers
           Sample.key Sample.lambda_replace_underscores_in_column_names
           Sample.prettify_column_names Sample.lambda_long_number_format
           Sample.get_coin_tokenomics Sample.to_datetime Sample.to_datetime_ms
           Sample.py_repr (ProjectProductInfo "btc")
           (Sample.always Sample.invalid_401)
           (sample_request (ProjectProductInfo "btc"))
           (or_introl eq_refl)).
Defined.

(** *** C3 *)

(** C3 at its failing input.  The roadmap of the 200 response has no
    milestone: [get_roadmap] does not return the empty table, the
    unguarded [df["date"]] raises [KeyError]. *)
Theorem roadmap_without_milestones_raises :
  get_roadmap Sample.key Sample.to_datetime "btc"
              (Sample.always (Sample.ok Sample.empty_roadmap_body))
  = (inl (KeyError "date"), [Get (sample_request (Roadmap "btc"))]).
Proof. vm_compute. reflexivity. Qed.

(** The catalogue fails the same way on a list of no metric, at the
    unguarded [set_index("id")]. *)
Lemma catalogue_without_metrics_raises :
  get_available_timeseries
    (Sample.always (Sample.ok Sample.empty_catalogue_body))
  = (inl (KeyError "None of ['id'] are in the columns"),
     [Get catalogue_request]).
Proof. vm_compute. reflexivity. Qed.

(** The sibling that guards: a list of no audit gives the empty table. *)
Lemma audits_without_entries_return_empty :
  dated_table Sample.prettify_column_names Sample.to_datetime (JArr [])
  = inr pd.empty_frame.
Proof. vm_compute. reflexivity. Qed.

(** *** C4 *)

(** The claim of C4 fails for [get_links]: the null target of the link is
    still null in the table returned. *)
Lemma links_keep_null :
  ~ null_free_tables
      Sample.key Sample.lambda_replace_underscores_in_column_names
      Sample.prettify_column_names Sample.lambda_long_number_format
      Sample.get_coin_tokenomics Sample.to_datetime Sample.to_datetime_ms
      Sample.py_repr (Links "btc")
      (Sample.always (Sample.ok Sample.links_body)).
Proof.
  intros H. specialize (H eq_refl _ eq_refl).
  apply Forall_inv in H. destruct H as [_ H].
  apply Forall_inv in H. apply Forall_inv_tail in H. apply Forall_inv in H.
  apply H. reflexivity.
Qed.

Lemma tables_uniform_and_filled_witness :
  status_code (Sample.always (Sample.ok Sample.staff_body)
                 (sample_request (Team "btc"))) = 200%Z
  /\ fst (sample_call (Team "btc")
                      (Sample.always (Sample.ok Sample.staff_body)))
     = inr ([Sample.staff_individuals; pd.empty_frame], [])
  /\ payload (Sample.always (Sample.ok Sample.staff_body)
                (sample_request (Team "btc")))
     = Some (JObj [("data", Sample.staff_body)])
  /\ Json.getitem (JObj [("data", Sample.staff_body)]) "data"
     = inr Sample.staff_body
  /\ Forall pd.uniform [Sample.staff_individuals; pd.empty_frame]
  /\ (forall i df,
         nth_error [Sample.staff_individuals; pd.empty_frame] i = Some df ->
         filled (Team "btc") i = true -> pd.no_nulls df)
  /\ placeholder_shown Sample.to_datetime (Team "btc") Sample.staff_body
                       [Sample.staff_individuals; pd.empty_frame].
Proof.
  split; [reflexivity |]. do 3 (split; [vm_compute; reflexivity |]).
  destruct (tables_uniform_and_filled
              Sample.key Sample.lambda_replace_underscores_in_column_names
              Sample.prettify_column_names Sample.lambda_long_number_format
              Sample.get_coin_tokenomics Sample.to_datetime
              Sample.to_datetime_ms Sample.py_repr (Team "btc")
              (Sample.always (Sample.ok Sample.staff_body))
              ([Sample.staff_individuals; pd.empty_frame], [])
              eq_refl eq_refl)
    as (U & N & P).
  split; [exact U |]. split; [exact N |].
  exact (P (JObj [("data", Sample.staff_body)]) Sample.staff_body
           eq_refl eq_refl).
Defined.

(** *** C5 *)

Lemma empty_timeseries_notice_witness :
  status_code
    (Sample.always (Sample.ok Sample.empty_timeseries_body)
       (timeseries_request Sample.key "btc" "sply.circ" "1d" "" ""))
  = 200%Z
  /\ payload
       (Sample.always (Sample.ok Sample.empty_timeseries_body)
          (timeseries_request Sample.key "btc" "sply.circ" "1d" "" ""))
     = Some (JObj [("data", Sample.empty_timeseries_body)])
  /\ Json.getitem (JObj [("data", Sample.empty_timeseries_body)]) "data"
     = inr Sample.empty_timeseries_body
  /\ Json.getpath Sample.empty_timeseries_body ["schema"; "name"]
     = inr (JStr "Circulating Supply")
  /\ Json.getitem Sample.empty_timeseries_body "values" = inr (JArr [])
  /\ Json.getpath Sample.empty_timeseries_body ["parameters"; "columns"]
     = inr (JArr [JStr "timestamp"; JStr "supply"])
  /\ pd.as_labels [JStr "timestamp"; JStr "supply"]
     = Some ["timestamp"; "supply"]
  /\ (get_messari_timeseries Sample.key Sample.to_datetime_ms
                             "btc" "sply.circ" "1d" "" ""
        (Sample.always (Sample.ok Sample.empty_timeseries_body))
      = (inr (pd.mkDF ["timestamp"; "supply"] pd.RangeIndex [],
              JStr "Circulating Supply"),
         [Get (timeseries_request Sample.key "btc" "sply.circ" "1d" "" "");
          ConsolePrint ("No data found for " ++ "btc" ++ "." ++ LF)%string])
      /\ pd.empty (pd.mkDF ["timestamp"; "supply"] pd.RangeIndex []) = true
      /\ Py.contains "btc" ("No data found for " ++ "btc" ++ "." ++ LF)%string
         = true).
Proof.
  do 7 (split; [reflexivity |]).
  exact (empty_timeseries_notice
           Sample.key Sample.to_datetime_ms "btc" "sply.circ" "1d" "" ""
           (Sample.always (Sample.ok Sample.empty_timeseries_body))
           (JObj [("data", Sample.empty_timeseries_body)])
           Sample.empty_timeseries_body (JStr "Circulating Supply")
           [JStr "timestamp"; JStr "supply"] ["timestamp"; "supply"]
           eq_refl eq_refl eq_refl eq_refl eq_refl eq_refl eq_refl).
Defined.

(** *** C7 *)

Lemma available_timeseries_catalogue_witness :
  status_code (Sample.always (Sample.ok Sample.catalogue_body)
                             catalogue_request) = 200%Z
  /\ payload (Sample.always (Sample.ok Sample.catalogue_body)
                            catalogue_request)
     = Some (JObj [("data", Sample.catalogue_body)])
  /\ Json.getpath (JObj [("data", Sample.catalogue_body)]) ["data"; "metrics"]
     = inr (JArr (map JObj [Sample.price_metric; Sample.flow_metric]))
  /\ [Sample.price_metric; Sample.flow_metric] <> []
  /\ forallb well_formed_metric [Sample.price_metric; Sample.flow_metric]
     = true
  /\ get_available_timeseries (Sample.always (Sample.ok Sample.catalogue_body))
     = (inr (pd.mkDF
               ["Title"; "Description"; "Requires Paid Key"; "Sources"]
               (pd.LabelIndex "id" [JStr "price"; JStr "exch.flow.in"])
               [[("Title", JStr "Price");
                 ("Description", JStr "Volume weighted average price");
                 ("Requires Paid Key", JBool false);
                 ("Sources", JStr "Kaiko,Coinmetrics")];
                [("Title", JStr "Exchange Inflow");
                 ("Description", JStr "Deposits to exchanges");
                 ("Requires Paid Key", JBool true);
                 ("Sources", JStr "")]]),
        [Get catalogue_request]).
Proof.
  split; [reflexivity |]. split; [reflexivity |]. split; [reflexivity |].
  split; [discriminate |]. split; [reflexivity |].
  exact (proj1 (available_timeseries_catalogue
                  (Sample.always (Sample.ok Sample.catalogue_body))
                  (JObj [("data", Sample.catalogue_body)])
                  [Sample.price_metric; Sample.flow_metric]
                  eq_refl eq_refl eq_refl
                  (fun H => eq_ind [Sample.price_metric; Sample.flow_metric]
                              (fun l => match l with
                                        | [] => False
                                        | _ :: _ => True
                                        end) I [] H)
                  eq_refl)).
Defined.

(** *** C8 *)

Lemma sales_round_dates_split_witness :
  Sample.lambda_replace_underscores_in_column_names "start_date"
  = "Start Date"
  /\ Sample.lambda_replace_underscores_in_column_names "end_date" = "End Date"
  /\ status_code (Sample.always (Sample.ok Sample.launch_body)
                    (sample_request (Fundraising "btc"))) = 200%Z
  /\ payload (Sample.always (Sample.ok Sample.launch_body)
                (sample_request (Fundraising "btc")))
     = Some (JObj [("data", Sample.launch_body)])
  /\ Json.getpath (JObj [("data", Sample.launch_body)])
                  ["data"; "profile"; "economics"; "launch"; "fundraising";
                   "sales_rounds"]
     = inr (JArr (map JObj [Sample.seed_round]))
  /\ fst (get_fundraising
            Sample.key Sample.lambda_replace_underscores_in_column_names
            Sample.lambda_long_number_format Sample.py_repr "btc"
            (Sample.always (Sample.ok Sample.launch_body)))
     = inr (JStr "Fair launch", Sample.sales_rounds, pd.empty_frame,
            Sample.distribution)
  /\ pd.empty Sample.sales_rounds = false
  /\ nth_error [Sample.seed_round] 0 = Some Sample.seed_round
  /\ Json.lookup "start_date" Sample.seed_round
     = Some (JStr "2021-06-01T00:00:00Z")
  /\ pd.cell Sample.sales_rounds 0 "Start Date" = [JStr "2021-06-01"].
Proof.
  do 9 (split; [vm_compute; reflexivity |]).
  exact (proj1 (sales_round_dates_split
                  Sample.key Sample.lambda_replace_underscores_in_column_names
                  Sample.lambda_long_number_format Sample.py_repr "btc"
                  (Sample.always (Sample.ok Sample.launch_body))
                  (JObj [("data", Sample.launch_body)])
                  [Sample.seed_round]
                  (JStr "Fair launch") Sample.sales_rounds pd.empty_frame
                  Sample.distribution
                  eq_refl eq_refl eq_refl eq_refl eq_refl eq_refl eq_refl
                  0 Sample.seed_round eq_refl)
               "2021-06-01T00:00:00Z" eq_refl).
Defined.

(** *** C9 *)

Lemma individuals_name_synthesis_witness :
  people_key (Team "btc") = Some "contributors"
  /\ status_code (Sample.always (Sample.ok Sample.team_body)
                    (sample_request (Team "btc"))) = 200%Z
  /\ payload (Sample.always (Sample.ok Sample.team_body)
                (sample_request (Team "btc")))
     = Some (JObj [("data", Sample.team_body)])
  /\ Json.getpath (JObj [("data", Sample.team_body)])
                  ["data"; "profile"; "contributors"; "individuals"]
     = inr (JArr (map JObj [Sample.ada; Sample.anonymous]))
  /\ fst (sample_call (Team "btc")
                      (Sample.always (Sample.ok Sample.team_body)))
     = inr ([Sample.team_individuals; pd.empty_frame], [])
  /\ pd.empty Sample.team_individuals = false
  /\ nth_error [Sample.ada; Sample.anonymous] 0 = Some Sample.ada
  /\ Json.lookup "first_name" Sample.ada = Some (JStr "Ada")
  /\ Json.lookup "last_name" Sample.ada = Some (JStr "Lovelace")
  /\ (exists rest,
         nth_error (pd.rows Sample.team_individuals) 0
         = Some (("Name", JStr "Ada Lovelace") :: rest))
  /\ pd.columns Sample.team_individuals = ["Name"; "Title"].
Proof.
  do 9 (split; [vm_compute; reflexivity |]).
  destruct (individuals_name_synthesis
              Sample.key Sample.lambda_replace_underscores_in_column_names
              Sample.prettify_column_names
              Sample.lambda_long_number_format
              Sample.get_coin_tokenomics Sample.to_datetime
              Sample.to_datetime_ms Sample.py_repr
              (Team "btc") (Sample.always (Sample.ok Sample.team_body))
              "contributors" (JObj [("data", Sample.team_body)])
              [Sample.ada; Sample.anonymous]
              Sample.team_individuals pd.empty_frame "Ada" "Lovelace"
              eq_refl eq_refl eq_refl eq_refl eq_refl eq_refl)
    as (Hname & _ & _ & _ & _ & Hcolumns).
  split; [exact (Hname 0 Sample.ada eq_refl eq_refl eq_refl)
         | exact Hcolumns].
Defined.

(** *** C10 *)

Lemma missing_names_are_filled_witness :
  people_key (Team "btc") = Some "contributors"
  /\ status_code (Sample.always (Sample.ok Sample.team_body)
                    (sample_request (Team "btc"))) = 200%Z
  /\ payload (Sample.always (Sample.ok Sample.team_body)
                (sample_request (Team "btc")))
     = Some (JObj [("data", Sample.team_body)])
  /\ Json.getitem (JObj [("data", Sample.team_body)]) "data"
     = inr Sample.team_body
  /\ Json.getpath Sample.team_body ["profile"; "contributors"; "individuals"]
     = inr (JArr (map JObj [Sample.ada; Sample.anonymous]))
  /\ Json.getpath Sample.team_body ["profile"; "contributors"; "organizations"]
     = inr (JArr (map JObj []))
  /\ people_records [Sample.ada; Sample.anonymous] = true
  /\ Json.lookup "first_name" Sample.anonymous = Some JNull
  /\ exists ind org,
      sample_call (Team "btc") (Sample.always (Sample.ok Sample.team_body))
      = (inr ([ind; org], []), [Get (sample_request (Team "btc"))])
      /\ forall i rec,
          nth_error [Sample.ada; Sample.anonymous] i = Some rec ->
          exists rest,
            nth_error (pd.rows ind) i
            = Some (("Name",
                     JStr (name_part (pd.cell_of rec "first_name") ++ " "
                           ++ name_part (pd.cell_of rec "last_name"))%string)
                      :: rest).
Proof.
  do 8 (split; [vm_compute; reflexivity |]).
  exact (missing_names_are_filled
           Sample.key Sample.lambda_replace_underscores_in_column_names
           Sample.prettify_column_names Sample.lambda_long_number_format
           Sample.get_coin_tokenomics Sample.to_datetime Sample.to_datetime_ms
           Sample.py_repr
           (Team "btc") (Sample.always (Sample.ok Sample.team_body))
           "contributors" (JObj [("data", Sample.team_body)])
           Sample.team_body [Sample.ada; Sample.anonymous]
           (JArr (map JObj []))
           eq_refl eq_refl eq_refl eq_refl eq_refl eq_refl
           (or_intror (ex_intro _ [] eq_refl)) eq_refl).
Defined.

(** The second row of the sample team: the missing first name stands as
    "-" in the name. *)
Lemma anonymous_contributor_is_named :
  nth_error (pd.rows Sample.team_individuals) 1
  = Some [("Name", JStr "- Lovelace"); ("Title", JStr "Engineer")].
Proof. reflexivity. Qed.

(** *** Further properties *)

Lemma governance_summary_has_no_tag_witness :
  status_code (Sample.always (Sample.ok Sample.governance_body)
                 (sample_request (Governance "btc"))) = 200%Z
  /\ payload (Sample.always (Sample.ok Sample.governance_body)
                (sample_request (Governance "btc")))
     = Some (JObj [("data", Sample.governance_body)])
  /\ Json.getpath (JObj [("data", Sample.governance_body)])
                  ["data"; "profile"; "governance"; "governance_details"]
     = inr (JStr "Voting is <b>off-chain</b>.")
  /\ fst (get_governance Sample.key "btc"
            (Sample.always (Sample.ok Sample.governance_body)))
     = inr ("Voting is off-chain.",
            pd.two_columns "Metric" [JStr "Type"; JStr "Details"]
                           "Value" [JStr "Delegative";
                                    JStr "Token holders delegate"])
  /\ ("Voting is off-chain." = Py.strip_tags "Voting is <b>off-chain</b>."
      /\ tag_free "Voting is off-chain." = true
      /\ (tag_free "Voting is <b>off-chain</b>." = true ->
          "Voting is off-chain." = "Voting is <b>off-chain</b>.")).
Proof.
  do 4 (split; [vm_compute; reflexivity |]).
  exact (governance_summary_has_no_tag
           Sample.key "btc" (Sample.always (Sample.ok Sample.governance_body))
           (JObj [("data", Sample.governance_body)])
           "Voting is <b>off-chain</b>." "Voting is off-chain."
           (pd.two_columns "Metric" [JStr "Type"; JStr "Details"]
                           "Value" [JStr "Delegative";
                                    JStr "Token holders delegate"])
           eq_refl eq_refl eq_refl eq_refl).
Defined.

Lemma governance_table_shape_witness :
  status_code (Sample.always (Sample.ok Sample.governance_body)
                 (sample_request (Governance "btc"))) = 200%Z
  /\ payload (Sample.always (Sample.ok Sample.governance_body)
                (sample_request (Governance "btc")))
     = Some (JObj [("data", Sample.governance_body)])
  /\ Json.getpath (JObj [("data", Sample.governance_body)])
                  ["data"; "profile"; "governance"; "onchain_governance"]
     = inr Sample.governance_onchain
  /\ Json.getitem Sample.governance_onchain "onchain_governance_type"
     = inr (JStr "Delegative")
  /\ fst (get_governance Sample.key "btc"
            (Sample.always (Sample.ok Sample.governance_body)))
     = inr ("Voting is off-chain.",
            pd.two_columns "Metric" [JStr "Type"; JStr "Details"]
                           "Value" [JStr "Delegative";
                                    JStr "Token holders delegate"])
  /\ exists details,
      Json.getitem Sample.governance_onchain "onchain_governance_details"
      = inr details
      /\ pd.two_columns "Metric" [JStr "Type"; JStr "Details"]
                        "Value" [JStr "Delegative";
                                 JStr "Token holders delegate"]
         = if Json.is_null details then pd.empty_frame
           else pd.two_columns "Metric" [JStr "Type"; JStr "Details"]
                               "Value" [JStr "Delegative"; details].
Proof.
  do 5 (split; [vm_compute; reflexivity |]).
  exact (proj2 (governance_table_shape
                  Sample.key "btc"
                  (Sample.always (Sample.ok Sample.governance_body))
                  (JObj [("data", Sample.governance_body)])
                  Sample.governance_onchain (JStr "Delegative")
                  "Voting is off-chain."
                  (pd.two_columns "Metric" [JStr "Type"; JStr "Details"]
                                  "Value" [JStr "Delegative";
                                           JStr "Token holders delegate"])
                  eq_refl eq_refl eq_refl eq_refl eq_refl)
               eq_refl).
Defined.

Lemma format_addresses_app_witness :
  format_addresses Sample.py_repr
    (JArr [JObj [("name", JStr "Treasury"); ("link", JStr "0xabc")]])
  = inr (JStr "Treasury: 0xabc")
  /\ format_addresses Sample.py_repr
       (JArr [JObj [("name", JStr "Reserve"); ("link", JNull)]])
     = inr (JStr "Reserve: None")
  /\ format_addresses Sample.py_repr
       (JArr ([JObj [("name", JStr "Treasury"); ("link", JStr "0xabc")]]
                ++ [JObj [("name", JStr "Reserve"); ("link", JNull)]]))
     = inr (JStr ("Treasury: 0xabc" ++ "Reserve: None")%string).
Proof.
  split; [reflexivity |]. split; [reflexivity |].
  exact (format_addresses_app
           Sample.py_repr
           [JObj [("name", JStr "Treasury"); ("link", JStr "0xabc")]]
           [JObj [("name", JStr "Reserve"); ("link", JNull)]]
           "Treasury: 0xabc" "Reserve: None" eq_refl eq_refl).
Defined.


Lemma distribution_genesis_date_witness :
  launch_distribution Sample.lambda_long_number_format
                      Sample.dated_launch (JStr "ICO")
  = inr Sample.dated_distribution
  /\ Json.getpath Sample.dated_launch
                  ["initial_distribution"; "genesis_block_date"]
     = inr (JStr "2009-01-03T18:15:05Z")
  /\ List.length (pd.rows Sample.dated_distribution) = 6
  /\ pd.cell Sample.dated_distribution 1 "Value" = [JStr "ICO"]
  /\ (Json.truthy (JStr "2009-01-03T18:15:05Z") = false ->
      pd.cell Sample.dated_distribution 0 "Value" = [JStr "-"])
  /\ (Json.truthy (JStr "2009-01-03T18:15:05Z") = true ->
      exists s, JStr "2009-01-03T18:15:05Z" = JStr s
                /\ pd.cell Sample.dated_distribution 0 "Value"
                   = [JStr (Py.split_first "T" s)]).
Proof.
  do 2 (split; [vm_compute; reflexivity |]).
  exact (distribution_genesis_date
           Sample.lambda_long_number_format Sample.dated_launch (JStr "ICO")
           Sample.dated_distribution (JStr "2009-01-03T18:15:05Z")
           eq_refl eq_refl).
Defined.

Lemma treasury_accounts_need_columns_witness :
  pd.empty Sample.accounts_without_security = false
  /\ ~ In "Security"
          (map Sample.lambda_replace_underscores_in_column_names
               (pd.columns Sample.accounts_without_security))
  /\ NoDup (map Sample.lambda_replace_underscores_in_column_names
                (pd.columns Sample.accounts_without_security))
  /\ shape_treasury_accounts
       Sample.lambda_replace_underscores_in_column_names Sample.py_repr
       Sample.accounts_without_security
     = inl (KeyError "['Security'] not found in axis").
Proof.
  assert (~ In "Security"
            (map Sample.lambda_replace_underscores_in_column_names
                 (pd.columns Sample.accounts_without_security))) as H
      by (vm_compute; intros [H | [H | [H | []]]]; discriminate H).
  assert (NoDup (map Sample.lambda_replace_underscores_in_column_names
                     (pd.columns Sample.accounts_without_security))) as ND
      by (apply (has_dup_NoDup
                   (map Sample.lambda_replace_underscores_in_column_names
                        (pd.columns Sample.accounts_without_security)));
          vm_compute; reflexivity).
  split; [vm_compute; reflexivity |]. split; [exact H |].
  split; [exact ND |].
  destruct (treasury_accounts_need_columns
              Sample.lambda_replace_underscores_in_column_names
              Sample.py_repr
              Sample.accounts_without_security eq_refl (or_intror H))
    as (msg & Hraise & Hmsg).
  rewrite Hraise, (Hmsg ND). vm_compute. reflexivity.
Defined.


Lemma sales_round_dates_carry_no_time_witness :
  status_code (Sample.always (Sample.ok Sample.launch_body)
                 (sample_request (Fundraising "btc"))) = 200%Z
  /\ payload (Sample.always (Sample.ok Sample.launch_body)
                (sample_request (Fundraising "btc")))
     = Some (JObj [("data", Sample.launch_body)])
  /\ Json.getpath (JObj [("data", Sample.launch_body)])
                  ["data"; "profile"; "economics"; "launch"; "fundraising";
                   "sales_rounds"]
     = inr (JArr (map JObj [Sample.seed_round]))
  /\ fst (get_fundraising
            Sample.key Sample.lambda_replace_underscores_in_column_names
            Sample.lambda_long_number_format Sample.py_repr "btc"
            (Sample.always (Sample.ok Sample.launch_body)))
     = inr (JStr "Fair launch", Sample.sales_rounds, pd.empty_frame,
            Sample.distribution)
  /\ pd.empty Sample.sales_rounds = false
  /\ List.length (pd.rows Sample.sales_rounds)
     = List.length [Sample.seed_round]
  /\ forall i, i < List.length [Sample.seed_round] ->
               exists d1 d2,
                 pd.cell Sample.sales_rounds i "Start Date" = [JStr d1]
                 /\ pd.cell Sample.sales_rounds i "End Date" = [JStr d2]
                 /\ Py.contains "T" d1 = false
                 /\ Py.contains "T" d2 = false.
Proof.
  do 5 (split; [vm_compute; reflexivity |]).
  exact (sales_round_dates_carry_no_time
           Sample.key Sample.lambda_replace_underscores_in_column_names
           Sample.lambda_long_number_format Sample.py_repr "btc"
           (Sample.always (Sample.ok Sample.launch_body))
           (JObj [("data", Sample.launch_body)])
           [Sample.seed_round]
           (JStr "Fair launch") Sample.sales_rounds pd.empty_frame
           Sample.distribution
           eq_refl eq_refl eq_refl eq_refl eq_refl).
Defined.

Lemma sales_round_columns_witness :
  status_code (Sample.always (Sample.ok Sample.launch_body)
                 (sample_request (Fundraising "btc"))) = 200%Z
  /\ payload (Sample.always (Sample.ok Sample.launch_body)
                (sample_request (Fundraising "btc")))
     = Some (JObj [("data", Sample.launch_body)])
  /\ Json.getpath (JObj [("data", Sample.launch_body)])
                  ["data"; "profile"; "economics"; "launch"; "fundraising";
                   "sales_rounds"]
     = inr (JArr (map JObj [Sample.seed_round]))
  /\ fst (get_fundraising
            Sample.key Sample.lambda_replace_underscores_in_column_names
            Sample.lambda_long_number_format Sample.py_repr "btc"
            (Sample.always (Sample.ok Sample.launch_body)))
     = inr (JStr "Fair launch", Sample.sales_rounds, pd.empty_frame,
            Sample.distribution)
  /\ pd.empty Sample.sales_rounds = false
  /\ pd.columns Sample.sales_rounds
     = map (pd.rename_label
              [("Native Tokens Allocated", "Tokens Allocated");
               ("Equivalent Price Per Token In Usd", "Price [$]");
               ("Amount Collected In Usd", "Amount Collected [$]")])
           (map Sample.lambda_replace_underscores_in_column_names
                (filter (fun k => negb (pd.mem k ["details"; "asset_collected";
                                                  "price_per_token_in_asset";
                                                  "amount_collected_in_asset";
                                                  "is_kyc_required";
                                                  "restricted_jurisdictions"]))
                        (pd.union_keys [Sample.seed_round]))).
Proof.
  do 5 (split; [vm_compute; reflexivity |]).
  exact (sales_round_columns
           Sample.key Sample.lambda_replace_underscores_in_column_names
           Sample.lambda_long_number_format Sample.py_repr "btc"
           (Sample.always (Sample.ok Sample.launch_body))
           (JObj [("data", Sample.launch_body)])
           [Sample.seed_round]
           (JStr "Fair launch") Sample.sales_rounds pd.empty_frame
           Sample.distribution
           eq_refl eq_refl eq_refl eq_refl eq_refl).
Defined.


Lemma organizations_drop_slug_and_logo_witness :
  people_key (Investors "btc") = Some "investors"
  /\ status_code (Sample.always (Sample.ok Sample.investors_body)
                    (sample_request (Investors "btc"))) = 200%Z
  /\ payload (Sample.always (Sample.ok Sample.investors_body)
                (sample_request (Investors "btc")))
     = Some (JObj [("data", Sample.investors_body)])
  /\ Json.getitem (JObj [("data", Sample.investors_body)]) "data"
     = inr Sample.investors_body
  /\ Json.getpath Sample.investors_body
                  ["profile"; "investors"; "individuals"]
     = inr (JArr (map JObj [Sample.ada]))
  /\ Json.getpath Sample.investors_body
                  ["profile"; "investors"; "organizations"]
     = inr (JArr (map JObj [Sample.fund]))
  /\ fst (sample_call (Investors "btc")
                      (Sample.always (Sample.ok Sample.investors_body)))
     = inr ([Sample.investor_individuals; Sample.investor_organizations], [])
  /\ pd.empty Sample.investor_organizations = false
  /\ ~ In "slug" (pd.columns Sample.investor_organizations)
  /\ ~ In "logo" (pd.columns Sample.investor_organizations)
  /\ pd.columns Sample.investor_organizations
     = map Py.capitalize
           (filter (fun k => negb (pd.mem k ["slug"; "logo"]))
                   (pd.union_keys [Sample.fund])).
Proof.
  do 8 (split; [vm_compute; reflexivity |]).
  exact (organizations_drop_slug_and_logo
           Sample.key Sample.lambda_replace_underscores_in_column_names
           Sample.prettify_column_names Sample.lambda_long_number_format
           Sample.get_coin_tokenomics Sample.to_datetime
           Sample.to_datetime_ms Sample.py_repr
           (Investors "btc")
           (Sample.always (Sample.ok Sample.investors_body))
           "investors" (JObj [("data", Sample.investors_body)])
           Sample.investors_body [Sample.ada] [Sample.fund]
           Sample.investor_individuals Sample.investor_organizations
           eq_refl eq_refl eq_refl eq_refl eq_refl eq_refl eq_refl eq_refl).
Defined.

Lemma roadmap_needs_dates_witness :
  status_code (Sample.always (Sample.ok Sample.undated_roadmap_body)
                 (sample_request (Roadmap "btc"))) = 200%Z
  /\ payload (Sample.always (Sample.ok Sample.undated_roadmap_body)
                (sample_request (Roadmap "btc")))
     = Some (JObj [("data", Sample.undated_roadmap_body)])
  /\ Json.getpath (JObj [("data", Sample.undated_roadmap_body)])
                  ["data"; "profile"; "general"; "roadmap"]
     = inr (JArr (map JObj [Sample.undated_milestone]))
  /\ has_column "date" [Sample.undated_milestone] = false
  /\ get_roadmap Sample.key Sample.to_datetime "btc"
                 (Sample.always (Sample.ok Sample.undated_roadmap_body))
     = (inl (KeyError "date"), [Get (sample_request (Roadmap "btc"))]).
Proof.
  do 4 (split; [vm_compute; reflexivity |]).
  exact (roadmap_needs_dates
           Sample.key Sample.lambda_replace_underscores_in_column_names
           Sample.prettify_column_names Sample.lambda_long_number_format
           Sample.get_coin_tokenomics Sample.to_datetime
           Sample.to_datetime_ms Sample.py_repr
           "btc" (Sample.always (Sample.ok Sample.undated_roadmap_body))
           (JObj [("data", Sample.undated_roadmap_body)])
           [Sample.undated_milestone]
           eq_refl eq_refl eq_refl eq_refl).
Defined.

Lemma links_of_nothing_witness :
  status_code (Sample.always (Sample.ok Sample.no_links_body)
                 (sample_request (Links "btc"))) = 200%Z
  /\ payload (Sample.always (Sample.ok Sample.no_links_body)
                (sample_request (Links "btc")))
     = Some (JObj [("data", Sample.no_links_body)])
  /\ Json.getpath (JObj [("data", Sample.no_links_body)])
                  ["data"; "profile"; "general"; "overview";
                   "official_links"]
     = inr (JArr [])
  /\ get_links Sample.key "btc"
               (Sample.always (Sample.ok Sample.no_links_body))
     = (inr pd.empty_frame, [Get (sample_request (Links "btc"))]).
Proof.
  do 3 (split; [vm_compute; reflexivity |]).
  exact (links_of_nothing
           Sample.key "btc" (Sample.always (Sample.ok Sample.no_links_body))
           (JObj [("data", Sample.no_links_body)]) (JArr [])
           eq_refl eq_refl eq_refl (or_introl eq_refl)).
Defined.

Lemma catalogue_rejects_incomplete_metrics_witness :
  status_code (Sample.always (Sample.ok Sample.partial_catalogue_body)
                 catalogue_request) = 200%Z
  /\ payload (Sample.always (Sample.ok Sample.partial_catalogue_body)
                catalogue_request)
     = Some (JObj [("data", Sample.partial_catalogue_body)])
  /\ Json.getpath (JObj [("data", Sample.partial_catalogue_body)])
                  ["data"; "metrics"]
     = inr (JArr (map JObj [Sample.price_metric; Sample.undescribed_metric]))
  /\ forallb has_catalogue_keys
             [Sample.price_metric; Sample.undescribed_metric] = false
  /\ exists e,
      get_available_timeseries
        (Sample.always (Sample.ok Sample.partial_catalogue_body))
      = (inl e, [Get catalogue_request]).
Proof.
  do 4 (split; [vm_compute; reflexivity |]).
  exact (catalogue_rejects_incomplete_metrics
           (Sample.always (Sample.ok Sample.partial_catalogue_body))
           (JObj [("data", Sample.partial_catalogue_body)])
           [Sample.price_metric; Sample.undescribed_metric]
           eq_refl eq_refl eq_refl eq_refl).
Defined.


Lemma tokenomics_metric_rows_witness :
  status_code (Sample.tokenomics_world
                 (sample_request (Tokenomics "btc" "bitcoin"))) = 200%Z
  /\ payload (Sample.tokenomics_world
                (sample_request (Tokenomics "btc" "bitcoin")))
     = Some (JObj [("data", Sample.tokenomics_body)])
  /\ Json.getpath (JObj [("data", Sample.tokenomics_body)])
                  ["data"; "profile"; "economics"; "consensus_and_emission"]
     = inr Sample.consensus_body
  /\ Json.getpath Sample.consensus_body ["supply"; "general_emission_type"]
     = inr (JStr "Deflationary")
  /\ Json.getpath Sample.consensus_body
                  ["consensus"; "general_consensus_mechanism"]
     = inr (JStr "Proof-of-Work")
  /\ Json.getpath Sample.consensus_body ["consensus"; "consensus_details"]
     = inr (JStr "n/a")
  /\ Json.getpath Sample.consensus_body ["consensus"; "mining_algorithm"]
     = inr JNull
  /\ Json.getpath Sample.consensus_body ["consensus"; "block_reward"]
     = inr (JNum 6)
  /\ fst (get_tokenomics Sample.key Sample.get_coin_tokenomics
                         Sample.to_datetime "btc" "bitcoin"
                         Sample.tokenomics_world)
     = inr (Sample.tokenomics_table, Sample.supply_table)
  /\ nth_error (combine tokenomics_metrics
                        [JStr "Deflationary"; JStr "Proof-of-Work";
                         JStr "n/a"; JNull; JNum 6]) 2
     = Some ("Consensus Details", JStr "n/a")
  /\ pd.cell Sample.tokenomics_table 2 "Metric" = [JStr "Consensus Details"]
  /\ pd.cell Sample.tokenomics_table 2 "Value"
     = [tokenomics_value (JStr "n/a")].
Proof.
  do 10 (split; [vm_compute; reflexivity |]).
  exact (tokenomics_metric_rows
           Sample.key Sample.get_coin_tokenomics Sample.to_datetime
           "btc" "bitcoin" Sample.tokenomics_world
           (JObj [("data", Sample.tokenomics_body)]) Sample.consensus_body
           (JStr "Deflationary") (JStr "Proof-of-Work") (JStr "n/a")
           JNull (JNum 6) Sample.tokenomics_table Sample.supply_table
           eq_refl eq_refl eq_refl eq_refl eq_refl eq_refl eq_refl eq_refl
           eq_refl 2 "Consensus Details" (JStr "n/a") eq_refl).
Defined.

Lemma product_info_needs_audit_dates_witness :
  status_code (Sample.always (Sample.ok Sample.undated_audits_body)
                 (sample_request (ProjectProductInfo "btc"))) = 200%Z
  /\ payload (Sample.always (Sample.ok Sample.undated_audits_body)
                (sample_request (ProjectProductInfo "btc")))
     = Some (JObj [("data", Sample.undated_audits_body)])
  /\ Json.getpath (JObj [("data", Sample.undated_audits_body)])
                  ["data"; "profile"; "technology"; "security"; "audits"]
     = inr (JArr (map JObj [Sample.undated_audit]))
  /\ pd.empty (pd.from_records [Sample.undated_audit]) = false
  /\ ~ In "Date" (Sample.prettify_column_names
                    (pd.union_keys [Sample.undated_audit]))
  /\ exists e,
      get_project_product_info
        Sample.prettify_column_names Sample.to_datetime "btc"
        (Sample.always (Sample.ok Sample.undated_audits_body))
      = (inl e, [Get (sample_request (ProjectProductInfo "btc"))]).
Proof.
  assert (~ In "Date" (Sample.prettify_column_names
                         (pd.union_keys [Sample.undated_audit]))) as H
      by (vm_compute; intros [H | [H | []]]; discriminate H).
  do 4 (split; [vm_compute; reflexivity |]). split; [exact H |].
  exact (product_info_needs_audit_dates
           Sample.key Sample.prettify_column_names Sample.to_datetime
           "btc" (Sample.always (Sample.ok Sample.undated_audits_body))
           (JObj [("data", Sample.undated_audits_body)])
           [Sample.undated_audit]
           eq_refl eq_refl eq_refl eq_refl H).
Defined.
